(** * node.ext.ldap: the LDAP node tree and the POSIX default callbacks

    A shallow embedding of [node/ext/ldap/_node.py] (the attribute
    behaviour [LDAPAttributesBehavior] and the tree engine [LDAPStorage])
    and of [node/ext/ldap/ugm/posix.py].

    Python objects live in a store and are referred to by index, so that
    the aliasing between a node, its parent and its attribute objects is
    the one of the program.  Methods are computations in a state and
    exception monad; a raised exception keeps the mutations made before it,
    as in Python. *)

From stdpp Require Import base gmap sets list strings sorting.
From Stdlib Require Import ZArith Lia Ascii DecimalString.

(** ** The Python runtime: exceptions and the state-exception monad *)

Module Py.

(** The exception classes the modelled code raises or catches.
    [SystemError] stands for a reference to an object that is not in the
    store, which no Python program can produce. *)
Inductive exn :=
| KeyError
| ValueError
| RuntimeError
| AttributeError
| TypeError
| IndexError
| UnboundLocalError
| RecursionError
| NO_SUCH_OBJECT
| INVALID_DN_SYNTAX
| LDAPError
| SystemError.

#[global] Instance exn_eq_dec : EqDecision exn.
Proof. solve_decision. Defined.

Inductive res (A : Type) :=
| Ok (a : A)
| Raise (e : exn).
Arguments Ok {A} a.
Arguments Raise {A} e.

Definition M (S A : Type) : Type := S → res A * S.

Definition ret {S A} (a : A) : M S A := λ s, (Ok a, s).

Definition raise {S A} (e : exn) : M S A := λ s, (Raise e, s).

Definition bind {S A B} (m : M S A) (k : A → M S B) : M S B :=
  λ s, match m s with
       | (Ok a, s') => k a s'
       | (Raise e, s') => (Raise e, s')
       end.

(** [try: m except (classes): h].  The handler runs in the state the
    exception left behind. *)
Definition try_except {S A} (m : M S A) (catches : exn → bool)
    (h : M S A) : M S A :=
  λ s, match m s with
       | (Ok a, s') => (Ok a, s')
       | (Raise e, s') => if catches e then h s' else (Raise e, s')
       end.

Definition gets {S A} (f : S → A) : M S A := λ s, (Ok (f s), s).

Definition modify {S} (f : S → S) : M S unit := λ s, (Ok tt, f s).

(** [for x in l: body x] *)
Fixpoint for_each {S A} (l : list A) (body : A → M S unit) : M S unit :=
  match l with
  | [] => ret tt
  | x :: l' => bind (body x) (λ _, for_each l' body)
  end.

(** [[f x for x in l]] *)
Fixpoint map_m {S A B} (f : A → M S B) (l : list A) : M S (list B) :=
  match l with
  | [] => ret []
  | x :: l' => bind (f x) (λ y, bind (map_m f l') (λ ys, ret (y :: ys)))
  end.

End Py.

Export Py.

Declare Scope py_scope.
Delimit Scope py_scope with py.
Notation "'let*' x ':=' m 'in' k" := (bind m (λ x, k))
  (at level 10, x name, m at level 100, k at level 200) : py_scope.
Notation "m ';;' k" := (bind m (λ _, k))
  (at level 100, k at level 200, right associativity) : py_scope.
Open Scope py_scope.

(** ** The data model *)

Module Model.

(** [ACTION_ADD = 0], [ACTION_MODIFY = 1], [ACTION_DELETE = 2]; the
    attribute [_action] is [None] or one of them. *)
Inductive action := ACTION_ADD | ACTION_MODIFY | ACTION_DELETE.

#[global] Instance action_eq_dec : EqDecision action.
Proof. solve_decision. Defined.

(** An attribute value: one string, or a list of strings. *)
Inductive value :=
| VStr (s : string)
| VList (l : list string).

#[global] Instance value_eq_dec : EqDecision value.
Proof. solve_decision. Defined.

Inductive scope := BASE | ONELEVEL | SUBTREE.

Inductive modop := MOD_ADD | MOD_DELETE | MOD_REPLACE.

#[global] Instance modop_eq_dec : EqDecision modop.
Proof. solve_decision. Defined.

(** A modify operation [(op, name, value-or-None)]. *)
Definition moddef : Type := modop * string * option value.

(** A directory entry as the session returns it: [(dn, attrs)], every
    attribute with its list of values. *)
Definition entry : Type := string * list (string * list string).

(** The arguments of [LDAPSession.search].  [q_filter = None] is the
    session's default filter. *)
Record query := {
  q_filter : option string;
  q_scope : scope;
  q_baseDN : string;
  q_force_reload : bool;
  q_attrlist : list string;
  q_page_size : option nat;
  q_cookie : option string
}.

(** What [LDAPSession.search] returns: a list of matches, or a tuple of
    the matches and a cookie. *)
Inductive reply :=
| Plain (matches : list entry)
| Paged (matches : list entry) (cookie : option string).

(** A call made on the session. *)
Inductive call :=
| CallSearch (q : query)
| CallAdd (dn : string) (attrs : list (string * value))
| CallModify (dn : string) (modlist : list moddef)
| CallDelete (dn : string).

(** [relation] argument of [search]: a relation filter object, or the
    text of a relation. *)
Inductive relation_arg (F : Type) :=
| RelFilter (f : F)
| RelText (s : string).
Arguments RelFilter {F} f.
Arguments RelText {F} s.

(** What the code uses and this file does not define: the codec of
    [node.utils], [explode_dn] of python-ldap, the filter classes of
    [node.ext.ldap.filter] and the session of [node.ext.ldap].
    [clear_via_delitem] says whether the mapping method [clear] of the
    [node] package deletes the keys one by one through [__delitem__] or
    empties the storage directly; every statement holds for both. *)
Class Boundary := {
  World : Type;
  encode : string → string;
  decode : string → string;
  explode_dn : string → res (list string);
  Filter : Type;
  LDAPFilter : option string → Filter;
  LDAPDictFilter :
    option (list (string * value)) → bool →
    option (list string) → option (list string) → Filter;
  LDAPRelationFilter : nat → string → Filter;
  filter_and : Filter → Filter → Filter;
  filter_and_text : Filter → string → Filter;
  filter_contains : string → Filter → bool;
  filter_str : Filter → string;
  session_search : query → World → res reply * World;
  session_add : string → list (string * value) → World → res unit * World;
  session_modify : string → list moddef → World → res unit * World;
  session_delete : string → World → res unit * World;
  clear_via_delitem : bool
}.

(** [encode]/[decode] of a value: a list is converted element-wise. *)
Definition encode_value `{Boundary} (v : value) : value :=
  match v with
  | VStr s => VStr (encode s)
  | VList l => VList (encode <$> l)
  end.

Definition decode_value `{Boundary} (v : value) : value :=
  match v with
  | VStr s => VStr (decode s)
  | VList l => VList (decode <$> l)
  end.

(** A value of [child_defaults]: a literal, or a callable, known by its
    name, that is applied to the parent and the key. *)
Inductive child_default :=
| DefaultValue (v : value)
| DefaultCallable (f : string).

(** An attribute object ([LDAPNodeAttributes]): its owning node, its
    ordered items and its [changed] flag. *)
Record Attrs := {
  a_parent : nat;
  a_items : list (string * value);
  a_changed : bool
}.

(** An [LDAPNode].  [storage] is the ordered dict of materialised
    children, [ns_attrs] is [nodespaces['__attrs__']] when it exists. *)
Record Node `{Boundary} := {
  __name__ : option string;
  __parent__ : option nat;
  _dn : option string;
  _ldap_session : bool;
  _changed : bool;
  _action : option action;
  _added_children : gset string;
  _modified_children : gset string;
  _deleted_children : gset string;
  _reload : bool;
  _multivalued_attributes : gset string;
  _binary_attributes : gset string;
  _key_attr : string;
  _rdn_attr : option string;
  search_scope : scope;
  search_filter : option string;
  search_criteria : option (list (string * value));
  search_relation : option (relation_arg Filter);
  child_defaults : option (list (string * child_default));
  storage : list (string * nat);
  ns_attrs : option nat
}.

Record State `{Boundary} := {
  nodes : list Node;
  attrs_heap : list Attrs;
  world : World;
  calls : list call
}.

End Model.

Export Model.

(** ** The store: field assignment and object access *)

Module Store.

(** [x.field = v] on a node record. *)
Definition set__name__ `{Boundary} (v : _) (x : Node) : Node :=
  {| __name__ := v; __parent__ := __parent__ x; _dn := _dn x;
     _ldap_session := _ldap_session x; _changed := _changed x;
     _action := _action x; _added_children := _added_children x;
     _modified_children := _modified_children x;
     _deleted_children := _deleted_children x; _reload := _reload x;
     _multivalued_attributes := _multivalued_attributes x;
     _binary_attributes := _binary_attributes x; _key_attr := _key_attr x;
     _rdn_attr := _rdn_attr x; search_scope := search_scope x;
     search_filter := search_filter x;
     search_criteria := search_criteria x;
     search_relation := search_relation x;
     child_defaults := child_defaults x; storage := storage x;
     ns_attrs := ns_attrs x |}.

Definition set__parent__ `{Boundary} (v : _) (x : Node) : Node :=
  {| __name__ := __name__ x; __parent__ := v; _dn := _dn x;
     _ldap_session := _ldap_session x; _changed := _changed x;
     _action := _action x; _added_children := _added_children x;
     _modified_children := _modified_children x;
     _deleted_children := _deleted_children x; _reload := _reload x;
     _multivalued_attributes := _multivalued_attributes x;
     _binary_attributes := _binary_attributes x; _key_attr := _key_attr x;
     _rdn_attr := _rdn_attr x; search_scope := search_scope x;
     search_filter := search_filter x;
     search_criteria := search_criteria x;
     search_relation := search_relation x;
     child_defaults := child_defaults x; storage := storage x;
     ns_attrs := ns_attrs x |}.

Definition set_dn `{Boundary} (v : _) (x : Node) : Node :=
  {| __name__ := __name__ x; __parent__ := __parent__ x; _dn := v;
     _ldap_session := _ldap_session x; _changed := _changed x;
     _action := _action x; _added_children := _added_children x;
     _modified_children := _modified_children x;
     _deleted_children := _deleted_children x; _reload := _reload x;
     _multivalued_attributes := _multivalued_attributes x;
     _binary_attributes := _binary_attributes x; _key_attr := _key_attr x;
     _rdn_attr := _rdn_attr x; search_scope := search_scope x;
     search_filter := search_filter x;
     search_criteria := search_criteria x;
     search_relation := search_relation x;
     child_defaults := child_defaults x; storage := storage x;
     ns_attrs := ns_attrs x |}.

Definition set_ldap_session `{Boundary} (v : _) (x : Node) : Node :=
  {| __name__ := __name__ x; __parent__ := __parent__ x; _dn := _dn x;
     _ldap_session := v; _changed := _changed x; _action := _action x;
     _added_children := _added_children x;
     _modified_children := _modified_children x;
     _deleted_children := _deleted_children x; _reload := _reload x;
     _multivalued_attributes := _multivalued_attributes x;
     _binary_attributes := _binary_attributes x; _key_attr := _key_attr x;
     _rdn_attr := _rdn_attr x; search_scope := search_scope x;
     search_filter := search_filter x;
     search_criteria := search_criteria x;
     search_relation := search_relation x;
     child_defaults := child_defaults x; storage := storage x;
     ns_attrs := ns_attrs x |}.

Definition set_changed `{Boundary} (v : _) (x : Node) : Node :=
  {| __name__ := __name__ x; __parent__ := __parent__ x; _dn := _dn x;
     _ldap_session := _ldap_session x; _changed := v; _action := _action x;
     _added_children := _added_children x;
     _modified_children := _modified_children x;
     _deleted_children := _deleted_children x; _reload := _reload x;
     _multivalued_attributes := _multivalued_attributes x;
     _binary_attributes := _binary_attributes x; _key_attr := _key_attr x;
     _rdn_attr := _rdn_attr x; search_scope := search_scope x;
     search_filter := search_filter x;
     search_criteria := search_criteria x;
     search_relation := search_relation x;
     child_defaults := child_defaults x; storage := storage x;
     ns_attrs := ns_attrs x |}.

Definition set_action `{Boundary} (v : _) (x : Node) : Node :=
  {| __name__ := __name__ x; __parent__ := __parent__ x; _dn := _dn x;
     _ldap_session := _ldap_session x; _changed := _changed x;
     _action := v; _added_children := _added_children x;
     _modified_children := _modified_children x;
     _deleted_children := _deleted_children x; _reload := _reload x;
     _multivalued_attributes := _multivalued_attributes x;
     _binary_attributes := _binary_attributes x; _key_attr := _key_attr x;
     _rdn_attr := _rdn_attr x; search_scope := search_scope x;
     search_filter := search_filter x;
     search_criteria := search_criteria x;
     search_relation := search_relation x;
     child_defaults := child_defaults x; storage := storage x;
     ns_attrs := ns_attrs x |}.

Definition set_added_children `{Boundary} (v : _) (x : Node) : Node :=
  {| __name__ := __name__ x; __parent__ := __parent__ x; _dn := _dn x;
     _ldap_session := _ldap_session x; _changed := _changed x;
     _action := _action x; _added_children := v;
     _modified_children := _modified_children x;
     _deleted_children := _deleted_children x; _reload := _reload x;
     _multivalued_attributes := _multivalued_attributes x;
     _binary_attributes := _binary_attributes x; _key_attr := _key_attr x;
     _rdn_attr := _rdn_attr x; search_scope := search_scope x;
     search_filter := search_filter x;
     search_criteria := search_criteria x;
     search_relation := search_relation x;
     child_defaults := child_defaults x; storage := storage x;
     ns_attrs := ns_attrs x |}.

Definition set_modified_children `{Boundary} (v : _) (x : Node) : Node :=
  {| __name__ := __name__ x; __parent__ := __parent__ x; _dn := _dn x;
     _ldap_session := _ldap_session x; _changed := _changed x;
     _action := _action x; _added_children := _added_children x;
     _modified_children := v; _deleted_children := _deleted_children x;
     _reload := _reload x;
     _multivalued_attributes := _multivalued_attributes x;
     _binary_attributes := _binary_attributes x; _key_attr := _key_attr x;
     _rdn_attr := _rdn_attr x; search_scope := search_scope x;
     search_filter := search_filter x;
     search_criteria := search_criteria x;
     search_relation := search_relation x;
     child_defaults := child_defaults x; storage := storage x;
     ns_attrs := ns_attrs x |}.

Definition set_deleted_children `{Boundary} (v : _) (x : Node) : Node :=
  {| __name__ := __name__ x; __parent__ := __parent__ x; _dn := _dn x;
     _ldap_session := _ldap_session x; _changed := _changed x;
     _action := _action x; _added_children := _added_children x;
     _modified_children := _modified_children x; _deleted_children := v;
     _reload := _reload x;
     _multivalued_attributes := _multivalued_attributes x;
     _binary_attributes := _binary_attributes x; _key_attr := _key_attr x;
     _rdn_attr := _rdn_attr x; search_scope := search_scope x;
     search_filter := search_filter x;
     search_criteria := search_criteria x;
     search_relation := search_relation x;
     child_defaults := child_defaults x; storage := storage x;
     ns_attrs := ns_attrs x |}.

Definition set_reload `{Boundary} (v : _) (x : Node) : Node :=
  {| __name__ := __name__ x; __parent__ := __parent__ x; _dn := _dn x;
     _ldap_session := _ldap_session x; _changed := _changed x;
     _action := _action x; _added_children := _added_children x;
     _modified_children := _modified_children x;
     _deleted_children := _deleted_children x; _reload := v;
     _multivalued_attributes := _multivalued_attributes x;
     _binary_attributes := _binary_attributes x; _key_attr := _key_attr x;
     _rdn_attr := _rdn_attr x; search_scope := search_scope x;
     search_filter := search_filter x;
     search_criteria := search_criteria x;
     search_relation := search_relation x;
     child_defaults := child_defaults x; storage := storage x;
     ns_attrs := ns_attrs x |}.

Definition set_storage `{Boundary} (v : _) (x : Node) : Node :=
  {| __name__ := __name__ x; __parent__ := __parent__ x; _dn := _dn x;
     _ldap_session := _ldap_session x; _changed := _changed x;
     _action := _action x; _added_children := _added_children x;
     _modified_children := _modified_children x;
     _deleted_children := _deleted_children x; _reload := _reload x;
     _multivalued_attributes := _multivalued_attributes x;
     _binary_attributes := _binary_attributes x; _key_attr := _key_attr x;
     _rdn_attr := _rdn_attr x; search_scope := search_scope x;
     search_filter := search_filter x;
     search_criteria := search_criteria x;
     search_relation := search_relation x;
     child_defaults := child_defaults x; storage := v;
     ns_attrs := ns_attrs x |}.

Definition set_ns_attrs `{Boundary} (v : _) (x : Node) : Node :=
  {| __name__ := __name__ x; __parent__ := __parent__ x; _dn := _dn x;
     _ldap_session := _ldap_session x; _changed := _changed x;
     _action := _action x; _added_children := _added_children x;
     _modified_children := _modified_children x;
     _deleted_children := _deleted_children x; _reload := _reload x;
     _multivalued_attributes := _multivalued_attributes x;
     _binary_attributes := _binary_attributes x; _key_attr := _key_attr x;
     _rdn_attr := _rdn_attr x; search_scope := search_scope x;
     search_filter := search_filter x;
     search_criteria := search_criteria x;
     search_relation := search_relation x;
     child_defaults := child_defaults x; storage := storage x;
     ns_attrs := v |}.

Definition set_a_items (v : list (string * value)) (o : Attrs) : Attrs :=
  {| a_parent := a_parent o; a_items := v; a_changed := a_changed o |}.

Definition set_a_changed (v : bool) (o : Attrs) : Attrs :=
  {| a_parent := a_parent o; a_items := a_items o; a_changed := v |}.

Definition set_nodes `{Boundary} (v : list Node) (s : State) : State :=
  {| nodes := v; attrs_heap := attrs_heap s; world := world s;
     calls := calls s |}.

Definition set_attrs_heap `{Boundary} (v : list Attrs) (s : State) : State :=
  {| nodes := nodes s; attrs_heap := v; world := world s;
     calls := calls s |}.

(** A session call: the world moves on and the call is logged. *)
Definition set_world `{Boundary} (w : World) (c : call) (s : State) : State :=
  {| nodes := nodes s; attrs_heap := attrs_heap s; world := w;
     calls := calls s ++ [c] |}.

Section access.
Context `{B : Boundary}.

Definition node_get (n : nat) : M State Node :=
  λ s, match nodes s !! n with
       | Some x => (Ok x, s)
       | None => (Raise SystemError, s)
       end.

Definition node_upd (n : nat) (f : Node → Node) : M State unit :=
  λ s, match nodes s !! n with
       | Some x => (Ok tt, set_nodes (<[n := f x]> (nodes s)) s)
       | None => (Raise SystemError, s)
       end.

Definition node_new (x : Node) : M State nat :=
  λ s, (Ok (length (nodes s)), set_nodes (nodes s ++ [x]) s).

Definition attrs_get (a : nat) : M State Attrs :=
  λ s, match attrs_heap s !! a with
       | Some o => (Ok o, s)
       | None => (Raise SystemError, s)
       end.

Definition attrs_upd (a : nat) (f : Attrs → Attrs) : M State unit :=
  λ s, match attrs_heap s !! a with
       | Some o => (Ok tt, set_attrs_heap (<[a := f o]> (attrs_heap s)) s)
       | None => (Raise SystemError, s)
       end.

Definition attrs_new (o : Attrs) : M State nat :=
  λ s, (Ok (length (attrs_heap s)),
        set_attrs_heap (attrs_heap s ++ [o]) s).

(** [session.search(...)], [session.add(...)], [session.modify(...)]
    and [session.delete(...)]. *)
Definition call_search (q : query) : M State reply :=
  λ s, let '(r, w) := session_search q (world s) in
       (r, set_world w (CallSearch q) s).

Definition call_add (dn : string) (attrs : list (string * value))
    : M State unit :=
  λ s, let '(r, w) := session_add dn attrs (world s) in
       (r, set_world w (CallAdd dn attrs) s).

Definition call_modify (dn : string) (modlist : list moddef)
    : M State unit :=
  λ s, let '(r, w) := session_modify dn modlist (world s) in
       (r, set_world w (CallModify dn modlist) s).

Definition call_delete (dn : string) : M State unit :=
  λ s, let '(r, w) := session_delete dn (world s) in
       (r, set_world w (CallDelete dn) s).

End access.

(** Ordered dicts as association lists: [d[k]], [d[k] = v] (in place
    when the key exists, appended otherwise), [del d[k]], [k in d]. *)
Section odict.
Context {V : Type}.

Fixpoint od_get (k : string) (d : list (string * V)) : option V :=
  match d with
  | [] => None
  | (k', v) :: d' => if decide (k = k') then Some v else od_get k d'
  end.

Fixpoint od_set (k : string) (v : V) (d : list (string * V))
    : list (string * V) :=
  match d with
  | [] => [(k, v)]
  | (k', v') :: d' =>
      if decide (k = k') then (k, v) :: d' else (k', v') :: od_set k v d'
  end.

Fixpoint od_del (k : string) (d : list (string * V)) : list (string * V) :=
  match d with
  | [] => []
  | (k', v') :: d' =>
      if decide (k = k') then d' else (k', v') :: od_del k d'
  end.

Definition od_mem (k : string) (d : list (string * V)) : bool :=
  bool_decide (is_Some (od_get k d)).

End odict.

End Store.

Export Store.

(** ** [LDAPStorage]: the properties [ldap_session], [DN], [changed]
    and the method [child_dn], which the attribute behaviour uses *)

Module LDAPStorageProperties.
Section defs.
Context `{B : Boundary}.

(** Truth value of a string-or-None: [None] and [''] are false. *)
Definition truthy (o : option string) : bool :=
  match o with
  | Some s => negb (bool_decide (s = ""))
  | None => false
  end.

(** [u','.join([a, b])] *)
Definition join2 (a b : string) : string := a +:+ "," +:+ b.

(** [child_dn(self, key)]: [decode] leaves [None] as it is and [join]
    refuses it with a [TypeError]. *)
Definition child_dn (n : nat) (key : option string) : M State string :=
  let* x := node_get n in
  match key with
  | None => raise TypeError
  | Some k =>
      if truthy (_dn x) then
        match _dn x with
        | Some d => ret (join2 (decode k) (decode d))
        | None => raise TypeError
        end
      else
        match __name__ x with
        | Some nm => ret (join2 (decode k) (decode nm))
        | None => raise TypeError
        end
  end.

(** The property [DN].  A node object is always true
    ([Nodify.__nonzero__]), so [if self.parent] tests for [None]. *)
Definition DN (n : nat) : M State string :=
  let* x := node_get n in
  match __parent__ x with
  | Some p => child_dn p (__name__ x)
  | None =>
      if truthy (__name__ x) then
        match __name__ x with
        | Some nm => ret (decode nm)
        | None => ret ""
        end
      else ret ""
  end.

Definition _get_changed (n : nat) : M State bool :=
  let* x := node_get n in ret (_changed x).

(** [len(self._added_children) or len(self._modified_children) or
    len(self._deleted_children)] *)
Definition has_staged_children (x : Node) : bool :=
  negb (bool_decide (_added_children x = ∅))
  || negb (bool_decide (_modified_children x = ∅))
  || negb (bool_decide (_deleted_children x = ∅)).

(** [self.nodespaces['__attrs__'].changed], with the [KeyError] of a
    missing nodespace caught and ignored. *)
Definition ns_attrs_changed (x : Node) : M State bool :=
  match ns_attrs x with
  | Some a => let* o := attrs_get a in ret (a_changed o)
  | None => ret false
  end.

(** The setter [_set_changed].  The recursion climbs the parents; each
    recursive call has just switched one more flag to [value], so a
    depth of one more than the number of nodes is never reached (see
    [set_changed_rec_enough]). *)
Fixpoint set_changed_rec (fuel : nat) (n : nat) (value : bool)
    : M State unit :=
  match fuel with
  | 0 => raise RecursionError
  | S fuel' =>
      let* x := node_get n in
      let oldval := _changed x in
      if bool_decide (value = oldval) then ret tt
      else
        let* assigned :=
          (if value then
             node_upd n (set_changed true) ;; ret true
           else if has_staged_children x then ret false
           else
             let* c := ns_attrs_changed x in
             if c then ret false
             else node_upd n (set_changed false) ;; ret true) in
        if assigned : bool then
          let* x' := node_get n in
          if negb (bool_decide (_changed x' = oldval)) then
            match __parent__ x' with
            | Some p => set_changed_rec fuel' p (_changed x')
            | None => ret tt
            end
          else ret tt
        else ret tt
  end.

Definition _set_changed (n : nat) (value : bool) : M State unit :=
  λ s, set_changed_rec (S (length (nodes s))) n value s.

(** [Nodify.root]: the topmost ancestor.  On a cyclic parent chain the
    Python loop does not end; the model then gives [RecursionError]. *)
Fixpoint root_rec (fuel : nat) (ns : list Node) (n : nat) : res nat :=
  match fuel with
  | 0 => Raise RecursionError
  | S fuel' =>
      match ns !! n with
      | None => Raise SystemError
      | Some x =>
          match __parent__ x with
          | Some p => root_rec fuel' ns p
          | None => Ok n
          end
      end
  end.

Definition root (n : nat) : M State nat :=
  λ s, (root_rec (S (length (nodes s))) (nodes s) n, s).

End defs.
End LDAPStorageProperties.

Export LDAPStorageProperties.

(** ** [LDAPAttributesBehavior] *)

Module LDAPAttributesBehavior.
Section defs.
Context `{B : Boundary}.

(** The base search of [load]: all attributes of the entry [dn]. *)
Definition fetch_query (dn : string) (reload : bool) : query :=
  {| q_filter := None; q_scope := BASE; q_baseDN := encode dn;
     q_force_reload := reload; q_attrlist := ["*"];
     q_page_size := None; q_cookie := None |}.

(** The base search of [__getitem__] and [__setitem__]: is there an
    entry [dn]; no attribute is asked for. *)
Definition probe_query (dn : string) : query :=
  {| q_filter := None; q_scope := BASE; q_baseDN := encode dn;
     q_force_reload := false; q_attrlist := [""];
     q_page_size := None; q_cookie := None |}.

Definition is_binary (a : nat) (name : string) : M State bool :=
  let* o := attrs_get a in
  let* r := root (a_parent o) in
  let* x := node_get r in
  ret (bool_decide (name ∈ _binary_attributes x)).

Definition is_multivalued (a : nat) (name : string) : M State bool :=
  let* o := attrs_get a in
  let* r := root (a_parent o) in
  let* x := node_get r in
  ret (bool_decide (name ∈ _multivalued_attributes x)).

(** [s.add(name)] / [s.remove(name)] on one of the three sets of a
    node.  A child under a parent has a name; a nameless one is outside
    the model. *)
Definition with_name (o : option string) (k : string → M State unit)
    : M State unit :=
  match o with
  | Some nm => k nm
  | None => raise SystemError
  end.

Definition modified_add (p : nat) (nm : string) : M State unit :=
  node_upd p (λ x, set_modified_children ({[nm]} ∪ _modified_children x) x).

Definition modified_remove (p : nat) (nm : string) : M State unit :=
  let* x := node_get p in
  if bool_decide (nm ∈ _modified_children x) then
    node_upd p (set_modified_children (_modified_children x ∖ {[nm]}))
  else raise KeyError.

Definition action_staged (o : option action) : bool :=
  bool_decide (o = Some ACTION_ADD) || bool_decide (o = Some ACTION_DELETE).

Definition _set_attrs_modified (a : nat) : M State unit :=
  let* o := attrs_get a in
  let ldap_node := a_parent o in
  attrs_upd a (set_a_changed true) ;;
  let* x := node_get ldap_node in
  if negb (action_staged (_action x)) then
    node_upd ldap_node (set_action (Some ACTION_MODIFY)) ;;
    _set_changed ldap_node true ;;
    let* x' := node_get ldap_node in
    match __parent__ x' with
    | Some p => with_name (__name__ x') (modified_add p)
    | None => ret tt
    end
  else ret tt.

Definition __setitem__ (a : nat) (key : string) (val : value)
    : M State unit :=
  let* b := is_binary a key in
  let val := if b then val else decode_value val in
  let key := decode key in
  attrs_upd a (λ o, set_a_items (od_set key val (a_items o)) o) ;;
  _set_attrs_modified a.

Definition __delitem__ (a : nat) (key : string) : M State unit :=
  let* o := attrs_get a in
  if od_mem key (a_items o) then
    attrs_upd a (λ o, set_a_items (od_del key (a_items o)) o) ;;
    _set_attrs_modified a
  else raise KeyError.

Definition clear (a : nat) : M State unit :=
  let* o := attrs_get a in
  if clear_via_delitem then for_each (a_items o).*1 (__delitem__ a)
  else attrs_upd a (set_a_items []).

(** [self[key] = item[0]] for a single value of an attribute that is
    not multivalued, [self[key] = item] otherwise. *)
Definition load_item (a : nat) (kv : string * list string)
    : M State unit :=
  let '(key, item) := kv in
  match item with
  | [v] =>
      let* mv := is_multivalued a key in
      if negb mv then __setitem__ a key (VStr v)
      else __setitem__ a key (VList item)
  | _ => __setitem__ a key (VList item)
  end.

(** The end of [load]: "node has been modified prior to (re)loading
    attributes, so unset markers there too". *)
Definition unset_markers (ldap_node : nat) : M State unit :=
  let* x := node_get ldap_node in
  if negb (action_staged (_action x)) then
    match __parent__ x with
    | Some p => with_name (__name__ x) (modified_remove p)
    | None => ret tt
    end ;;
    node_upd ldap_node (set_action None) ;;
    _set_changed ldap_node false
  else ret tt.

Definition load (a : nat) : M State unit :=
  let* o := attrs_get a in
  let ldap_node := a_parent o in
  let* x := node_get ldap_node in
  if negb (truthy (__name__ x)) || negb (_ldap_session x)
     || bool_decide (_action x = Some ACTION_ADD) then ret tt
  else
    clear a ;;
    let* dn := DN ldap_node in
    let* x := node_get ldap_node in
    let* entry := call_search (fetch_query dn (_reload x)) in
    match entry with
    | Plain [(_, attrs)] =>
        for_each attrs (load_item a) ;;
        attrs_upd a (set_a_changed false) ;;
        unset_markers ldap_node
    | _ => raise RuntimeError
    end.

(** [attributes_factory(name='__attrs__', parent=self)]: the
    constructor makes the object and calls [load]. *)
Definition attributes_factory (n : nat) : M State nat :=
  let* a := attrs_new {| a_parent := n; a_items := [];
                         a_changed := false |} in
  load a ;;
  ret a.

(** The property [attrs] of the [node] package: the attribute object
    of the nodespace, made by the factory on first access. *)
Definition attrs (n : nat) : M State nat :=
  let* x := node_get n in
  match ns_attrs x with
  | Some a => ret a
  | None =>
      let* a := attributes_factory n in
      node_upd n (set_ns_attrs (Some a)) ;;
      ret a
  end.

End defs.
End LDAPAttributesBehavior.

Export LDAPAttributesBehavior.

(** ** [LDAPStorage] *)

Module LDAPStorage.

(** The arguments of [search], with the defaults of the signature. *)
Record search_args `{Boundary} := {
  queryFilter : option string;
  criteria : option (list (string * value));
  attrlist : option (list string);
  relation : option (relation_arg Filter);
  relation_node : option nat;
  exact_match : bool;
  or_search : bool;
  or_keys : option (list string);
  or_values : option (list string);
  page_size : option nat;
  cookie : option string
}.

(** One element of the result of [search]: the key alone, or the key
    with the requested attributes. *)
Definition result_item : Type := string * option (list (string * value)).

(** [res], or [(res, cookie)] when there is a cookie. *)
Inductive search_result :=
| Results (res : list result_item)
| ResultsPaged (res : list result_item) (cookie : string).

(** The value assigned by [__setitem__]: an [LDAPNode], or another
    object with or without an [attrs] mapping. *)
Inductive vessel :=
| IsNode (c : nat)
| OtherObject (attrs : option (list (string * value))).

Section defs.
Context `{B : Boundary}.

Definition no_args : search_args :=
  {| queryFilter := None; criteria := None; attrlist := None;
     relation := None; relation_node := None; exact_match := false;
     or_search := false; or_keys := None; or_values := None;
     page_size := None; cookie := None |}.

(** [LDAPNode()], as [__init__] leaves it without name and props. *)
Definition new_LDAPNode : Node :=
  {| __name__ := None; __parent__ := None; _dn := None;
     _ldap_session := false; _changed := false; _action := None;
     _added_children := ∅; _modified_children := ∅;
     _deleted_children := ∅; _reload := false;
     _multivalued_attributes := ∅; _binary_attributes := ∅;
     _key_attr := "rdn"; _rdn_attr := None; search_scope := ONELEVEL;
     search_filter := None; search_criteria := None;
     search_relation := None; child_defaults := None; storage := [];
     ns_attrs := None |}.

(** [self.ldap_session.<method>]: without a session the attribute
    lookup on [None] fails. *)
Definition need_session (n : nat) : M State unit :=
  let* x := node_get n in
  if _ldap_session x then ret tt else raise AttributeError.

Definition catches_not_found (e : exn) : bool :=
  bool_decide (e = NO_SUCH_OBJECT) || bool_decide (e = INVALID_DN_SYNTAX).

(** [res[0][0]] of an unpaged reply.  A tuple reply answers paged
    queries only and is outside the model here. *)
Definition first_dn (r : reply) : M State string :=
  match r with
  | Plain ((dn, _) :: _) => ret dn
  | Plain [] => raise IndexError
  | Paged _ _ => raise TypeError
  end.

(** Keys are text here: the [isinstance(key, str)] conversion of a
    byte-string key is left to the caller. *)
Definition __getitem__ (n : nat) (key : string) : M State nat :=
  let* x := node_get n in
  match od_get key (storage x) with
  | Some c => ret c
  | None =>
      let* val := node_new new_LDAPNode in
      node_upd val (set__name__ (Some key)) ;;
      node_upd val (set__parent__ (Some n)) ;;
      try_except
        (need_session n ;;
         let* dn := DN val in
         let* res := call_search (probe_query dn) in
         let* dn0 := first_dn res in
         node_upd val (set_dn (Some dn0)) ;;
         let* x := node_get n in
         node_upd val (set_ldap_session (_ldap_session x)) ;;
         node_upd n (λ x, set_storage (od_set key val (storage x)) x) ;;
         ret val)
        catches_not_found
        (raise KeyError)
  end.

Definition deleted_add (p : nat) (nm : string) : M State unit :=
  node_upd p (λ x, set_deleted_children ({[nm]} ∪ _deleted_children x) x).

Definition deleted_remove (p : nat) (nm : string) : M State unit :=
  let* x := node_get p in
  if bool_decide (nm ∈ _deleted_children x) then
    node_upd p (set_deleted_children (_deleted_children x ∖ {[nm]}))
  else raise KeyError.

Definition added_add (p : nat) (nm : string) : M State unit :=
  node_upd p (λ x, set_added_children ({[nm]} ∪ _added_children x) x).

Definition added_remove (p : nat) (nm : string) : M State unit :=
  let* x := node_get p in
  if bool_decide (nm ∈ _added_children x) then
    node_upd p (set_added_children (_added_children x ∖ {[nm]}))
  else raise KeyError.

Definition __delitem__ (n : nat) (key : string) : M State unit :=
  let* val := __getitem__ n key in
  node_upd val (set_action (Some ACTION_DELETE)) ;;
  _set_changed val true ;;
  deleted_add n key.

(** [_calculate_key(self, dn, attrs)] *)
Definition _calculate_key (n : nat) (e : entry) : M State string :=
  let '(dn, attrs) := e in
  let* x := node_get n in
  if bool_decide (_key_attr x = "rdn") then
    match explode_dn (encode dn) with
    | Ok (k :: _) => ret (decode k)
    | Ok [] => raise IndexError
    | Raise err => raise err
    end
  else
    match od_get (_key_attr x) attrs with
    | None => raise KeyError
    | Some [k] => ret (decode k)
    | Some _ => raise KeyError
    end.

(** The loop over [attrs.iteritems()] that builds [resattr]. *)
Fixpoint result_attrs (n : nat) (al : list string)
    (attrs : list (string * list string))
    (resattr : list (string * value)) : M State (list (string * value)) :=
  match attrs with
  | [] => ret resattr
  | (k, v) :: attrs' =>
      if bool_decide (k ∈ al) then
        let* a := LDAPAttributesBehavior.attrs n in
        let* b := is_binary a k in
        result_attrs n al attrs'
          (od_set (decode k)
             (if b then VList v else VList (decode <$> v)) resattr)
      else result_attrs n al attrs' resattr
  end.

(** The body of the loop over the matches. *)
Definition result_of_match (n : nat) (al : option (list string))
    (e : entry) : M State result_item :=
  let* key := _calculate_key n e in
  match al with
  | Some al =>
      let* resattr := result_attrs n al e.2 [] in
      ret (key,
           Some (if bool_decide ("dn" ∈ al)
                 then od_set "dn" (VStr (decode e.1)) resattr
                 else resattr))
  | None => ret (key, None)
  end.

(** [if not relation: continue], then [_filter &= ...]. *)
Definition and_relation (relation_node : nat)
    (f : Filter) (r : option (relation_arg Filter)) : Filter :=
  match r with
  | None => f
  | Some (RelFilter rf) => filter_and f rf
  | Some (RelText t) =>
      if bool_decide (t = "") then f
      else filter_and f (LDAPRelationFilter relation_node t)
  end.

(** The first half of [search]: the attribute set and the filter,
    and with them the arguments of [session.search]. *)
Definition search_query (n : nat) (x : Node) (args : search_args)
    (dn : string) : query :=
  let attrset : gset string :=
    list_to_set (default [] (attrlist args)) ∖ {["dn"]} in
  let attrset :=
    if negb (bool_decide (_key_attr x = "rdn"))
    then attrset ∪ {[_key_attr x]} else attrset in
  let search_filter0 :=
    filter_and (LDAPFilter (queryFilter args))
      (LDAPDictFilter (criteria args) (or_search args) (or_keys args)
         (or_values args)) in
  let _filter :=
    filter_and
      (filter_and (LDAPFilter (search_filter x))
         (LDAPDictFilter (search_criteria x) false None None))
      search_filter0 in
  let relation_node := default n (relation_node args) in
  let _filter :=
    foldl (and_relation relation_node) _filter
      [relation args; search_relation x] in
  let _filter :=
    if negb (bool_decide (_key_attr x = "rdn"))
       && negb (filter_contains (_key_attr x) _filter)
    then filter_and_text _filter ("(" +:+ _key_attr x +:+ "=*)")
    else _filter in
  {| q_filter := Some (filter_str _filter);
     q_scope := search_scope x;
     q_baseDN := encode dn;
     q_force_reload := _reload x;
     q_attrlist := elements attrset;
     q_page_size := page_size args;
     q_cookie := cookie args |}.

(** [if type(matches) is tuple: matches, cookie = matches] *)
Definition unpack (r : reply) (cookie : option string)
    : list entry * option string :=
  match r with
  | Plain l => (l, cookie)
  | Paged l c => (l, c)
  end.

(** [return (res, cookie)] when there is a cookie, [return res]
    otherwise. *)
Definition pack (res : list result_item) (cookie : option string)
    : search_result :=
  match cookie with
  | Some c => ResultsPaged res c
  | None => Results res
  end.

Definition search (n : nat) (args : search_args) : M State search_result :=
  let* x := node_get n in
  need_session n ;;
  let* dn := DN n in
  let* r := call_search (search_query n x args dn) in
  let '(matches, cookie) := unpack r (cookie args) in
  if exact_match args && bool_decide (1 < length matches) then
    raise ValueError
  else if exact_match args && bool_decide (length matches = 0) then
    raise ValueError
  else
    let* res := map_m (result_of_match n (attrlist args)) matches in
    ret (pack res cookie).

(** [__iter__], run to its end: the list of the keys it yields, after
    [res = self.search(attrlist=['dn'])].  The result of an unpaged
    search is a list; a pair with a cookie is outside the model. *)
Definition iter_args : search_args :=
  {| queryFilter := None; criteria := None; attrlist := Some ["dn"];
     relation := None; relation_node := None; exact_match := false;
     or_search := false; or_keys := None; or_values := None;
     page_size := None; cookie := None |}.

Definition __iter__ (n : nat) : M State (list string) :=
  let* x := node_get n in
  match __name__ x with
  | None => ret []
  | Some _ =>
      let* res :=
        try_except
          (let* r := search n iter_args in
           match r with
           | Results l => ret l
           | ResultsPaged _ _ => raise TypeError
           end)
          (λ e, bool_decide (e = NO_SUCH_OBJECT))
          (ret []) in
      let* x := node_get n in
      ret (filter (λ key, key ∉ _deleted_children x) res.*1
           ++ elements (_added_children x))
  end.

(** [self.parent.<set>.remove(self.name)]: no parent is an
    [AttributeError] on [None]; the sets hold names only, so removing
    [None] is a [KeyError]. *)
Definition parent_remove (x : Node)
    (remove : nat → string → M State unit) : M State unit :=
  match __parent__ x with
  | None => raise AttributeError
  | Some p =>
      match __name__ x with
      | Some nm => remove p nm
      | None => raise KeyError
      end
  end.

(** [attrs[encode(key)] = value] for every item, then
    [session.add(encode(self.DN), attrs)]. *)
Fixpoint add_attrs (a : nat) (items : list (string * value))
    (acc : list (string * value)) : M State (list (string * value)) :=
  match items with
  | [] => ret acc
  | (key, value) :: items' =>
      let* b := is_binary a key in
      let value := if negb b then encode_value value else value in
      add_attrs a items' (od_set (encode key) value acc)
  end.

Definition _ldap_add (n : nat) : M State unit :=
  let* a := LDAPAttributesBehavior.attrs n in
  let* o := attrs_get a in
  let* attrs := add_attrs a (a_items o) [] in
  need_session n ;;
  let* dn := DN n in
  call_add (encode dn) attrs.

(** First loop of [_ldap_modify]: a [MOD_DELETE] for every key of
    [orgin] that is not in [self.attrs]. *)
Definition mod_deletes (orgin live : list (string * value))
    : list moddef :=
  (λ key, (MOD_DELETE, encode key, None))
    <$> filter (λ key, od_mem key live = false) orgin.*1.

(** Body of the second loop, for one key of [self.attrs]. *)
Definition mod_change (a : nat) (orgin live : list (string * value))
    (key : string) : M State (list moddef) :=
  match od_get key live with
  | None => raise KeyError
  | Some v =>
      let* b := is_binary a key in
      let value := if negb b then encode_value v else v in
      match od_get key orgin with
      | None => ret [(MOD_ADD, encode key, Some value)]
      | Some v0 =>
          if bool_decide (v ≠ v0)
          then ret [(MOD_REPLACE, encode key, Some value)]
          else ret []
      end
  end.

(** [_ldap_modify].  [self.attrs] is the same object at every use in
    the loops; it is looked up once, after [orgin] is made, which is
    also where its first use in the source comes. *)
Definition _ldap_modify (n : nat) : M State unit :=
  let* orgin := attributes_factory n in
  let* o := attrs_get orgin in
  let* a := LDAPAttributesBehavior.attrs n in
  let* l := attrs_get a in
  let* changes :=
    map_m (mod_change a (a_items o) (a_items l)) (a_items l).*1 in
  let modlist := mod_deletes (a_items o) (a_items l) ++ concat changes in
  if negb (bool_decide (modlist = [])) then
    need_session n ;;
    let* dn := DN n in
    call_modify (encode dn) modlist
  else ret tt.

Definition storage_del (p : nat) (nm : string) : M State unit :=
  let* x := node_get p in
  if od_mem nm (storage x) then
    node_upd p (set_storage (od_del nm (storage x)))
  else raise KeyError.

Definition _ldap_delete (n : nat) : M State unit :=
  let* x := node_get n in
  parent_remove x storage_del ;;
  need_session n ;;
  let* dn := DN n in
  call_delete (encode dn).

(** [__call__].  The recursion follows the materialised children and
    has no bound in the source; [fuel] bounds its depth here and
    running out of it is Python's [RecursionError]. *)
Fixpoint __call__ (fuel : nat) (n : nat) : M State unit :=
  match fuel with
  | 0 => raise RecursionError
  | S fuel' =>
      let* x := node_get n in
      (if _changed x && negb (bool_decide (_action x = None)) then
         match _action x with
         | Some ACTION_ADD =>
             parent_remove x added_remove ;;
             _ldap_add n
         | Some ACTION_MODIFY =>
             match __parent__ x with
             | Some _ => parent_remove x modified_remove
             | None => ret tt
             end ;;
             _ldap_modify n
         | Some ACTION_DELETE =>
             parent_remove x deleted_remove ;;
             _ldap_delete n
         | None => ret tt
         end ;;
         let* x := node_get n in
         match ns_attrs x with
         | Some a => attrs_upd a (set_a_changed false)
         | None => ret tt
         end ;;
         _set_changed n false ;;
         node_upd n (set_action None)
       else ret tt) ;;
      let* x := node_get n in
      let* deleted :=
        map_m (__getitem__ n) (elements (_deleted_children x)) in
      let* x := node_get n in
      for_each ((storage x).*2 ++ deleted)
        (λ node, let* y := node_get node in
                 if _changed y then __call__ fuel' node else ret tt)
  end.

Definition invalidate (n : nat) (key : option string) : M State unit :=
  match key with
  | None =>
      let* x := node_get n in
      if _changed x then raise RuntimeError
      else
        node_upd n (set_storage []) ;;
        let* a := LDAPAttributesBehavior.attrs n in
        load a ;;
        node_upd n (set_reload true)
  | Some key =>
      let* x := node_get n in
      match od_get key (storage x) with
      | None => ret tt
      | Some child =>
          let* y := node_get child in
          if _changed y then raise RuntimeError
          else node_upd n (set_storage (od_del key (storage x)))
      end
  end.

(** [s.split(sep)] for a separator of one character. *)
Fixpoint split (sep : ascii) (s : string) : list string :=
  match s with
  | EmptyString => [""]
  | String c s' =>
      if bool_decide (c = sep) then "" :: split sep s'
      else match split sep s' with
           | h :: t => String c h :: t
           | [] => [String c ""]
           end
  end.

Definition _create_suitable_node (attrs : option (list (string * value)))
    : M State nat :=
  match attrs with
  | None => raise ValueError
  | Some attrs =>
      let* node := node_new new_LDAPNode in
      for_each attrs
        (λ '(key, val),
           let* a := LDAPAttributesBehavior.attrs node in
           LDAPAttributesBehavior.__setitem__ a key val) ;;
      ret node
  end.

(** The callables of [child_defaults], called as [v(self, key)]. *)
Variable call_default : string → nat → string → M State value.

Definition apply_default (n : nat) (key : string) (val : nat)
    (kv : string * child_default) : M State unit :=
  let '(k, v) := kv in
  let* a := LDAPAttributesBehavior.attrs val in
  let* o := attrs_get a in
  if od_mem k (a_items o) then ret tt
  else
    let* v := match v with
              | DefaultValue v => ret v
              | DefaultCallable f => call_default f n key
              end in
    let* a := LDAPAttributesBehavior.attrs val in
    LDAPAttributesBehavior.__setitem__ a k v.

Definition __setitem__ (n : nat) (key : string) (val : vessel)
    : M State unit :=
  let* x := node_get n in
  if negb (bool_decide (_key_attr x = "rdn"))
     && bool_decide (_rdn_attr x = None) then raise RuntimeError
  else
    let* val := match val with
                | IsNode c => ret c
                | OtherObject attrs => _create_suitable_node attrs
                end in
    (if negb (bool_decide (_key_attr x = "rdn")) then
       let* a := LDAPAttributesBehavior.attrs val in
       LDAPAttributesBehavior.__setitem__ a (_key_attr x) (VStr key) ;;
       let* a := LDAPAttributesBehavior.attrs val in
       let* o := attrs_get a in
       match _rdn_attr x with
       | Some r => if od_mem r (a_items o) then ret tt
                   else raise ValueError
       | None => raise ValueError
       end
     else
       match split "=" key with
       | [rdn; rdn_val] =>
           let* a := LDAPAttributesBehavior.attrs val in
           let* o := attrs_get a in
           if od_mem rdn (a_items o) then ret tt
           else
             let* a := LDAPAttributesBehavior.attrs val in
             LDAPAttributesBehavior.__setitem__ a rdn (VStr rdn_val)
       | _ => raise ValueError
       end) ;;
    node_upd val (set__name__ (Some key)) ;;
    node_upd val (set__parent__ (Some n)) ;;
    let* dn := child_dn n (Some key) in
    node_upd val (set_dn (Some dn)) ;;
    let* x := node_get n in
    node_upd val (set_ldap_session (_ldap_session x)) ;;
    try_except
      (need_session n ;;
       let* dn := DN val in
       call_search (probe_query dn) ;;
       ret tt)
      catches_not_found
      (node_upd val (set_action (Some ACTION_ADD)) ;;
       _set_changed val true ;;
       _set_changed n true ;;
       added_add n key) ;;
    node_upd n (λ x, set_storage (od_set key val (storage x)) x) ;;
    let* x := node_get n in
    match child_defaults x with
    | Some l => for_each l (apply_default n key val)
    | None => ret tt
    end.

End defs.
End LDAPStorage.

Export LDAPStorage.

(** ** [node/ext/ldap/ugm/posix.py]: default callbacks *)

Module Posix.
Section defs.
Context `{B : Boundary}.

(** [int(s)] on a decimal literal: surrounding white space, an
    optional sign, one digit at least. *)
Definition is_space (c : ascii) : bool :=
  let k := nat_of_ascii c in
  bool_decide (k = 32%nat)
  || (bool_decide (9 ≤ k)%nat && bool_decide (k ≤ 13)%nat).

Fixpoint lstrip (s : string) : string :=
  match s with
  | String c s' => if is_space c then lstrip s' else s
  | EmptyString => EmptyString
  end.

Definition strip (s : string) : string :=
  String.rev (lstrip (String.rev (lstrip s))).

Definition digit_of (c : ascii) : option Z :=
  let k := nat_of_ascii c in
  if bool_decide (48 ≤ k)%nat && bool_decide (k ≤ 57)%nat
  then Some (Z.of_nat k - 48)%Z else None.

Fixpoint digits (s : string) (acc : Z) : option Z :=
  match s with
  | EmptyString => Some acc
  | String c s' =>
      match digit_of c with
      | Some d => digits s' (10 * acc + d)%Z
      | None => None
      end
  end.

Definition unsigned (s : string) : option Z :=
  match s with
  | EmptyString => None
  | _ => digits s 0%Z
  end.

Definition int (s : string) : option Z :=
  match strip s with
  | String "-" r => Z.opp <$> unsigned r
  | String "+" r => unsigned r
  | r => unsigned r
  end.

(** [str(z)] *)
Definition str (z : Z) : string := NilZero.string_of_int (Z.to_int z).

(** [l.sort()] on integers. *)
Definition sort (l : list Z) : list Z := merge_sort Z.le l.

(** [item[1][name][0]] for an item of a search result: the item has
    attributes when an attribute list was asked for; indexing a list
    gives its first element, indexing a text its first character. *)
Definition first_value (name : string) (item : result_item)
    : M State string :=
  match item.2 with
  | None => raise TypeError
  | Some resattr =>
      match od_get name resattr with
      | None => raise KeyError
      | Some (VList (v :: _)) => ret v
      | Some (VList []) => raise IndexError
      | Some (VStr (String c _)) => ret (String c EmptyString)
      | Some (VStr EmptyString) => raise IndexError
      end
  end.

(** [[int(item[1][name][0]) for item in existing]] *)
Definition numbers (name : string) (existing : search_result)
    : M State (list Z) :=
  match existing with
  | Results items =>
      map_m (λ item, let* v := first_value name item in
                     match int v with
                     | Some z => ret z
                     | None => raise ValueError
                     end) items
  | ResultsPaged _ _ => raise TypeError
  end.

Definition star_criteria (name : string) : search_args :=
  {| queryFilter := None; criteria := Some [(name, VStr "*")];
     attrlist := Some [name]; relation := None; relation_node := None;
     exact_match := false; or_search := false; or_keys := None;
     or_values := None; page_size := None; cookie := None |}.

Definition cn (node : option nat) (id : string) : M State string :=
  ret id.

Definition uid (node : option nat) (id : string) : M State string :=
  ret id.

(** The module-level binding [uidNumber_tmp = '']. *)
Definition uidNumber_tmp : string := "".

(** Reading a local variable: unbound, it raises. *)
Definition read_local (v : option string) : M State string :=
  match v with
  | Some s => ret s
  | None => raise UnboundLocalError
  end.

(** [uidNumber].  The body assigns [uidNumber_tmp] and declares no
    [global], so the name is a local of the function in the whole
    body: it is unbound on entry, the module-level binding is neither
    read nor written. *)
Definition uidNumber (node : option nat) (id : string)
    : M State string :=
  let local_uidNumber_tmp : option string := None in
  match node with
  | None => read_local local_uidNumber_tmp
  | Some n =>
      let* existing := search n (star_criteria "uidNumber") in
      let* uidNumbers := numbers "uidNumber" existing in
      let uidNumbers := sort uidNumbers in
      match last uidNumbers with
      | None => ret "100"
      | Some m =>
          let local_uidNumber_tmp := Some (str (m + 1)) in
          read_local local_uidNumber_tmp
      end
  end.

Definition gidNumber (node : option nat) (id : string)
    : M State string :=
  match node with
  | None => ret ""
  | Some n =>
      let* existing := search n (star_criteria "gidNumber") in
      let* gidNumbers := numbers "gidNumber" existing in
      let gidNumbers := sort gidNumbers in
      match last gidNumbers with
      | None => ret "100"
      | Some m => ret (str (m + 1))
      end
  end.

Definition homeDirectory (node : option nat) (id : string)
    : M State string :=
  ret ("/home/" +:+ id).

Definition POSIX_DEFAULT_SHELL : string := "/bin/false".

Definition loginShell (node : option nat) (id : string)
    : M State string :=
  ret POSIX_DEFAULT_SHELL.

Definition memberUid (node : option nat) (id : string)
    : M State (list string) :=
  ret ["nobody"].

(** The callbacks as values of [child_defaults], by name. *)
Definition call_default (f : string) (n : nat) (key : string)
    : M State value :=
  let text (m : M State string) : M State value :=
    let* s := m in ret (VStr s) in
  if bool_decide (f = "cn") then text (cn (Some n) key)
  else if bool_decide (f = "uid") then text (uid (Some n) key)
  else if bool_decide (f = "uidNumber") then
    text (uidNumber (Some n) key)
  else if bool_decide (f = "gidNumber") then
    text (gidNumber (Some n) key)
  else if bool_decide (f = "homeDirectory") then
    text (homeDirectory (Some n) key)
  else if bool_decide (f = "loginShell") then
    text (loginShell (Some n) key)
  else if bool_decide (f = "memberUid") then
    let* l := memberUid (Some n) key in ret (VList l)
  else raise TypeError.

End defs.
End Posix.

Export Posix.

(** ** A small directory to run the code on

    The entries are kept in a list; a base search returns the entry of
    that name, a one-level search its children.  A filter is the list of
    the attributes an entry must have. *)

Module Directory.

Definition values_of (v : value) : list string :=
  match v with
  | VStr s => [s]
  | VList l => l
  end.

Definition has_dn (dn : string) (e : entry) : bool :=
  bool_decide (e.1 = dn).

(** [dn] is [rdn,base] with a single component [rdn]. *)
Definition child_of (base : string) (e : entry) : bool :=
  match split "," e.1 with
  | rdn :: rest => bool_decide (e.1 = rdn +:+ "," +:+ base)
                   && negb (bool_decide (rest = []))
                   && bool_decide (split "," base = rest)
  | [] => false
  end.

Definition required (f : option string) : list string :=
  match f with
  | None => []
  | Some s => filter (λ a, a ≠ "") (split "&" s)
  end.

Definition satisfies (req : list string) (e : entry) : bool :=
  forallb (λ a, od_mem a e.2) req.

Definition restrict (attrlist : list string) (e : entry) : entry :=
  if bool_decide (attrlist = []) || bool_decide ("*" ∈ attrlist) then e
  else (e.1, filter (λ kv, kv.1 ∈ attrlist) e.2).

Definition dir_search (q : query) (w : list entry)
    : res reply * list entry :=
  if existsb (has_dn (q_baseDN q)) w then
    let found :=
      match q_scope q with
      | BASE => filter (λ e, has_dn (q_baseDN q) e = true) w
      | _ => filter (λ e, child_of (q_baseDN q) e = true) w
      end in
    (Ok (Plain (restrict (q_attrlist q)
                  <$> filter (λ e, satisfies (required (q_filter q)) e
                                   = true) found)), w)
  else (Raise NO_SUCH_OBJECT, w).

Definition dir_add (dn : string) (attrs : list (string * value))
    (w : list entry) : res unit * list entry :=
  if existsb (has_dn dn) w then (Raise LDAPError, w)
  else (Ok tt, w ++ [(dn, prod_map id values_of <$> attrs)]).

Definition apply_mod (attrs : list (string * list string)) (m : moddef)
    : list (string * list string) :=
  match m with
  | (MOD_DELETE, k, _) => od_del k attrs
  | (_, k, Some v) => od_set k (values_of v) attrs
  | (_, k, None) => attrs
  end.

Definition dir_modify (dn : string) (modlist : list moddef)
    (w : list entry) : res unit * list entry :=
  if existsb (has_dn dn) w then
    (Ok tt, (λ e : entry, if has_dn dn e
                          then (e.1, foldl apply_mod e.2 modlist) else e)
              <$> w)
  else (Raise NO_SUCH_OBJECT, w).

Definition dir_delete (dn : string) (w : list entry)
    : res unit * list entry :=
  if existsb (has_dn dn) w
  then (Ok tt, filter (λ e, has_dn dn e = false) w)
  else (Raise NO_SUCH_OBJECT, w).

#[export] Instance boundary : Boundary := {|
  World := list entry;
  encode := id;
  decode := id;
  explode_dn := λ dn, Ok (split "," dn);
  Filter := list string;
  LDAPFilter := λ _, [];
  LDAPDictFilter := λ c _ _ _, (default [] c).*1;
  LDAPRelationFilter := λ _ _, [];
  filter_and := app;
  filter_and_text := λ f _, f;
  filter_contains := λ k f, bool_decide (k ∈ f);
  filter_str := λ f, foldr (λ a s, a +:+ "&" +:+ s) "" f;
  session_search := dir_search;
  session_add := dir_add;
  session_modify := dir_modify;
  session_delete := dir_delete;
  clear_via_delitem := true
|}.

(** The root node of a tree on base [name], as [__init__] with a name
    and props makes it. *)
Definition root_node (name : string) (binary multivalued : gset string)
    : Node :=
  {| __name__ := Some name; __parent__ := None; _dn := None;
     _ldap_session := true; _changed := false; _action := None;
     _added_children := ∅; _modified_children := ∅;
     _deleted_children := ∅; _reload := false;
     _multivalued_attributes := multivalued;
     _binary_attributes := binary;
     _key_attr := "rdn"; _rdn_attr := None; search_scope := ONELEVEL;
     search_filter := None; search_criteria := None;
     search_relation := None; child_defaults := None; storage := [];
     ns_attrs := None |}.

Definition start (w : list entry) : State :=
  {| nodes := [root_node "dc=my" ∅ ∅]; attrs_heap := []; world := w;
     calls := [] |}.

(** The state an operation leaves, whatever its outcome. *)
Definition after {A} (m : M State A) (s : State) : State := (m s).2.

Definition outcome {A} (m : M State A) (s : State) : res A := (m s).1.

End Directory.

Export Directory.

(** ** Vocabulary of the statements, and the scenarios they are run on *)

Module Spec.
Section defs.
Context `{B : Boundary}.

(** The search for the entries that have attribute [name], run on
    node [n] in state [s], ends in state [s'] and the first values of
    [name] in its result read as the numbers [l]. *)
Definition yields (name : string) (n : nat) (s s' : State)
    (l : list Z) : Prop :=
  ∃ existing,
    search n (star_criteria name) s = (Ok existing, s')
    ∧ numbers name existing s' = (Ok l, s').


(** [x.changed := v] in the store. *)
Definition flag (n : nat) (v : bool) (x : Node) (s : State) : State :=
  set_nodes (<[n := set_changed v x]> (nodes s)) s.

(** The attribute object a node has registered is changed. *)
Definition registered_changed (s : State) (x : Node) : bool :=
  match ns_attrs x with
  | Some a => match attrs_heap s !! a with
              | Some o => a_changed o
              | None => false
              end
  | None => false
  end.

(** What keeps the flag of a node up. *)
Definition blocked (s : State) (x : Node) : bool :=
  has_staged_children x || registered_changed s x.

(** The invariant of the flag: it is up on every node whose own
    attribute set is changed or that has a child staged. *)
Definition changed_invariant (s : State) : Prop :=
  Forall (λ x, blocked s x = true → _changed x = true) (nodes s).

(** The attribute object a node refers to exists. *)
Definition attrs_bound (s : State) (x : Node) : Prop :=
  ∀ a, ns_attrs x = Some a → is_Some (attrs_heap s !! a).

(** Only flags move, and only towards the value [v]. *)
Definition flagP (v : bool) (x x' : Node) : Prop :=
  x' = x ∨ x' = set_changed v x.

Definition flagR (v : bool) (s s' : State) : Prop :=
  attrs_heap s' = attrs_heap s ∧ world s' = world s ∧ calls s' = calls s
  ∧ length (nodes s') = length (nodes s)
  ∧ ∀ i x, nodes s !! i = Some x →
           ∃ x', nodes s' !! i = Some x' ∧ flagP v x x'.

(** What the attribute behaviour may change on a node: its flag, its
    action (not from or to a staged addition or deletion), its set of
    modified children and its attribute nodespace. *)
Definition attrP (x x' : Node) : Prop :=
  __name__ x' = __name__ x
  ∧ __parent__ x' = __parent__ x
  ∧ _dn x' = _dn x
  ∧ _ldap_session x' = _ldap_session x
  ∧ _added_children x' = _added_children x
  ∧ _deleted_children x' = _deleted_children x
  ∧ _reload x' = _reload x
  ∧ _multivalued_attributes x' = _multivalued_attributes x
  ∧ _binary_attributes x' = _binary_attributes x
  ∧ _key_attr x' = _key_attr x
  ∧ _rdn_attr x' = _rdn_attr x
  ∧ search_scope x' = search_scope x
  ∧ search_filter x' = search_filter x
  ∧ search_criteria x' = search_criteria x
  ∧ search_relation x' = search_relation x
  ∧ child_defaults x' = child_defaults x
  ∧ storage x' = storage x
  ∧ (_action x' = _action x
     ∨ (action_staged (_action x) = false
        ∧ action_staged (_action x') = false)).

(** The calls that write to the directory. *)
Definition is_write (c : call) : bool :=
  match c with
  | CallSearch _ => false
  | _ => true
  end.

Definition writes (l : list call) : list call :=
  filter (λ c, is_write c = true) l.

(** What the attribute behaviour may change in a state: the nodes as
    in [attrP], the attribute objects but not their owner, and no
    write reaches the directory. *)
Definition attrR (s s' : State) : Prop :=
  length (nodes s') = length (nodes s)
  ∧ (∀ i x, nodes s !! i = Some x →
            ∃ x', nodes s' !! i = Some x' ∧ attrP x x')
  ∧ (∀ a o, attrs_heap s !! a = Some o →
            ∃ o', attrs_heap s' !! a = Some o'
                  ∧ a_parent o' = a_parent o)
  ∧ writes (calls s') = writes (calls s).

(** Every run of [m] relates the state it starts from to the state it
    ends in. *)
Definition keeps {A} (R : State → State → Prop) (m : M State A) : Prop :=
  ∀ s, R s (m s).2.

(** Every exception [m] raises is one of [E]. *)
Definition throws {A} (E : exn → Prop) (m : M State A) : Prop :=
  ∀ s e, (m s).1 = Raise e → E e.

(** The exceptions of the model itself: a reference that is not in the
    store, a parent chain that does not end. *)
Definition internal (e : exn) : Prop :=
  e = SystemError ∨ e = RecursionError.

(** The nodes of [s] are in [s'], each related by [P] to what it was. *)
Definition nodesR (P : Node → Node → Prop) (s s' : State) : Prop :=
  ∀ i x, nodes s !! i = Some x →
         ∃ x', nodes s' !! i = Some x' ∧ P x x'.

(** The set of modified children has lost no key. *)
Definition growP (x x' : Node) : Prop :=
  _modified_children x ⊆ _modified_children x'.

(** No write is sent to the directory between [s] and [s']. *)
Definition quiet (s s' : State) : Prop :=
  writes (calls s') = writes (calls s).

(** The attribute objects are the same in [s] and [s']. *)
Definition same_heap (s s' : State) : Prop :=
  attrs_heap s' = attrs_heap s.

(** The value of an attribute as it is sent: encoded unless the
    attribute is binary. *)
Definition sent (binary : gset string) (key : string) (v : value)
    : value :=
  if bool_decide (key ∈ binary) then v else encode_value v.

(** The change of one live attribute against the original ones. *)
Definition change_of (binary : gset string)
    (orgin live : list (string * value)) (key : string)
    : list moddef :=
  match od_get key live with
  | None => []
  | Some v =>
      match od_get key orgin with
      | None => [(MOD_ADD, encode key, Some (sent binary key v))]
      | Some v0 =>
          if decide (v = v0) then []
          else [(MOD_REPLACE, encode key, Some (sent binary key v))]
      end
  end.

(** The list of modifications that turns the original attributes
    into the live ones: the deletions in the order of the original
    keys, then the additions and replacements in the order of the
    live keys. *)
Definition modlist_of (binary : gset string)
    (orgin live : list (string * value)) : list moddef :=
  ((λ key, (MOD_DELETE, encode key, None))
     <$> filter (λ key, od_get key live = None) orgin.*1)
  ++ concat (change_of binary orgin live <$> live.*1).

(** The dict of attributes that [_ldap_add] builds, item by item. *)
Definition added_of (binary : gset string)
    (items acc : list (string * value)) : list (string * value) :=
  foldl (λ acc kv, od_set (encode kv.1) (sent binary kv.1 kv.2) acc)
    acc items.

(** A node that is not the child [key] of [p] staged for addition. *)
Definition not_adding (p : nat) (key : string) (y : Node) : Prop :=
  __parent__ y = Some p → __name__ y = Some key →
  _action y ≠ Some ACTION_ADD.

(** [key] is staged for addition on [p], and no node that is a child
    [key] of [p] has the action Add any more. *)
Definition stale (p : nat) (key : string) (s : State) : Prop :=
  (∃ xp, nodes s !! p = Some xp ∧ key ∈ _added_children xp)
  ∧ Forall (not_adding p key) (nodes s).

(** What an update of one node may do to a stale key. *)
Definition safe (p : nat) (key : string) (x x' : Node) : Prop :=
  (key ∈ _added_children x → key ∈ _added_children x')
  ∧ (not_adding p key x → not_adding p key x').

(** A stale key stays stale. *)
Definition stays (p : nat) (key : string) (s s' : State) : Prop :=
  stale p key s → stale p key s'.

(** The node [n] that owns the attributes [a] is staged for addition
    or deletion, or has no parent. *)
Definition unhooked (a n : nat) (s : State) : Prop :=
  ∃ o x, attrs_heap s !! a = Some o ∧ a_parent o = n
         ∧ nodes s !! n = Some x
         ∧ (action_staged (_action x) = true ∨ __parent__ x = None).

(** Every node has the set of modified children it had. *)
Definition same_modified (s s' : State) : Prop :=
  length (nodes s') = length (nodes s)
  ∧ ∀ i x, nodes s !! i = Some x →
           ∃ x', nodes s' !! i = Some x'
                 ∧ _modified_children x' = _modified_children x.

(** From a state where the owner of [a] is unhooked: it stays so and
    no set of modified children changes. *)
Definition calm (a n : nat) (s s' : State) : Prop :=
  unhooked a n s → unhooked a n s' ∧ same_modified s s'.

(** The number of flags that differ from [v]. *)
Definition pending (v : bool) (s : State) : nat :=
  length (filter (λ x, _changed x ≠ v) (nodes s)).

End defs.
End Spec.

Export Spec.

Module Scenario.

(** A base entry alone. *)
Definition empty_base : list entry := [("dc=my", [("dc", ["my"])])].

(** Three accounts with uid and gid numbers 107, 100 and 103; one has
    a mail address. *)
Definition accounts : list entry :=
  [("dc=my", [("dc", ["my"])]);
   ("uid=u1,dc=my", [("uid", ["u1"]); ("uidNumber", ["107"]);
                     ("gidNumber", ["107"]); ("mail", ["u1@my"])]);
   ("uid=u2,dc=my", [("uid", ["u2"]); ("uidNumber", ["100"]);
                     ("gidNumber", ["100"])]);
   ("uid=u3,dc=my", [("uid", ["u3"]); ("uidNumber", ["103"]);
                     ("gidNumber", ["103"])])].

(** A base entry with one child. *)
Definition one_child : list entry :=
  [("dc=my", [("dc", ["my"])]);
   ("cn=a,dc=my", [("cn", ["a"]); ("sn", ["x"])])].

(** A base entry with a child that has no attribute. *)
Definition bare_child : list entry :=
  [("dc=my", [("dc", ["my"])]); ("cn=e,dc=my", [])].

Definition node_at (s : State) (n : nat) : Node :=
  default new_LDAPNode (nodes s !! n).

Definition attrs_at (s : State) (a : nat) : Attrs :=
  default {| a_parent := 0; a_items := []; a_changed := false |}
    (attrs_heap s !! a).

(** [root['cn=a']]: the child is looked up and materialised. *)
Definition looked_up : State :=
  after (__getitem__ 0 "cn=a") (start one_child).

(** [c = LDAPNode(); root['cn=new'] = c] on a base without that entry:
    the child is staged for addition. *)
Definition staged_add : State :=
  after (let* c := node_new new_LDAPNode in
         LDAPStorage.__setitem__ call_default 0 "cn=new" (IsNode c))
    (start one_child).

(** [c = LDAPNode(); c.attrs['cn'] = 'a'; root['cn=a'] = c], where the
    entry exists: the child is changed, the root is not. *)
Definition attached_changed : State :=
  after (let* c := node_new new_LDAPNode in
         let* a := attrs c in
         LDAPAttributesBehavior.__setitem__ a "cn" (VStr "a") ;;
         LDAPStorage.__setitem__ call_default 0 "cn=a" (IsNode c))
    (start one_child).

(** [root['cn=a'].attrs]: the child's attributes are loaded. *)
Definition looked_up_loaded : State := after (attrs 1) looked_up.

(** [root['cn=a'].attrs['sn'] = 'y']: the child is staged for
    modification. *)
Definition modified_child : State :=
  after (LDAPAttributesBehavior.__setitem__ 0 "sn" (VStr "y"))
    looked_up_loaded.

(** [root.attrs] while a child is staged for addition. *)
Definition staged_add_loaded : State := after (attrs 0) staged_add.

(** [root['cn=e']] on the child without attributes, and the attribute
    object that the first access to [attrs] makes for it, before it is
    loaded. *)
Definition looked_up_bare : State :=
  after (let* c := __getitem__ 0 "cn=e" in
         attrs_new {| a_parent := c; a_items := []; a_changed := false |})
    (start bare_child).

(** [search(criteria={name: '*'}, exact_match=True)] *)
Definition exact (name : string) : search_args :=
  {| queryFilter := None; criteria := Some [(name, VStr "*")];
     attrlist := None; relation := None; relation_node := None;
     exact_match := true; or_search := false; or_keys := None;
     or_values := None; page_size := None; cookie := None |}.

(** [root['uid=u9'] = LDAPNode(); del root['uid=u2']] on the three
    accounts. *)
Definition staged_both : State :=
  after (let* c := node_new new_LDAPNode in
         LDAPStorage.__setitem__ call_default 0 "uid=u9" (IsNode c) ;;
         LDAPStorage.__delitem__ 0 "uid=u2")
    (start accounts).

(** A root whose children are keyed by [uid], with no RDN attribute
    set. *)
Definition keyed : State :=
  {| nodes :=
       [{| __name__ := Some "dc=my"; __parent__ := None; _dn := None;
           _ldap_session := true; _changed := false; _action := None;
           _added_children := ∅; _modified_children := ∅;
           _deleted_children := ∅; _reload := false;
           _multivalued_attributes := ∅; _binary_attributes := ∅;
           _key_attr := "uid"; _rdn_attr := None;
           search_scope := ONELEVEL; search_filter := None;
           search_criteria := None; search_relation := None;
           child_defaults := None; storage := []; ns_attrs := None |}];
     attrs_heap := []; world := one_child; calls := [] |}.

(** [c = LDAPNode(); c.attrs['cn'] = 'a'] beside the root. *)
Definition with_cn : State :=
  after (let* c := node_new new_LDAPNode in
         let* a := attrs c in
         LDAPAttributesBehavior.__setitem__ a "cn" (VStr "a"))
    (start one_child).

(** [attrs['mail'] = 'a@my'; del attrs['cn']] on the child whose [sn]
    is already written. *)
Definition edited_child : State :=
  after (LDAPAttributesBehavior.__setitem__ 0 "mail" (VStr "a@my") ;;
         LDAPAttributesBehavior.__delitem__ 0 "cn")
    modified_child.

(** [root['cn=n'] = c] for the node [c] of [with_cn]: staged for
    addition. *)
Definition staged_n : State :=
  after (LDAPStorage.__setitem__ Posix.call_default 0 "cn=n" (IsNode 1))
    with_cn.

(** [root.invalidate('cn=a')] after [root['cn=a']]: the child is out of
    [storage]. *)
Definition evicted : State :=
  after (invalidate 0 (Some "cn=a")) looked_up.

(** [del root['cn=new']] on the child that is staged for addition. *)
Definition deleted_staged : State :=
  after (LDAPStorage.__delitem__ 0 "cn=new") staged_add.

(** [del root['cn=a']] on the child that was looked up. *)
Definition deleted_child : State :=
  after (LDAPStorage.__delitem__ 0 "cn=a") looked_up.

(** [del root['cn=a']] on the child that was looked up, and the
    attribute object that the first access to [attrs] makes for the
    child, before it is loaded. *)
Definition deleted_bare : State :=
  after (attrs_new {| a_parent := 1; a_items := []; a_changed := false |})
    deleted_child.

End Scenario.

(** * Properties *)

(** ** The monad *)

Module MonadFacts.
Section facts.
Context {S : Type}.
Implicit Types s : S.

Lemma bind_ok {A C} (m : M S A) (k : A → M S C) s a s' :
  m s = (Ok a, s') → bind m k s = k a s'.
Proof. unfold bind. by intros ->. Qed.

Lemma bind_raise {A C} (m : M S A) (k : A → M S C) s e s' :
  m s = (Raise e, s') → bind m k s = (Raise e, s').
Proof. unfold bind. by intros ->. Qed.

Lemma bind_inv {A C} (m : M S A) (k : A → M S C) s r s2 :
  bind m k s = (r, s2) →
  (∃ a s1, m s = (Ok a, s1) ∧ k a s1 = (r, s2))
  ∨ (∃ e, m s = (Raise e, s2) ∧ r = Raise e).
Proof.
  unfold bind. destruct (m s) as [[a|e] s1]; intros H.
  - left. eauto.
  - right. exists e. by simplify_eq.
Qed.

Lemma bind_ok_inv {A C} (m : M S A) (k : A → M S C) s s2 c :
  bind m k s = (Ok c, s2) →
  ∃ a s1, m s = (Ok a, s1) ∧ k a s1 = (Ok c, s2).
Proof.
  intros H. apply bind_inv in H as [(a&s1&H1&H2)|(e&_&?)]; [eauto|done].
Qed.

(** A run, from its outcome. *)
Lemma run_eq {A} (m : M S A) s (r : res A) :
  (m s).1 = r → m s = (r, (m s).2).
Proof. destruct (m s). simpl. by intros ->. Qed.

End facts.
End MonadFacts.

(** ** The POSIX callbacks *)

Module PosixFacts.
Import MonadFacts.
Section facts.
Context `{B : Boundary}.

(** Reading the numbers off a search result does not use the state. *)
Lemma first_value_indep name it (s s0 : State) :
  first_value name it s = ((first_value name it s0).1, s).
Proof.
  unfold first_value. destruct (it.2) as [ra|]; [|done].
  by destruct (od_get name ra) as [[[|c ?]|[|v ?]]|].
Qed.

Lemma numbers_indep name existing (s s0 : State) :
  numbers name existing s = ((numbers name existing s0).1, s).
Proof.
  destruct existing as [items|]; [|done]. simpl.
  induction items as [|it items IH]; [done|]. simpl.
  pose proof (first_value_indep name it s s0) as H.
  pose proof (first_value_indep name it s0 s0) as H0.
  unfold bind at 1 2 5 6.
  destruct (first_value name it s0) as [r s1]. simpl in *.
  rewrite H. simplify_eq. destruct r as [v|e]; [|done].
  destruct (int v); simpl; [|done].
  unfold bind at 1 3. rewrite IH.
  by destruct (map_m _ items s0) as [[l|e] s2].
Qed.

(** The last element of the sorted list is a greatest element. *)
Lemma last_sort_max (l : list Z) (m : Z) :
  last (sort l) = Some m → m ∈ l ∧ ∀ x, x ∈ l → (x ≤ m)%Z.
Proof.
  unfold sort. intros Hl.
  assert (HS : StronglySorted Z.le (merge_sort Z.le l))
    by apply (StronglySorted_merge_sort _).
  assert (HP : merge_sort Z.le l ≡ₚ l) by apply merge_sort_Permutation.
  revert HS Hl. generalize (merge_sort Z.le l) HP. clear.
  intros k HP HS Hl.
  assert (m ∈ k ∧ ∀ x, x ∈ k → (x ≤ m)%Z) as [H1 H2].
  { clear HP. induction HS as [|a k HS IH Ha]; [done|].
    destruct k as [|b k].
    - simpl in Hl. simplify_eq. split; [apply list_elem_of_here|].
      intros x Hx. apply list_elem_of_singleton in Hx. lia.
    - change (last (a :: b :: k)) with (last (b :: k)) in Hl.
      destruct (IH Hl) as [I1 I2].
      split; [by apply list_elem_of_further|].
      intros x Hx. apply elem_of_cons in Hx as [->|Hx]; [|by apply I2].
      rewrite Forall_forall in Ha. by apply Ha. }
  split; [by rewrite <- HP|]. intros x Hx. apply H2. by rewrite HP.
Qed.

Lemma last_sort_nil (l : list Z) : last (sort l) = None → l = [].
Proof.
  unfold sort. intros Hl. apply last_None in Hl.
  apply Permutation_nil. rewrite <- Hl.
  apply merge_sort_Permutation.
Qed.

Lemma sort_three (l : list Z) :
  l ≡ₚ [100; 103; 107]%Z → last (sort l) = Some 107%Z.
Proof.
  intros HP. destruct (last (sort l)) as [m|] eqn:E.
  - apply last_sort_max in E as [H1 H2]. f_equal.
    assert (107 ≤ m)%Z.
    { apply H2. rewrite HP. repeat constructor. }
    rewrite HP in H1.
    repeat (apply elem_of_cons in H1 as [->|H1]; [lia|]).
    by apply elem_of_nil in H1.
  - apply last_sort_nil in E. subst. by apply Permutation_nil in HP.
Qed.

(** Both allocators, on a node: one more than the greatest number
    found, ["100"] when there is none. *)
Lemma allocate_max name n id (f : option nat → string → M State string)
    (Hf : ∀ s, f (Some n) id s =
       (let* existing := search n (star_criteria name) in
        let* ns := numbers name existing in
        match last (sort ns) with
        | None => ret "100"
        | Some m => ret (str (m + 1))
        end) s)
    s s' l :
  yields name n s s' l →
  f (Some n) id s =
    (Ok match last (sort l) with
        | None => "100"
        | Some m => str (m + 1)
        end, s').
Proof.
  intros [existing [H1 H2]]. rewrite Hf.
  rewrite (bind_ok _ _ _ _ _ H1), (bind_ok _ _ _ _ _ H2).
  by destruct (last (sort l)).
Qed.

Lemma uidNumber_unfold n id s :
  uidNumber (Some n) id s =
    (let* existing := search n (star_criteria "uidNumber") in
     let* ns := numbers "uidNumber" existing in
     match last (sort ns) with
     | None => ret "100"
     | Some m => ret (str (m + 1))
     end) s.
Proof.
  unfold uidNumber, bind.
  destruct (search _ _ s) as [[ex|e] s1]; [|done].
  destruct (numbers _ ex s1) as [[ns|e] s2]; [|done].
  by destruct (last (sort ns)).
Qed.

(** C8.  On a node whose search yields the uidNumber values 100, 103
    and 107, in any order, [uidNumber] returns ["108"]; when the search
    yields none it returns ["100"]; [gidNumber] does the same over
    gidNumber, and without a node it returns the empty text. *)
Theorem number_allocation (n : nat) (id : string) (s s' : State)
    (l : list Z) :
  (yields "uidNumber" n s s' l → l ≡ₚ [100; 103; 107]%Z →
     uidNumber (Some n) id s = (Ok "108", s'))
  ∧ (yields "uidNumber" n s s' [] →
     uidNumber (Some n) id s = (Ok "100", s'))
  ∧ (yields "gidNumber" n s s' l → l ≡ₚ [100; 103; 107]%Z →
     gidNumber (Some n) id s = (Ok "108", s'))
  ∧ (yields "gidNumber" n s s' [] →
     gidNumber (Some n) id s = (Ok "100", s'))
  ∧ gidNumber None id s = (Ok "", s).
Proof.
  pose proof (uidNumber_unfold n id) as Hu.
  assert (Hg : ∀ s, gidNumber (Some n) id s =
       (let* existing := search n (star_criteria "gidNumber") in
        let* ns := numbers "gidNumber" existing in
        match last (sort ns) with
        | None => ret "100"
        | Some m => ret (str (m + 1))
        end) s) by done.
  repeat split.
  - intros Hy HP. rewrite (allocate_max _ _ _ _ Hu _ _ _ Hy).
    by rewrite (sort_three _ HP).
  - intros Hy. by rewrite (allocate_max _ _ _ _ Hu _ _ _ Hy).
  - intros Hy HP. rewrite (allocate_max _ _ _ _ Hg _ _ _ Hy).
    by rewrite (sort_three _ HP).
  - intros Hy. by rewrite (allocate_max _ _ _ _ Hg _ _ _ Hy).
Qed.

(** C9.  The call without a node does not return an earlier result:
    in every state, so after any earlier call, it reads the unbound
    local and raises [UnboundLocalError]. *)
Theorem uidNumber_without_node_unbound (id : string) (s : State) :
  uidNumber None id s = (Raise UnboundLocalError, s).
Proof. reflexivity. Qed.

End facts.

(** [number_allocation] on the three accounts and on the empty base. *)
Lemma number_allocation_witness :
  let s := start Scenario.accounts in
  let s' := after (search 0 (star_criteria "uidNumber")) s in
  let g' := after (search 0 (star_criteria "gidNumber")) s in
  let e := start Scenario.empty_base in
  let e' := after (search 0 (star_criteria "uidNumber")) e in
  yields "uidNumber" 0 s s' [107; 100; 103]%Z
  ∧ yields "gidNumber" 0 s g' [107; 100; 103]%Z
  ∧ yields "uidNumber" 0 e e' []
  ∧ uidNumber (Some 0) "u4" s = (Ok "108", s')
  ∧ gidNumber (Some 0) "u4" s = (Ok "108", g')
  ∧ uidNumber (Some 0) "u4" e = (Ok "100", e').
Proof.
  intros s s' g' e e'.
  assert (Hu : yields "uidNumber" 0 s s' [107; 100; 103]%Z).
  { exists (Results [("uid=u1", Some [("uidNumber", VList ["107"])]);
                     ("uid=u2", Some [("uidNumber", VList ["100"])]);
                     ("uid=u3", Some [("uidNumber", VList ["103"])])]).
    split.
    - refine (run_eq (search 0 (star_criteria "uidNumber")) s _ _).
      vm_compute. reflexivity.
    - rewrite (numbers_indep _ _ _ (start [])). f_equal. }
  assert (Hg : yields "gidNumber" 0 s g' [107; 100; 103]%Z).
  { exists (Results [("uid=u1", Some [("gidNumber", VList ["107"])]);
                     ("uid=u2", Some [("gidNumber", VList ["100"])]);
                     ("uid=u3", Some [("gidNumber", VList ["103"])])]).
    split.
    - refine (run_eq (search 0 (star_criteria "gidNumber")) s _ _).
      vm_compute. reflexivity.
    - rewrite (numbers_indep _ _ _ (start [])). f_equal. }
  assert (He : yields "uidNumber" 0 e e' []).
  { exists (Results []). split; [|done].
    refine (run_eq (search 0 (star_criteria "uidNumber")) e _ _).
    vm_compute. reflexivity. }
  assert (HP : [107; 100; 103]%Z ≡ₚ [100; 103; 107]%Z).
  { etrans; [apply perm_swap|]. apply perm_skip, perm_swap. }
  split; [exact Hu|]. split; [exact Hg|]. split; [exact He|]. split.
  - exact (proj1 (number_allocation 0 "u4" s s' _) Hu HP).
  - split.
    + exact (proj1 (proj2 (proj2 (number_allocation 0 "u4" s g' _))) Hg HP).
    + exact (proj1 (proj2 (number_allocation 0 "u4" e e' [])) He).
Defined.

End PosixFacts.

(** ** The store *)

Module StoreFacts.
Import MonadFacts.
Section facts.
Context `{B : Boundary}.
Implicit Types (s : State) (x : Node) (n : nat).

Lemma node_get_inv n s r s' :
  node_get n s = (r, s') →
  s' = s ∧ (match r with Ok x => nodes s !! n = Some x
                       | Raise e => nodes s !! n = None ∧ e = SystemError end).
Proof.
  unfold node_get. destruct (nodes s !! n); intros; simplify_eq; eauto.
Qed.

Lemma node_get_ok n s x : nodes s !! n = Some x → node_get n s = (Ok x, s).
Proof. unfold node_get. by intros ->. Qed.

Lemma node_upd_ok n f s x :
  nodes s !! n = Some x →
  node_upd n f s = (Ok tt, set_nodes (<[n := f x]> (nodes s)) s).
Proof. unfold node_upd. by intros ->. Qed.

Lemma node_upd_inv n f s r s' :
  node_upd n f s = (r, s') →
  (∃ x, nodes s !! n = Some x ∧ r = Ok tt
        ∧ s' = set_nodes (<[n := f x]> (nodes s)) s)
  ∨ (nodes s !! n = None ∧ r = Raise SystemError ∧ s' = s).
Proof.
  unfold node_upd. destruct (nodes s !! n) eqn:E; intros; simplify_eq; eauto.
Qed.

Lemma attrs_get_ok a s o :
  attrs_heap s !! a = Some o → attrs_get a s = (Ok o, s).
Proof. unfold attrs_get. by intros ->. Qed.

Lemma attrs_get_inv a s r s' :
  attrs_get a s = (r, s') →
  s' = s ∧ (match r with Ok o => attrs_heap s !! a = Some o
                       | Raise e => attrs_heap s !! a = None ∧ e = SystemError end).
Proof.
  unfold attrs_get. destruct (attrs_heap s !! a); intros; simplify_eq; eauto.
Qed.

Lemma attrs_upd_ok a f s o :
  attrs_heap s !! a = Some o →
  attrs_upd a f s = (Ok tt, set_attrs_heap (<[a := f o]> (attrs_heap s)) s).
Proof. unfold attrs_upd. by intros ->. Qed.

(** Reading a node of the store after an update. *)
Lemma lookup_upd n i f s x :
  nodes s !! n = Some x →
  nodes (set_nodes (<[n := f x]> (nodes s)) s) !! i =
    if decide (n = i) then Some (f x) else nodes s !! i.
Proof.
  intros Hn. simpl. case_decide as E.
  - subst. apply list_lookup_insert_eq. by eapply lookup_lt_Some.
  - by apply list_lookup_insert_ne.
Qed.

End facts.
End StoreFacts.

(** ** The changed flag *)

Module ChangedFacts.
Import MonadFacts StoreFacts.
Section facts.
Context `{B : Boundary}.
Implicit Types (s : State) (x : Node) (n : nat) (v : bool).

(** One step of the setter. *)
Lemma set_changed_rec_S fuel n v s :
  set_changed_rec (S fuel) n v s =
    match nodes s !! n with
    | None => (Raise SystemError, s)
    | Some x =>
        let go :=
          match __parent__ x with
          | Some p => set_changed_rec fuel p v (flag n v x s)
          | None => (Ok tt, flag n v x s)
          end in
        if bool_decide (v = _changed x) then (Ok tt, s)
        else if v then go
        else if has_staged_children x then (Ok tt, s)
        else match ns_attrs x with
             | None => go
             | Some a =>
                 match attrs_heap s !! a with
                 | None => (Raise SystemError, s)
                 | Some o => if a_changed o then (Ok tt, s) else go
                 end
             end
    end.
Proof.
  simpl. unfold bind at 1. unfold node_get at 1.
  destruct (nodes s !! n) as [x|] eqn:Hn; [|done].
  case_bool_decide as Hv; [done|].
  assert (Hgo : ∀ m : M State bool, m s = (Ok true, flag n v x s) →
    (let* assigned := m in
     if assigned : bool then
       let* x' := node_get n in
       if negb (bool_decide (_changed x' = _changed x)) then
         match __parent__ x' with
         | Some p => set_changed_rec fuel p (_changed x')
         | None => ret tt
         end
       else ret tt
     else ret tt) s =
    match __parent__ x with
    | Some p => set_changed_rec fuel p v (flag n v x s)
    | None => (Ok tt, flag n v x s)
    end).
  { intros m Hm. unfold bind at 1. rewrite Hm.
    unfold bind at 1, node_get at 1. unfold flag at 1.
    rewrite (lookup_upd _ _ _ _ _ Hn). rewrite decide_True by done.
    assert (_changed (set_changed v x) = v) as -> by by destruct x.
    rewrite bool_decide_false by done. cbn [negb].
    assert (__parent__ (set_changed v x) = __parent__ x) as ->
      by by destruct x.
    by destruct (__parent__ x). }
  destruct v.
  - apply Hgo. unfold bind. by rewrite (node_upd_ok _ _ _ _ Hn).
  - destruct (has_staged_children x); [reflexivity|].
    assert (Hw : (node_upd n (set_changed false) ;; ret true) s
                 = (Ok true, flag n false x s)).
    { unfold bind. by rewrite (node_upd_ok _ _ _ _ Hn). }
    destruct (ns_attrs x) as [a|] eqn:Ha.
    + destruct (attrs_heap s !! a) as [o|] eqn:Ho.
      * assert (E : ns_attrs_changed x s = (Ok (a_changed o), s)).
        { unfold ns_attrs_changed. rewrite Ha. unfold bind.
          by rewrite (attrs_get_ok _ _ _ Ho). }
        destruct (a_changed o).
        -- unfold bind at 1. by rewrite (bind_ok _ _ _ _ _ E).
        -- apply Hgo. by rewrite (bind_ok _ _ _ _ _ E).
      * assert (E : ns_attrs_changed x s = (Raise SystemError, s)).
        { unfold ns_attrs_changed. rewrite Ha. unfold bind, attrs_get.
          by rewrite Ho. }
        unfold bind at 1. by rewrite (bind_raise _ _ _ _ _ E).
    + assert (E : ns_attrs_changed x s = (Ok false, s)).
      { unfold ns_attrs_changed. by rewrite Ha. }
      apply Hgo. by rewrite (bind_ok _ _ _ _ _ E).
Qed.


(** ** Only flags move, and only towards the value that is set *)

Lemma flagP_trans v x y z : flagP v x y → flagP v y z → flagP v x z.
Proof.
  unfold flagP. intros [->| ->] [->| ->]; auto; right; by destruct x.
Qed.

Lemma flagR_refl v s : flagR v s s.
Proof.
  repeat split; try done; intros i x Hx; exists x; split; [done|by left].
Qed.

Lemma flagR_trans v s1 s2 s3 : flagR v s1 s2 → flagR v s2 s3 → flagR v s1 s3.
Proof.
  intros (A1&W1&C1&L1&N1) (A2&W2&C2&L2&N2).
  repeat split; try congruence. intros i x Hx.
  destruct (N1 i x Hx) as (y&Hy&P1). destruct (N2 i y Hy) as (z&Hz&P2).
  exists z. split; [done|by eapply flagP_trans].
Qed.

Lemma flagR_flag n v s x : nodes s !! n = Some x → flagR v s (flag n v x s).
Proof.
  intros Hn. repeat split; try done.
  - simpl. by rewrite length_insert.
  - intros i y Hy. unfold flag. rewrite (lookup_upd _ _ _ _ _ Hn).
    case_decide.
    + subst. simplify_eq. eexists. split; [done|by right].
    + exists y. split; [done|by left].
Qed.

Lemma set_changed_rec_flagR fuel n v s :
  flagR v s (set_changed_rec fuel n v s).2.
Proof.
  revert n s. induction fuel as [|fuel IH]; intros n s;
    [apply flagR_refl|].
  rewrite set_changed_rec_S.
  destruct (nodes s !! n) as [x|] eqn:Hn; [|apply flagR_refl].
  assert (Hgo : flagR v s
    (match __parent__ x with
     | Some p => set_changed_rec fuel p v (flag n v x s)
     | None => (Ok tt, flag n v x s)
     end).2).
  { destruct (__parent__ x) as [p|]; [|by apply flagR_flag].
    eapply flagR_trans; [by apply flagR_flag|apply IH]. }
  cbv zeta. case_bool_decide; [apply flagR_refl|].
  destruct v; [done|].
  destruct (has_staged_children x); [apply flagR_refl|].
  destruct (ns_attrs x) as [a|]; [|done].
  destruct (attrs_heap s !! a) as [o|]; [|apply flagR_refl].
  destruct (a_changed o); [apply flagR_refl|done].
Qed.

(** A node whose flag already has the value is not touched. *)
Lemma flagR_same v s s' i x :
  flagR v s s' → nodes s !! i = Some x → _changed x = v →
  nodes s' !! i = Some x.
Proof.
  intros (_&_&_&_&N) Hx Hv. destruct (N i x Hx) as (x'&Hx'&[->| ->]);
    [done|]. rewrite Hx'. f_equal. subst v. by destruct x.
Qed.

(** ** The recursion ends *)

Lemma length_filter_insert {A} (P : A → Prop) `{!∀ a, Decision (P a)}
    (l : list A) (k : nat) (a b : A) :
  l !! k = Some a → P a → ¬ P b →
  S (length (filter P (<[k := b]> l))) = length (filter P l).
Proof.
  revert k. induction l as [|c l IH]; intros [|k] Hk Pa Pb; try done.
  - simpl in *. simplify_eq. rewrite (filter_cons_False P b) by done.
    by rewrite (filter_cons_True P a) by done.
  - simpl in *. rewrite !filter_cons. destruct (decide (P c)); simpl.
    + f_equal. by apply IH.
    + by apply IH.
Qed.

Lemma pending_flag n v s x :
  nodes s !! n = Some x → _changed x ≠ v →
  S (pending v (flag n v x s)) = pending v s.
Proof.
  intros Hn Hv. unfold pending, flag. simpl.
  apply (length_filter_insert (λ x, _changed x ≠ v) _ _ x); [done..|].
  destruct x; simpl. by intros [].
Qed.

Lemma pending_le v s : pending v s ≤ length (nodes s).
Proof. unfold pending. apply length_filter. Qed.

(** With more fuel than there are flags to switch the result does not
    depend on the fuel, and the recursion limit is not reached. *)
Lemma set_changed_rec_fuel fuel fuel' n v s :
  pending v s < fuel → pending v s < fuel' →
  set_changed_rec fuel n v s = set_changed_rec fuel' n v s.
Proof.
  revert fuel' n s. induction fuel as [|fuel IH]; intros [|fuel'] n s H1 H2;
    try lia.
  rewrite !set_changed_rec_S.
  destruct (nodes s !! n) as [x|] eqn:Hn; [|done].
  case_bool_decide as Hv; [done|].
  assert (Hgo : match __parent__ x with
     | Some p => set_changed_rec fuel p v (flag n v x s)
     | None => (Ok tt, flag n v x s)
     end = match __parent__ x with
     | Some p => set_changed_rec fuel' p v (flag n v x s)
     | None => (Ok tt, flag n v x s)
     end).
  { destruct (__parent__ x) as [p|]; [|done].
    pose proof (pending_flag n v s x Hn (not_eq_sym Hv)).
    apply IH; lia. }
  cbv zeta. rewrite Hgo. done.
Qed.

Lemma set_changed_rec_enough fuel n v s :
  pending v s < fuel →
  (set_changed_rec fuel n v s).1 ≠ Raise RecursionError.
Proof.
  revert n s. induction fuel as [|fuel IH]; intros n s Hf; [lia|].
  rewrite set_changed_rec_S.
  destruct (nodes s !! n) as [x|] eqn:Hn; [|done].
  case_bool_decide as Hv; [done|].
  assert (Hgo : (match __parent__ x with
     | Some p => set_changed_rec fuel p v (flag n v x s)
     | None => (Ok tt, flag n v x s)
     end).1 ≠ Raise RecursionError).
  { destruct (__parent__ x) as [p|]; [|done].
    pose proof (pending_flag n v s x Hn (not_eq_sym Hv)).
    apply IH; lia. }
  cbv zeta. destruct v; [done|].
  destruct (has_staged_children x); [done|].
  destruct (ns_attrs x) as [a|]; [|done].
  destruct (attrs_heap s !! a) as [o|]; [|done].
  by destruct (a_changed o).
Qed.

Lemma _set_changed_total n v s :
  (_set_changed n v s).1 ≠ Raise RecursionError.
Proof.
  apply set_changed_rec_enough. pose proof (pending_le v s). lia.
Qed.

Lemma _set_changed_flagR n v s : flagR v s (_set_changed n v s).2.
Proof. apply set_changed_rec_flagR. Qed.

(** The setter, step by step. *)
Lemma _set_changed_unfold n v s :
  _set_changed n v s =
    match nodes s !! n with
    | None => (Raise SystemError, s)
    | Some x =>
        let go :=
          match __parent__ x with
          | Some p => _set_changed p v (flag n v x s)
          | None => (Ok tt, flag n v x s)
          end in
        if bool_decide (v = _changed x) then (Ok tt, s)
        else if v then go
        else if has_staged_children x then (Ok tt, s)
        else match ns_attrs x with
             | None => go
             | Some a =>
                 match attrs_heap s !! a with
                 | None => (Raise SystemError, s)
                 | Some o => if a_changed o then (Ok tt, s) else go
                 end
             end
    end.
Proof.
  unfold _set_changed at 1. rewrite set_changed_rec_S.
  destruct (nodes s !! n) as [x|] eqn:Hn; [|done].
  case_bool_decide as Hv; [done|].
  assert (Hgo : match __parent__ x with
     | Some p => set_changed_rec (length (nodes s)) p v (flag n v x s)
     | None => (Ok tt, flag n v x s)
     end = match __parent__ x with
     | Some p => _set_changed p v (flag n v x s)
     | None => (Ok tt, flag n v x s)
     end).
  { destruct (__parent__ x) as [p|]; [|done].
    pose proof (pending_flag n v s x Hn (not_eq_sym Hv)).
    pose proof (pending_le v s).
    pose proof (pending_le v (flag n v x s)).
    unfold _set_changed. apply set_changed_rec_fuel; lia. }
  cbv zeta. by rewrite Hgo.
Qed.


(** ** The invariant of the flag *)

Lemma blocked_flag n v x s y :
  blocked (flag n v x s) y = blocked s y.
Proof. done. Qed.

Lemma blocked_set_changed s v x :
  blocked s (set_changed v x) = blocked s x.
Proof. by destruct x. Qed.

Lemma changed_invariant_flag n v x s :
  nodes s !! n = Some x →
  (v = false → blocked s x = false) →
  changed_invariant s → changed_invariant (flag n v x s).
Proof.
  intros Hn Hv Hs. unfold changed_invariant, flag. simpl.
  apply Forall_insert; [done|].
  change (blocked s (set_changed v x) = true
          → _changed (set_changed v x) = true).
  rewrite blocked_set_changed.
  destruct v; [by destruct x|]. by rewrite Hv.
Qed.

Lemma set_changed_rec_invariant fuel n v s :
  changed_invariant s → changed_invariant (set_changed_rec fuel n v s).2.
Proof.
  revert n s. induction fuel as [|fuel IH]; intros n s Hs; [done|].
  rewrite set_changed_rec_S.
  destruct (nodes s !! n) as [x|] eqn:Hn; [|done].
  assert (Hgo : (v = false → blocked s x = false) →
    changed_invariant
      (match __parent__ x with
       | Some p => set_changed_rec fuel p v (flag n v x s)
       | None => (Ok tt, flag n v x s)
       end).2).
  { intros Hv. pose proof (changed_invariant_flag n v x s Hn Hv Hs).
    destruct (__parent__ x) as [p|]; [by apply IH|done]. }
  cbv zeta. case_bool_decide; [done|].
  destruct v; [by apply Hgo|].
  unfold blocked, registered_changed in Hgo.
  destruct (has_staged_children x); [done|].
  destruct (ns_attrs x) as [a|]; [|by apply Hgo].
  destruct (attrs_heap s !! a) as [o|]; [|done].
  destruct (a_changed o); [done|]. by apply Hgo.
Qed.

(** X16.  The setter ends and keeps the
    invariant of the flag; a call that would lower the flag of a node whose own
    attribute set is changed or that has a child staged changes
    nothing; a call that switches the flag goes on with the same value
    on the parent, when there is one. *)
Theorem setter_keeps_invariant (n : nat) (v : bool) (s : State) :
  (_set_changed n v s).1 ≠ Raise RecursionError
  ∧ (changed_invariant s → changed_invariant (_set_changed n v s).2)
  ∧ (∀ x, nodes s !! n = Some x → blocked s x = true →
       _set_changed n false s = (Ok tt, s))
  ∧ (∀ x, nodes s !! n = Some x → _changed x ≠ v →
       (v = false → blocked s x = false) → attrs_bound s x →
       _set_changed n v s =
         match __parent__ x with
         | Some p => _set_changed p v (flag n v x s)
         | None => (Ok tt, flag n v x s)
         end).
Proof.
  split; [apply _set_changed_total|].
  split; [apply set_changed_rec_invariant|]. split.
  - intros x Hn Hb. rewrite _set_changed_unfold, Hn. cbv zeta.
    case_bool_decide; [done|].
    unfold blocked, registered_changed in Hb.
    destruct (has_staged_children x); [done|].
    destruct (ns_attrs x) as [a|]; [|done].
    destruct (attrs_heap s !! a) as [o|]; [|done].
    simpl in Hb. by rewrite Hb.
  - intros x Hn Hv Hb Ha. rewrite _set_changed_unfold, Hn. cbv zeta.
    rewrite bool_decide_false by done.
    destruct v; [done|]. specialize (Hb eq_refl).
    unfold blocked, registered_changed in Hb.
    apply orb_false_elim in Hb as [-> Hb].
    destruct (ns_attrs x) as [a|] eqn:E; [|done].
    destruct (Ha a E) as [o Ho]. rewrite Ho in Hb |- *.
    by rewrite Hb.
Qed.

End facts.
End ChangedFacts.

Module ChangedRuns.
Import MonadFacts StoreFacts ChangedFacts Scenario.

Lemma invariant_decide (s : State) :
  bool_decide (changed_invariant s) = true → changed_invariant s.
Proof. apply bool_decide_eq_true_1. Qed.

(** [setter_keeps_invariant] on the root with a child staged for
    addition, and on a child that was just looked up. *)
Lemma setter_keeps_invariant_witness :
  changed_invariant staged_add
  ∧ changed_invariant (_set_changed 0 false staged_add).2
  ∧ blocked staged_add (node_at staged_add 0) = true
  ∧ _set_changed 0 false staged_add = (Ok tt, staged_add)
  ∧ _changed (node_at looked_up 1) ≠ true
  ∧ _set_changed 1 true looked_up =
      _set_changed 0 true (flag 1 true (node_at looked_up 1) looked_up).
Proof.
  assert (H1 : changed_invariant staged_add).
  { apply invariant_decide. vm_compute. reflexivity. }
  assert (H2 : nodes staged_add !! 0 = Some (node_at staged_add 0)).
  { vm_compute. reflexivity. }
  assert (H3 : blocked staged_add (node_at staged_add 0) = true).
  { vm_compute. reflexivity. }
  assert (H4 : nodes looked_up !! 1 = Some (node_at looked_up 1)).
  { vm_compute. reflexivity. }
  assert (H5 : _changed (node_at looked_up 1) ≠ true).
  { vm_compute. discriminate. }
  split; [exact H1|]. split.
  { exact (proj1 (proj2 (setter_keeps_invariant 0 false staged_add)) H1). }
  split; [exact H3|]. split.
  { exact (proj1 (proj2 (proj2 (setter_keeps_invariant 0 false staged_add)))
             _ H2 H3). }
  split; [exact H5|].
  refine (proj2 (proj2 (proj2 (setter_keeps_invariant 1 true looked_up)))
            _ H4 H5 _ _).
  - discriminate.
  - intros a Ha. vm_compute in Ha. discriminate.
Defined.

End ChangedRuns.

(** ** The flag of the parent after a deletion *)

Module DelFlagFacts.
Import MonadFacts StoreFacts ChangedFacts.
Section facts.
Context `{B : Boundary}.
Implicit Types (s : State) (x : Node) (n : nat).

(** C4.  The invariant of the flag is not kept by [__delitem__]:
    [val.changed = True] is to "trigger the changed chain", but on a
    child whose flag is up already the setter returns at once and
    the parent is not reached.  For a child in [storage] that is
    changed under a node that is not, [del self[key]] returns with
    [key] in [_deleted_children] of the node and the node's flag
    still down. *)
Theorem delitem_skips_parent (n c : nat) (x y : Node) (key : string)
    (s : State) :
  nodes s !! n = Some x → od_get key (storage x) = Some c →
  nodes s !! c = Some y → n ≠ c →
  _changed y = true → _changed x = false →
  let x' := set_deleted_children ({[key]} ∪ _deleted_children x) x in
  let s' := set_nodes
              (<[n := x']>
                 (<[c := set_action (Some ACTION_DELETE) y]> (nodes s)))
              s in
  LDAPStorage.__delitem__ n key s = (Ok tt, s')
  ∧ nodes s' !! n = Some x'
  ∧ key ∈ _deleted_children x'
  ∧ _changed x' = false
  ∧ ¬ changed_invariant s'.
Proof.
  intros Hn Hk Hc Hne Hy Hx x' s'.
  assert (Hln : n < length (nodes s)) by by eapply lookup_lt_Some.
  assert (Hn' : nodes s' !! n = Some x').
  { unfold s'. simpl. apply list_lookup_insert_eq.
    by rewrite length_insert. }
  assert (Hin : key ∈ _deleted_children x').
  { unfold x'. destruct x; simpl.
    by apply elem_of_union_l, elem_of_singleton. }
  assert (Hx' : _changed x' = false) by (unfold x'; by destruct x).
  split; [|split; [done|split; [done|split; [done|]]]].
  - unfold LDAPStorage.__delitem__, LDAPStorage.__getitem__.
    rewrite (bind_ok _ _ s c s); cycle 1.
    { rewrite (bind_ok _ _ _ _ _ (node_get_ok _ _ _ Hn)). by rewrite Hk. }
    rewrite (bind_ok _ _ _ _ _ (node_upd_ok _ _ _ _ Hc)).
    set (s2 := set_nodes _ s).
    assert (Hc2 : nodes s2 !! c
                  = Some (set_action (Some ACTION_DELETE) y)).
    { unfold s2. by rewrite (lookup_upd _ _ _ _ _ Hc), decide_True. }
    assert (Hn2 : nodes s2 !! n = Some x).
    { unfold s2. simpl. by rewrite list_lookup_insert_ne. }
    rewrite (bind_ok _ _ s2 tt s2); cycle 1.
    { rewrite _set_changed_unfold, Hc2. cbv zeta.
      rewrite bool_decide_eq_true_2; [done|]. by destruct y. }
    unfold deleted_add. by rewrite (node_upd_ok _ _ _ _ Hn2).
  - intros Hinv. unfold changed_invariant in Hinv.
    pose proof (Forall_lookup_1 _ _ _ _ Hinv Hn') as Hb. cbv beta in Hb.
    assert (blocked s' x' = true) as Hbl.
    { unfold blocked, has_staged_children.
      assert (_deleted_children x' ≠ ∅) as Hd.
      { intros E. rewrite E in Hin. by apply not_elem_of_empty in Hin. }
      rewrite (bool_decide_eq_false_2 _ Hd). simpl.
      by rewrite orb_true_r. }
    specialize (Hb Hbl). congruence.
Qed.

End facts.
End DelFlagFacts.

Module DelFlagRuns.
Import MonadFacts StoreFacts ChangedFacts DelFlagFacts Scenario.

(** [delitem_skips_parent] on [c = LDAPNode(); c.attrs['cn'] = 'a';
    root['cn=a'] = c; del root['cn=a']], where the entry exists: the
    invariant holds before the deletion and not after it. *)
Lemma delitem_skips_parent_witness :
  let s := attached_changed in
  let x' := set_deleted_children
              ({["cn=a"]} ∪ _deleted_children (node_at s 0))
              (node_at s 0) in
  let s' := set_nodes
              (<[0 := x']>
                 (<[1 := set_action (Some ACTION_DELETE) (node_at s 1)]>
                    (nodes s))) s in
  changed_invariant s
  ∧ LDAPStorage.__delitem__ 0 "cn=a" s = (Ok tt, s')
  ∧ nodes s' !! 0 = Some x'
  ∧ "cn=a" ∈ _deleted_children x'
  ∧ _changed x' = false
  ∧ ¬ changed_invariant s'.
Proof.
  intros s x' s'.
  split; [apply ChangedRuns.invariant_decide; vm_compute; reflexivity|].
  refine (delitem_skips_parent 0 1 (node_at s 0) (node_at s 1) "cn=a" s
            _ _ _ _ _ _).
  - vm_compute. reflexivity.
  - vm_compute. reflexivity.
  - vm_compute. reflexivity.
  - discriminate.
  - vm_compute. reflexivity.
  - vm_compute. reflexivity.
Defined.
End DelFlagRuns.

(** ** What the attribute behaviour leaves alone *)

Module FrameFacts.
Import MonadFacts StoreFacts ChangedFacts.
Section keeps.
Context `{B : Boundary} (R : State → State → Prop)
  `{!Reflexive R, !Transitive R}.

Lemma keeps_ret {A} (a : A) : keeps R (ret a).
Proof. intros s. simpl. reflexivity. Qed.

Lemma keeps_raise {A} e : keeps R (raise (A := A) e).
Proof. intros s. simpl. reflexivity. Qed.

Lemma keeps_bind {A C} (m : M State A) (k : A → M State C) :
  keeps R m → (∀ a, keeps R (k a)) → keeps R (bind m k).
Proof.
  intros Hm Hk s. unfold bind. specialize (Hm s).
  destruct (m s) as [[a|e] s1]; simpl in *; [|done].
  etrans; [exact Hm|apply Hk].
Qed.

Lemma keeps_try {A} (m h : M State A) c :
  keeps R m → keeps R h → keeps R (try_except m c h).
Proof.
  intros Hm Hh s. unfold try_except. specialize (Hm s).
  destruct (m s) as [[a|e] s1]; simpl in *; [done|].
  destruct (c e); [|done]. etrans; [exact Hm|apply Hh].
Qed.

Lemma keeps_for_each {A} (l : list A) (body : A → M State unit) :
  (∀ a, keeps R (body a)) → keeps R (for_each l body).
Proof.
  intros Hb. induction l as [|a l IH]; simpl.
  - apply keeps_ret.
  - apply keeps_bind; [apply Hb|done].
Qed.

Lemma keeps_map_m {A C} (f : A → M State C) (l : list A) :
  (∀ a, keeps R (f a)) → keeps R (map_m f l).
Proof.
  intros Hf. induction l as [|a l IH]; simpl.
  - apply keeps_ret.
  - apply keeps_bind; [apply Hf|]. intros c.
    apply keeps_bind; [done|]. intros cs. apply keeps_ret.
Qed.

Lemma keeps_node_get n : keeps R (node_get n).
Proof. intros s. unfold node_get. by destruct (nodes s !! n). Qed.

Lemma keeps_attrs_get a : keeps R (attrs_get a).
Proof. intros s. unfold attrs_get. by destruct (attrs_heap s !! a). Qed.

Lemma keeps_run {A} (m : M State A) s r s' :
  keeps R m → m s = (r, s') → R s s'.
Proof. intros K E. specialize (K s). by rewrite E in K. Qed.

(** After [node_get] the continuation may use what was read. *)
Lemma keeps_node_get_bind {C} n (k : Node → M State C) :
  (∀ x s, nodes s !! n = Some x → R s (k x s).2) →
  keeps R (bind (node_get n) k).
Proof.
  intros Hk s. unfold bind, node_get.
  destruct (nodes s !! n) as [x|] eqn:E; [by apply Hk|done].
Qed.

Lemma keeps_attrs_get_bind {C} a (k : Attrs → M State C) :
  (∀ o s, attrs_heap s !! a = Some o → R s (k o s).2) →
  keeps R (bind (attrs_get a) k).
Proof.
  intros Hk s. unfold bind, attrs_get.
  destruct (attrs_heap s !! a) as [x|] eqn:E; [by apply Hk|done].
Qed.

End keeps.

Section attr.
Context `{B : Boundary}.
Implicit Types (s : State) (x : Node).

Lemma attrP_refl x : attrP x x.
Proof. unfold attrP. repeat split; try done. by left. Qed.

Lemma attrP_trans x y z : attrP x y → attrP y z → attrP x z.
Proof.
  unfold attrP. intros H1 H2. destruct_and!.
  repeat split; try congruence.
  repeat match goal with H : _ ∨ _ |- _ => destruct H as [H|[? ?]] end.
  - left. congruence.
  - right. split; congruence.
  - right. split; congruence.
  - by right.
Qed.

Global Instance attrR_refl : Reflexive attrR.
Proof.
  intros s. split; [done|]. split; [|split; [|done]].
  - intros i x Hx. exists x. split; [done|apply attrP_refl].
  - intros a o Ho. by exists o.
Qed.

Global Instance attrR_trans : Transitive attrR.
Proof.
  intros s1 s2 s3 (L1&N1&A1&W1) (L2&N2&A2&W2).
  split; [congruence|]. split; [|split; [|congruence]].
  - intros i x Hx. destruct (N1 i x Hx) as (y&Hy&P1).
    destruct (N2 i y Hy) as (z&Hz&P2). exists z.
    split; [done|by eapply attrP_trans].
  - intros a o Ho. destruct (A1 a o Ho) as (o1&Ho1&P1).
    destruct (A2 a o1 Ho1) as (o2&Ho2&P2). exists o2.
    split; [done|congruence].
Qed.

Lemma attrR_upd n y s x :
  nodes s !! n = Some x → attrP x y →
  attrR s (set_nodes (<[n := y]> (nodes s)) s).
Proof.
  intros Hn Hy. split; [simpl; by rewrite length_insert|].
  split; [|split; [|done]].
  - intros i z Hz. simpl. destruct (decide (n = i)) as [->|Hne].
    + rewrite list_lookup_insert_eq by by eapply lookup_lt_Some.
      simplify_eq. by exists y.
    + rewrite list_lookup_insert_ne by done. exists z.
      split; [done|apply attrP_refl].
  - intros a o Ho. by exists o.
Qed.

Lemma keeps_node_upd n (f : Node → Node) :
  (∀ x, attrP x (f x)) → keeps attrR (node_upd n f).
Proof.
  intros Hf s. unfold node_upd.
  destruct (nodes s !! n) as [x|] eqn:E; [|reflexivity].
  by eapply attrR_upd.
Qed.

Lemma keeps_attrs_upd a (f : Attrs → Attrs) :
  (∀ o, a_parent (f o) = a_parent o) → keeps attrR (attrs_upd a f).
Proof.
  intros Hf s. unfold attrs_upd.
  destruct (attrs_heap s !! a) as [o|] eqn:E; [|reflexivity].
  split; [done|]. split; [|split; [|done]].
  - intros i x Hx. exists x. split; [done|apply attrP_refl].
  - intros a' o' Ho'. simpl. destruct (decide (a = a')) as [->|Hne].
    + rewrite list_lookup_insert_eq by by eapply lookup_lt_Some.
      simplify_eq. eexists. split; [done|apply Hf].
    + rewrite list_lookup_insert_ne by done. by exists o'.
Qed.

Lemma keeps_attrs_new o : keeps attrR (attrs_new o).
Proof.
  intros s. split; [done|]. split; [|split; [|done]].
  - intros i x Hx. exists x. split; [done|apply attrP_refl].
  - intros a' o' Ho'. simpl. exists o'. split; [|done].
    by apply lookup_app_l_Some.
Qed.

Lemma writes_snoc_search l q : writes (l ++ [CallSearch q]) = writes l.
Proof.
  unfold writes. rewrite filter_app. simpl.
  rewrite filter_cons_False by done. by rewrite filter_nil, app_nil_r.
Qed.

Lemma keeps_call_search q : keeps attrR (call_search q).
Proof.
  intros s. unfold call_search.
  destruct (session_search q (world s)) as [r w]. simpl.
  split; [done|]. split; [|split].
  - intros i x Hx. exists x. split; [done|apply attrP_refl].
  - intros a' o' Ho'. by exists o'.
  - simpl. apply writes_snoc_search.
Qed.

Lemma flagP_attrP v x x' : flagP v x x' → attrP x x'.
Proof.
  intros [->| ->]; [apply attrP_refl|].
  unfold attrP. destruct x; simpl. repeat split; try done. by left.
Qed.

Lemma flagR_attrR v s s' : flagR v s s' → attrR s s'.
Proof.
  intros (A&W&C&L&N). split; [done|]. split; [|split].
  - intros i x Hx. destruct (N i x Hx) as (x'&Hx'&P). exists x'.
    split; [done|by eapply flagP_attrP].
  - intros a o Ho. exists o. by rewrite A.
  - by rewrite C.
Qed.

Lemma keeps__set_changed n v : keeps attrR (_set_changed n v).
Proof. intros s. eapply flagR_attrR, _set_changed_flagR. Qed.

Lemma attrP_set_changed v x : attrP x (set_changed v x).
Proof. unfold attrP. destruct x; simpl. repeat split; try done. by left. Qed.

Lemma attrP_set_modified m x : attrP x (set_modified_children m x).
Proof. unfold attrP. destruct x; simpl. repeat split; try done. by left. Qed.

Lemma attrP_set_ns_attrs a x : attrP x (set_ns_attrs a x).
Proof. unfold attrP. destruct x; simpl. repeat split; try done. by left. Qed.

Lemma attrP_set_action a x :
  action_staged (_action x) = false → action_staged a = false →
  attrP x (set_action a x).
Proof.
  intros H1 H2. unfold attrP. destruct x; simpl in *.
  repeat split; try done. by right.
Qed.

Lemma attrP_staged x x' :
  attrP x x' → action_staged (_action x') = action_staged (_action x).
Proof.
  unfold attrP. intros H. destruct_and!.
  match goal with H : _ ∨ _ |- _ => destruct H as [H|[? ?]] end;
    congruence.
Qed.

(** State is not touched by the lookups. *)
Lemma root_pure n s : (root n s).2 = s.
Proof. done. Qed.

End attr.

Ltac keeps_step :=
  cbv beta zeta;
  lazymatch goal with
  | |- keeps _ (ret _) => apply keeps_ret; try apply _
  | |- keeps _ (raise _) => apply keeps_raise; try apply _
  | |- keeps _ (node_get _) => apply keeps_node_get; try apply _
  | |- keeps _ (attrs_get _) => apply keeps_attrs_get; try apply _
  | |- keeps _ (bind _ _) => apply keeps_bind; [try apply _| |intros ?]
  | |- keeps _ (try_except _ _ _) => apply keeps_try; [try apply _..| |]
  | |- keeps _ (for_each _ _) =>
      apply keeps_for_each; [try apply _..|intros ?]
  | |- keeps _ (map_m _ _) => apply keeps_map_m; [try apply _..|intros ?]
  | |- keeps _ (match ?x with _ => _ end) => destruct x
  | |- keeps _ (if ?b then _ else _) => destruct b
  end.

Section attr_ops.
Context `{B : Boundary}.

Lemma keeps_root R `{!Reflexive R} n : keeps R (root n).
Proof. intros s. simpl. reflexivity. Qed.

Lemma keeps_is_binary R `{!Reflexive R, !Transitive R} a k :
  keeps R (is_binary a k).
Proof.
  unfold is_binary. repeat keeps_step. by apply keeps_root.
Qed.

Lemma keeps_is_multivalued R `{!Reflexive R, !Transitive R} a k :
  keeps R (is_multivalued a k).
Proof.
  unfold is_multivalued. repeat keeps_step. by apply keeps_root.
Qed.

Lemma keeps_child_dn R `{!Reflexive R, !Transitive R} n k :
  keeps R (child_dn n k).
Proof. unfold child_dn. repeat keeps_step. Qed.

Lemma keeps_DN R `{!Reflexive R, !Transitive R} n : keeps R (DN n).
Proof. unfold DN. repeat keeps_step. all: by apply keeps_child_dn. Qed.

End attr_ops.

Create HintDb keeps.
#[export] Hint Resolve attrP_set_changed attrP_set_modified
  attrP_set_ns_attrs : keeps.
#[export] Hint Resolve keeps_node_upd keeps_attrs_upd keeps_attrs_new
  keeps_call_search keeps__set_changed : keeps.
#[export] Hint Extern 1 (keeps _ (is_binary _ _)) =>
  apply keeps_is_binary; apply _ : keeps.
#[export] Hint Extern 1 (keeps _ (is_multivalued _ _)) =>
  apply keeps_is_multivalued; apply _ : keeps.
#[export] Hint Extern 1 (keeps _ (DN _)) => apply keeps_DN; apply _ : keeps.
#[export] Hint Extern 1 (keeps _ (child_dn _ _)) =>
  apply keeps_child_dn; apply _ : keeps.
#[export] Hint Extern 1 (keeps _ (root _)) =>
  apply keeps_root; apply _ : keeps.
#[export] Hint Extern 1 (keeps _ (node_get _)) =>
  apply keeps_node_get; apply _ : keeps.
#[export] Hint Extern 1 (keeps _ (attrs_get _)) =>
  apply keeps_attrs_get; apply _ : keeps.
#[export] Hint Extern 1 (keeps _ (ret _)) =>
  apply keeps_ret; apply _ : keeps.
#[export] Hint Extern 1 (keeps _ (raise _)) =>
  apply keeps_raise; apply _ : keeps.

(** The same, stopping in front of the test of the action, which
    needs the node that was read. *)
Ltac keeps_guarded :=
  cbv beta zeta;
  lazymatch goal with
  | |- keeps _ (bind (node_get _)
                  (λ x, if negb (action_staged (_action x))
                        then @?t x else @?e x)) => fail
  | _ => keeps_step
  end.

Ltac keeps_auto := repeat keeps_guarded; eauto with keeps.

Section attr_behaviour.
Context `{B : Boundary}.
Implicit Types (s : State) (x : Node).

Lemma keeps_modified_add p nm : keeps attrR (modified_add p nm).
Proof. unfold modified_add. keeps_auto. Qed.

Lemma keeps_modified_remove p nm : keeps attrR (modified_remove p nm).
Proof. unfold modified_remove. keeps_auto. Qed.

(** [node._action = a] on a node whose action is not staged, later. *)
Lemma attrR_set_action_later n a s s' x :
  nodes s !! n = Some x → action_staged (_action x) = false →
  action_staged a = false → attrR s s' →
  attrR s (node_upd n (set_action a) s').2.
Proof.
  intros Hn Hx Ha HR. pose proof HR as (L&N&A&W).
  destruct (N n x Hn) as (y&Hy&P).
  rewrite (node_upd_ok _ _ _ _ Hy). simpl.
  etrans; [exact HR|].
  eapply attrR_upd; [done|]. apply attrP_set_action; [|done].
  by rewrite (attrP_staged _ _ P).
Qed.

(** The end of [_set_attrs_modified]. *)
Lemma keeps_mark_modified n :
  keeps attrR
    (let* x := node_get n in
     if negb (action_staged (_action x)) then
       node_upd n (set_action (Some ACTION_MODIFY)) ;;
       _set_changed n true ;;
       let* x' := node_get n in
       match __parent__ x' with
       | Some p => with_name (__name__ x') (modified_add p)
       | None => ret tt
       end
     else ret tt).
Proof.
  apply keeps_node_get_bind; [apply _|]. intros x s Hx.
  destruct (action_staged (_action x)) eqn:Hs; simpl; [reflexivity|].
  unfold bind at 1.
  pose proof (attrR_set_action_later _ (Some ACTION_MODIFY) s s x Hx Hs
                eq_refl (reflexivity s)) as H1.
  destruct (node_upd _ _ s) as [[[]|e] s1]; simpl in *; [|done].
  etrans; [exact H1|].
  assert (K : keeps attrR
    (_set_changed n true ;;
     let* x' := node_get n in
     match __parent__ x' with
     | Some p => with_name (__name__ x') (modified_add p)
     | None => ret tt
     end)).
  { unfold with_name. keeps_auto; apply keeps_modified_add. }
  apply K.
Qed.

Lemma keeps_unset_markers n : keeps attrR (unset_markers n).
Proof.
  unfold unset_markers.
  apply keeps_node_get_bind; [apply _|]. intros x s Hx.
  destruct (action_staged (_action x)) eqn:Hs; simpl; [reflexivity|].
  set (m := match __parent__ x with
            | Some p => with_name (__name__ x) (modified_remove p)
            | None => ret tt
            end).
  assert (K : keeps attrR m).
  { unfold m, with_name. keeps_auto; apply keeps_modified_remove. }
  specialize (K s). unfold bind at 1.
  destruct (m s) as [[[]|e] s1]; simpl in *; [|done].
  unfold bind at 1.
  pose proof (attrR_set_action_later _ None s s1 x Hx Hs eq_refl K) as H1.
  destruct (node_upd _ _ s1) as [[[]|e] s2]; simpl in *; [|done].
  etrans; [exact H1|]. apply keeps__set_changed.
Qed.

Lemma keeps__set_attrs_modified a : keeps attrR (_set_attrs_modified a).
Proof.
  unfold _set_attrs_modified. keeps_auto; apply keeps_mark_modified.
Qed.

Lemma keeps_attrs_setitem a key val :
  keeps attrR (LDAPAttributesBehavior.__setitem__ a key val).
Proof.
  unfold LDAPAttributesBehavior.__setitem__.
  keeps_auto; apply keeps__set_attrs_modified.
Qed.

Lemma keeps_attrs_delitem a key :
  keeps attrR (LDAPAttributesBehavior.__delitem__ a key).
Proof.
  unfold LDAPAttributesBehavior.__delitem__.
  keeps_auto; apply keeps__set_attrs_modified.
Qed.

Lemma keeps_clear a : keeps attrR (clear a).
Proof. unfold clear. keeps_auto; apply keeps_attrs_delitem. Qed.

Lemma keeps_load_item a kv : keeps attrR (load_item a kv).
Proof.
  unfold load_item. destruct kv as [key item].
  keeps_auto; apply keeps_attrs_setitem.
Qed.

Lemma keeps_load a : keeps attrR (load a).
Proof.
  unfold load.
  keeps_auto;
    first [apply keeps_clear | apply keeps_load_item
          | apply keeps_unset_markers].
Qed.

Lemma keeps_attributes_factory n : keeps attrR (attributes_factory n).
Proof. unfold attributes_factory. keeps_auto; apply keeps_load. Qed.

Lemma keeps_attrs n : keeps attrR (attrs n).
Proof. unfold attrs. keeps_auto; apply keeps_attributes_factory. Qed.

End attr_behaviour.
End FrameFacts.

(** ** Loading the attributes *)

Module LoadFacts.
Import MonadFacts StoreFacts ChangedFacts FrameFacts.
Section facts.
Context `{B : Boundary}.
Implicit Types (s : State) (x : Node) (n : nat).

Lemma flagP_fields v x x' :
  flagP v x x' →
  _action x' = _action x ∧ _modified_children x' = _modified_children x
  ∧ ns_attrs x' = ns_attrs x ∧ has_staged_children x' = has_staged_children x.
Proof. intros [->| ->]; [done|by destruct x]. Qed.

(** Lowering the flag: it is down afterwards unless something keeps
    it up. *)
Lemma set_changed_false_spec n s r s' x :
  _set_changed n false s = (r, s') → nodes s !! n = Some x →
  flagR false s s'
  ∧ ∃ x', nodes s' !! n = Some x' ∧ flagP false x x'
          ∧ (r = Ok tt → blocked s' x' = false → _changed x' = false).
Proof.
  intros H Hn.
  assert (HR : flagR false s s').
  { pose proof (_set_changed_flagR n false s) as K. by rewrite H in K. }
  split; [done|].
  pose proof HR as (HA&_&_&_&N). destruct (N n x Hn) as (x'&Hx'&P).
  exists x'. split; [done|]. split; [done|]. intros -> Hb.
  rewrite _set_changed_unfold, Hn in H. cbv zeta in H.
  assert (Hgo : match __parent__ x with
                | Some p => _set_changed p false (flag n false x s)
                | None => (Ok tt, flag n false x s)
                end = (Ok tt, s') → _changed x' = false).
  { intros Hg.
    assert (Hf : nodes (flag n false x s) !! n = Some (set_changed false x)).
    { unfold flag. rewrite (lookup_upd _ _ _ _ _ Hn).
      by rewrite decide_True. }
    assert (nodes s' !! n = Some (set_changed false x)) as Hs'.
    { destruct (__parent__ x) as [p|].
      - pose proof (_set_changed_flagR p false (flag n false x s)) as K.
        rewrite Hg in K. eapply flagR_same; [exact K|exact Hf|].
        by destruct x.
      - by simplify_eq. }
    rewrite Hx' in Hs'. simplify_eq. by destruct x. }
  case_bool_decide as Hv.
  { by simplify_eq. }
  unfold blocked, registered_changed in Hb. rewrite HA in Hb.
  destruct (flagP_fields _ _ _ P) as (_&_&Hns&Hst).
  rewrite Hns, Hst in Hb.
  destruct (has_staged_children x); [by simplify_eq|].
  destruct (ns_attrs x) as [a|]; [|by apply Hgo].
  destruct (attrs_heap s !! a) as [o|]; [|done].
  destruct (a_changed o); [done|by apply Hgo].
Qed.

Lemma attrP_fields x x' :
  attrP x x' →
  __name__ x' = __name__ x ∧ __parent__ x' = __parent__ x
  ∧ action_staged (_action x') = action_staged (_action x).
Proof.
  intros P. pose proof (attrP_staged _ _ P). unfold attrP in P.
  by destruct_and!.
Qed.

(** [s.remove(nm)] that returns has removed [nm]. *)
Lemma modified_remove_ok p nm s s' :
  modified_remove p nm s = (Ok tt, s') →
  ∃ y, nodes s !! p = Some y ∧ nm ∈ _modified_children y
       ∧ s' = set_nodes (<[p := set_modified_children
                                   (_modified_children y ∖ {[nm]}) y]>
                           (nodes s)) s.
Proof.
  unfold modified_remove. intros H.
  apply bind_ok_inv in H as (y&s1&E&H).
  apply node_get_inv in E as [-> E].
  case_bool_decide as Hin; [|done].
  rewrite (node_upd_ok _ _ _ _ E) in H. simplify_eq. eauto.
Qed.

(** The end of a load that returns. *)
Lemma unset_markers_ok n s s' x :
  unset_markers n s = (Ok tt, s') → nodes s !! n = Some x →
  action_staged (_action x) = false →
  attrs_heap s' = attrs_heap s
  ∧ ∃ x', nodes s' !! n = Some x' ∧ _action x' = None
      ∧ (∀ p nm, __parent__ x = Some p → __name__ x = Some nm →
           ∃ y, nodes s' !! p = Some y ∧ nm ∉ _modified_children y)
      ∧ (blocked s' x' = false → _changed x' = false).
Proof.
  unfold unset_markers. intros H Hn Hs.
  rewrite (bind_ok _ _ _ _ _ (node_get_ok _ _ _ Hn)) in H.
  rewrite Hs in H. simpl in H.
  apply bind_ok_inv in H as ([]&s1&E1&H).
  apply bind_ok_inv in H as ([]&s2&E2&H).
  (* the removal *)
  assert (H1 : attrs_heap s1 = attrs_heap s
    ∧ ∃ x1, nodes s1 !! n = Some x1 ∧ _action x1 = _action x
      ∧ ∀ p nm, __parent__ x = Some p → __name__ x = Some nm →
          ∃ y, nodes s1 !! p = Some y ∧ nm ∉ _modified_children y).
  { destruct (__parent__ x) as [p|] eqn:Hp.
    - destruct (__name__ x) as [nm|] eqn:Hnm; [|done]. simpl in E1.
      apply modified_remove_ok in E1 as (y&Hy&Hin&->).
      split; [done|]. rewrite (lookup_upd _ _ _ _ _ Hy).
      case_decide as Hpn.
      + subst p. simplify_eq. eexists. split; [done|].
        split; [by destruct y|]. intros p nm' ? ?. simplify_eq.
        rewrite (lookup_upd _ _ _ _ _ Hy), decide_True by done.
        eexists. split; [done|]. destruct y; simpl.
        intros [_ Hx]%elem_of_difference. by apply Hx, elem_of_singleton.
      + exists x. split; [done|]. split; [done|].
        intros p' nm' ? ?. simplify_eq.
        rewrite (lookup_upd _ _ _ _ _ Hy), decide_True by done.
        eexists. split; [done|]. destruct y; simpl.
        intros [_ Hx]%elem_of_difference. by apply Hx, elem_of_singleton.
    - cbv [ret] in E1. simplify_eq. split; [done|]. exists x.
      split; [done|]. split; [done|]. intros ? ? ?. done. }
  destruct H1 as (HA1&x1&Hx1&Hact1&Hrem1).
  (* the action *)
  rewrite (node_upd_ok _ _ _ _ Hx1) in E2. simplify_eq.
  set (s2 := set_nodes _ s1) in *.
  assert (Hx2 : nodes s2 !! n = Some (set_action None x1)).
  { unfold s2. rewrite (lookup_upd _ _ _ _ _ Hx1).
    by rewrite decide_True. }
  (* the flag *)
  destruct (set_changed_false_spec _ _ _ _ _ H Hx2)
    as (HR&x'&Hx'&P&Hflag).
  pose proof HR as (HA&_&_&_&N).
  split; [by rewrite HA|]. exists x'. split; [done|].
  destruct (flagP_fields _ _ _ P) as (Ha&_&_&_).
  split; [rewrite Ha; by destruct x1|]. split; [|by apply Hflag].
  intros p nm Hp Hnm. destruct (Hrem1 p nm Hp Hnm) as (y&Hy&Hnin).
  assert (∃ y2, nodes s2 !! p = Some y2
                ∧ _modified_children y2 = _modified_children y)
    as (y2&Hy2&Hm2).
  { unfold s2. rewrite (lookup_upd _ _ _ _ _ Hx1). case_decide.
    - subst. simplify_eq. eexists. split; [done|].
      match goal with |- context [set_action _ ?z] => by destruct z end.
    - by exists y. }
  destruct (N p y2 Hy2) as (y'&Hy'&P').
  exists y'. split; [done|].
  destruct (flagP_fields _ _ _ P') as (_&Hm&_&_). by rewrite Hm, Hm2.
Qed.

(** C5, as the code has it.  A load that passes its test (the node
    has a name and a session and is not staged for addition) and
    returns leaves the attribute object unchanged; when the node was
    not staged for deletion either, its action is [None] afterwards,
    its name is not in the parent's set of modified children, and its
    flag is down unless a staged child or a changed registered
    attribute object keeps it up. *)
Theorem load_unsets_markers (a n : nat) (o : Attrs) (x : Node)
    (s s' : State) :
  attrs_heap s !! a = Some o → a_parent o = n →
  nodes s !! n = Some x →
  truthy (__name__ x) = true → _ldap_session x = true →
  _action x ≠ Some ACTION_ADD →
  load a s = (Ok tt, s') →
  (∃ o', attrs_heap s' !! a = Some o' ∧ a_changed o' = false)
  ∧ (_action x ≠ Some ACTION_DELETE →
     ∃ x', nodes s' !! n = Some x' ∧ _action x' = None
       ∧ (∀ p nm, __parent__ x = Some p → __name__ x = Some nm →
            ∃ y, nodes s' !! p = Some y ∧ nm ∉ _modified_children y)
       ∧ (blocked s' x' = false → _changed x' = false)).
Proof.
  intros Ho <- Hn Hname Hsess Hadd H. unfold load in H.
  rewrite (bind_ok _ _ _ _ _ (attrs_get_ok _ _ _ Ho)) in H.
  cbv zeta in H.
  rewrite (bind_ok _ _ _ _ _ (node_get_ok _ _ _ Hn)) in H.
  rewrite Hname, Hsess, bool_decide_false in H by done. simpl in H.
  apply bind_ok_inv in H as ([]&s1&E1&H).
  apply bind_ok_inv in H as (dn&s1'&E2&H).
  apply bind_ok_inv in H as (x1&s1''&E3&H).
  apply bind_ok_inv in H as (entry&s2&E4&H).
  destruct entry as [[|[dn0 eattrs] [|]]|]; try done.
  apply bind_ok_inv in H as ([]&s3&E5&H).
  apply bind_ok_inv in H as ([]&s4&E6&H).
  (* up to the markers only the attribute behaviour has acted *)
  assert (R4 : attrR s s4).
  { etrans; [exact (keeps_run _ _ _ _ _ (keeps_clear a) E1)|].
    etrans; [exact (keeps_run _ _ _ _ _ (keeps_DN _ _) E2)|].
    etrans; [exact (keeps_run _ _ _ _ _ (keeps_node_get _ _) E3)|].
    etrans; [exact (keeps_run _ _ _ _ _ (keeps_call_search _) E4)|].
    etrans; [refine (keeps_run _ _ _ _ _ _ E5);
             apply keeps_for_each; [apply _..|];
             intros; apply keeps_load_item|].
    refine (keeps_run _ _ _ _ _ _ E6). eauto with keeps. }
  (* the attribute object *)
  assert (∃ o4, attrs_heap s4 !! a = Some o4 ∧ a_changed o4 = false)
    as (o4&Ho4&Hc4).
  { unfold attrs_upd in E6.
    destruct (attrs_heap s3 !! a) as [o3|] eqn:Ho3; [|done].
    simplify_eq. eexists. split.
    - simpl. apply list_lookup_insert_eq. by eapply lookup_lt_Some.
    - done. }
  pose proof R4 as (_&N4&_&_). destruct (N4 _ x Hn) as (x4&Hx4&P4).
  destruct (attrP_fields _ _ P4) as (Hnm4&Hp4&Hst4).
  destruct (action_staged (_action x)) eqn:Hst.
  - (* staged for deletion: the markers stay *)
    unfold unset_markers in H.
    rewrite (bind_ok _ _ _ _ _ (node_get_ok _ _ _ Hx4)) in H.
    rewrite Hst4 in H. simpl in H. cbv [ret] in H. simplify_eq.
    split; [by eauto|]. intros Hdel. exfalso.
    unfold action_staged in Hst.
    apply orb_true_iff in Hst as [Hst|Hst];
      apply bool_decide_eq_true in Hst; done.
  - destruct (unset_markers_ok _ _ _ _ H Hx4) as (HA&x'&Hx'&Hact&Hrem&Hfl);
      [by rewrite Hst4|].
    split; [rewrite HA; by eauto|]. intros _.
    exists x'. split; [done|]. split; [done|]. split; [|done].
    intros p nm Hp Hnm. apply Hrem; congruence.
Qed.

End facts.
End LoadFacts.

(** ** The exceptions of the attribute behaviour, and the removal at
    the end of a load *)

Module ThrowFacts.
Import MonadFacts StoreFacts ChangedFacts FrameFacts LoadFacts.
Section throws.
Context `{B : Boundary} (E : exn → Prop).

Lemma throws_ret {A} (a : A) : throws E (ret a).
Proof. by intros s e. Qed.

Lemma throws_raise {A} e : E e → throws E (raise (A := A) e).
Proof. intros He s e' H. simpl in H. by simplify_eq. Qed.

Lemma throws_bind {A C} (m : M State A) (k : A → M State C) :
  throws E m → (∀ a, throws E (k a)) → throws E (bind m k).
Proof.
  intros Hm Hk s e. unfold bind. specialize (Hm s).
  destruct (m s) as [[a|e'] s1]; simpl in *.
  - apply Hk.
  - intros ?. simplify_eq. by apply Hm.
Qed.

Lemma throws_for_each {A} (l : list A) (body : A → M State unit) :
  (∀ a, throws E (body a)) → throws E (for_each l body).
Proof.
  intros Hb. induction l as [|a l IH]; simpl.
  - apply throws_ret.
  - apply throws_bind; [apply Hb|done].
Qed.

Lemma throws_map_m {A C} (f : A → M State C) (l : list A) :
  (∀ a, throws E (f a)) → throws E (map_m f l).
Proof.
  intros Hf. induction l as [|a l IH]; simpl.
  - apply throws_ret.
  - apply throws_bind; [apply Hf|]. intros c.
    apply throws_bind; [done|]. intros cs. apply throws_ret.
Qed.

Lemma throws_run {A} (m : M State A) s e s' :
  throws E m → m s = (Raise e, s') → E e.
Proof. intros K H. apply (K s). by rewrite H. Qed.

End throws.

Section internal.
Context `{B : Boundary}.

Lemma throws_node_get n : throws internal (node_get n).
Proof.
  intros s e. unfold node_get. destruct (nodes s !! n); [done|].
  simpl; intros ?; simplify_eq; by left.
Qed.

Lemma throws_attrs_get a : throws internal (attrs_get a).
Proof.
  intros s e. unfold attrs_get. destruct (attrs_heap s !! a); [done|].
  simpl; intros ?; simplify_eq; by left.
Qed.

Lemma throws_node_upd n f : throws internal (node_upd n f).
Proof.
  intros s e. unfold node_upd. destruct (nodes s !! n); [done|].
  simpl; intros ?; simplify_eq; by left.
Qed.

Lemma throws_attrs_upd a f : throws internal (attrs_upd a f).
Proof.
  intros s e. unfold attrs_upd. destruct (attrs_heap s !! a); [done|].
  simpl; intros ?; simplify_eq; by left.
Qed.

Lemma throws_root n : throws internal (root n).
Proof.
  intros s e.
  change ((root n s).1) with (root_rec (S (length (nodes s))) (nodes s) n).
  generalize (S (length (nodes s))). intros fuel. revert n.
  induction fuel as [|fuel IH]; intros n; simpl.
  - simpl; intros ?; simplify_eq; by right.
  - destruct (nodes s !! n) as [x|]; [|simpl; intros ?; simplify_eq; by left].
    destruct (__parent__ x); [apply IH|done].
Qed.

Lemma throws_set_changed_rec fuel n v :
  throws internal (set_changed_rec fuel n v).
Proof.
  revert n. induction fuel as [|fuel IH]; intros n s e.
  - simpl; intros ?; simplify_eq; by right.
  - rewrite set_changed_rec_S.
    destruct (nodes s !! n) as [x|]; [|simpl; intros ?; simplify_eq; by left].
    cbv zeta.
    assert (Hgo : (match __parent__ x with
       | Some p => set_changed_rec fuel p v (flag n v x s)
       | None => (Ok tt, flag n v x s)
       end).1 = Raise e → internal e).
    { destruct (__parent__ x); [apply IH|done]. }
    case_bool_decide; [done|]. destruct v; [done|].
    destruct (has_staged_children x); [done|].
    destruct (ns_attrs x) as [a|]; [|done].
    destruct (attrs_heap s !! a) as [o|]; [|simpl; intros ?; simplify_eq; by left].
    by destruct (a_changed o).
Qed.

Lemma throws__set_changed n v : throws internal (_set_changed n v).
Proof. intros s. apply throws_set_changed_rec. Qed.

End internal.

Ltac throws_step :=
  cbv beta zeta;
  lazymatch goal with
  | |- throws _ (ret _) => apply throws_ret
  | |- throws _ (bind _ _) => apply throws_bind; [|intros ?]
  | |- throws _ (for_each _ _) => apply throws_for_each; intros ?
  | |- throws _ (map_m _ _) => apply throws_map_m; intros ?
  | |- throws _ (match ?x with _ => _ end) => destruct x
  | |- throws _ (if ?b then _ else _) => destruct b
  end.

Create HintDb throws.
#[export] Hint Resolve throws_node_get throws_attrs_get throws_node_upd
  throws_attrs_upd throws_root throws__set_changed : throws.
#[export] Hint Extern 1 (throws internal (raise SystemError)) =>
  apply throws_raise; by left : throws.

Ltac throws_auto := repeat throws_step; eauto with throws.

Section attr_throws.
Context `{B : Boundary}.

Lemma throws_is_binary a k : throws internal (is_binary a k).
Proof. unfold is_binary. throws_auto. Qed.

Lemma throws_is_multivalued a k : throws internal (is_multivalued a k).
Proof. unfold is_multivalued. throws_auto. Qed.

Lemma throws__set_attrs_modified a :
  throws internal (_set_attrs_modified a).
Proof.
  unfold _set_attrs_modified, with_name, modified_add. throws_auto.
Qed.

Lemma throws_attrs_setitem a key val :
  throws internal (LDAPAttributesBehavior.__setitem__ a key val).
Proof.
  unfold LDAPAttributesBehavior.__setitem__.
  throws_auto;
    first [apply throws_is_binary | apply throws__set_attrs_modified].
Qed.

Lemma throws_load_item a kv : throws internal (load_item a kv).
Proof.
  unfold load_item. destruct kv as [key item].
  throws_auto;
    first [apply throws_is_multivalued | apply throws_attrs_setitem].
Qed.

End attr_throws.
End ThrowFacts.

Module GrowFacts.
Import MonadFacts StoreFacts ChangedFacts FrameFacts LoadFacts ThrowFacts.
Section nodesR.
Context `{B : Boundary} (P : Node → Node → Prop)
  `{!Reflexive P, !Transitive P}.

Global Instance nodesR_refl : Reflexive (nodesR P).
Proof. intros s i x Hx. by exists x. Qed.

Global Instance nodesR_trans : Transitive (nodesR P).
Proof.
  intros s1 s2 s3 N1 N2 i x Hx. destruct (N1 i x Hx) as (y&Hy&P1).
  destruct (N2 i y Hy) as (z&Hz&P2). exists z. split; [done|by etrans].
Qed.

Lemma nodesR_same s s' : nodes s' = nodes s → nodesR P s s'.
Proof. intros E i x Hx. exists x. by rewrite E. Qed.

Lemma grows_node_upd n (f : Node → Node) :
  (∀ x, P x (f x)) → keeps (nodesR P) (node_upd n f).
Proof.
  intros Hf s. unfold node_upd.
  destruct (nodes s !! n) as [x|] eqn:E; [|reflexivity].
  intros i z Hz. simpl. destruct (decide (n = i)) as [->|Hne].
  - rewrite list_lookup_insert_eq by by eapply lookup_lt_Some.
    simplify_eq. by eexists.
  - rewrite list_lookup_insert_ne by done. by exists z.
Qed.

Lemma grows_attrs_upd a f : keeps (nodesR P) (attrs_upd a f).
Proof.
  intros s. unfold attrs_upd.
  destruct (attrs_heap s !! a); by apply nodesR_same.
Qed.

Lemma grows_call_search q : keeps (nodesR P) (call_search q).
Proof.
  intros s. unfold call_search.
  destruct (session_search q (world s)). by apply nodesR_same.
Qed.

Lemma grows__set_changed n v :
  (∀ v x, P x (set_changed v x)) → keeps (nodesR P) (_set_changed n v).
Proof.
  intros Hf s i x Hx.
  destruct (_set_changed_flagR n v s) as (_&_&_&_&N).
  destruct (N i x Hx) as (x'&Hx'&[->| ->]);
    (eexists; split; [exact Hx'|]); [reflexivity|apply Hf].
Qed.

End nodesR.

#[export] Hint Extern 0 (Reflexive _) => apply _ : keeps.
#[export] Hint Extern 0 (Transitive _) => apply _ : keeps.

Section grow.
Context `{B : Boundary}.
Implicit Types (s : State) (x : Node).

Global Instance growP_refl : Reflexive growP.
Proof. intros x. unfold growP. reflexivity. Qed.

Global Instance growP_trans : Transitive growP.
Proof. unfold growP. intros x y z ? ?. by etrans. Qed.

Lemma growP_set_changed v x : growP x (set_changed v x).
Proof. unfold growP. by destruct x. Qed.

Lemma growP_set_action a x : growP x (set_action a x).
Proof. unfold growP. by destruct x. Qed.

Lemma growP_add nm x :
  growP x (set_modified_children ({[nm]} ∪ _modified_children x) x).
Proof. unfold growP. destruct x; simpl. apply union_subseteq_r. Qed.

Lemma grows__set_attrs_modified a :
  keeps (nodesR growP) (_set_attrs_modified a).
Proof.
  unfold _set_attrs_modified, with_name, modified_add.
  repeat keeps_step;
    eauto using grows_node_upd, grows_attrs_upd, grows__set_changed,
      growP_set_changed, growP_set_action, growP_add with keeps.
Qed.

Lemma grows_attrs_setitem a key val :
  keeps (nodesR growP) (LDAPAttributesBehavior.__setitem__ a key val).
Proof.
  unfold LDAPAttributesBehavior.__setitem__.
  repeat keeps_step;
    eauto using grows_attrs_upd, grows__set_attrs_modified with keeps.
Qed.

Lemma grows_load_item a kv : keeps (nodesR growP) (load_item a kv).
Proof.
  unfold load_item. destruct kv as [key item].
  repeat keeps_step; eauto using grows_attrs_setitem with keeps.
Qed.

Lemma grows_load_items a l :
  keeps (nodesR growP) (for_each l (load_item a)).
Proof. apply keeps_for_each; [apply _..|]. apply grows_load_item. Qed.

End grow.
End GrowFacts.

Module RemoveFacts.
Import MonadFacts StoreFacts ChangedFacts FrameFacts LoadFacts.
Import ThrowFacts GrowFacts.
Section facts.
Context `{B : Boundary}.
Implicit Types (s : State) (x : Node).

Lemma flagP_tree v x x' :
  flagP v x x' →
  __parent__ x' = __parent__ x ∧ __name__ x' = __name__ x.
Proof. intros [->| ->]; [done|by destruct x]. Qed.

Lemma is_binary_state a k s r s' : is_binary a k s = (r, s') → s' = s.
Proof.
  intros H. pose proof (keeps_is_binary eq a k s) as K.
  by rewrite H in K.
Qed.

Lemma is_multivalued_state a k s r s' :
  is_multivalued a k s = (r, s') → s' = s.
Proof.
  intros H. pose proof (keeps_is_multivalued eq a k s) as K.
  by rewrite H in K.
Qed.

(** A write to an attribute of a child that is not staged puts the
    child's name into the parent's set of modified children. *)
Lemma set_attrs_modified_adds a o n x p nm s s' :
  attrs_heap s !! a = Some o → a_parent o = n →
  nodes s !! n = Some x → action_staged (_action x) = false →
  __parent__ x = Some p → __name__ x = Some nm →
  _set_attrs_modified a s = (Ok tt, s') →
  ∃ y, nodes s' !! p = Some y ∧ nm ∈ _modified_children y.
Proof.
  intros Ho <- Hn Hst Hp Hnm H. unfold _set_attrs_modified in H.
  rewrite (bind_ok _ _ _ _ _ (attrs_get_ok _ _ _ Ho)) in H.
  cbv zeta in H.
  rewrite (bind_ok _ _ _ _ _ (attrs_upd_ok _ _ _ _ Ho)) in H.
  set (s1 := set_attrs_heap _ s) in H.
  assert (Hn1 : nodes s1 !! a_parent o = Some x) by done.
  rewrite (bind_ok _ _ _ _ _ (node_get_ok _ _ _ Hn1)) in H.
  rewrite Hst in H. simpl in H.
  rewrite (bind_ok _ _ _ _ _ (node_upd_ok _ _ _ _ Hn1)) in H.
  set (s2 := set_nodes _ s1) in H.
  assert (Hn2 : nodes s2 !! a_parent o
                = Some (set_action (Some ACTION_MODIFY) x)).
  { unfold s2. by rewrite (lookup_upd _ _ _ _ _ Hn1), decide_True. }
  apply bind_ok_inv in H as ([]&s3&E3&H).
  pose proof (_set_changed_flagR (a_parent o) true s2) as R3.
  rewrite E3 in R3. destruct R3 as (_&_&_&_&N3).
  destruct (N3 _ _ Hn2) as (x3&Hx3&P3).
  destruct (flagP_tree _ _ _ P3) as (Hp3&Hnm3).
  rewrite (bind_ok _ _ _ _ _ (node_get_ok _ _ _ Hx3)) in H.
  assert (Hp' : __parent__ x3 = Some p) by (rewrite Hp3; by destruct x).
  assert (Hnm' : __name__ x3 = Some nm) by (rewrite Hnm3; by destruct x).
  rewrite Hp', Hnm' in H. simpl in H. unfold modified_add, node_upd in H.
  destruct (nodes s3 !! p) as [y|] eqn:Hy; [|done]. simplify_eq.
  eexists. split.
  - simpl. apply list_lookup_insert_eq. by eapply lookup_lt_Some.
  - destruct y; simpl. apply elem_of_union_l, elem_of_singleton. done.
Qed.

Lemma attrs_setitem_adds a o n x p nm key val s s' :
  attrs_heap s !! a = Some o → a_parent o = n →
  nodes s !! n = Some x → action_staged (_action x) = false →
  __parent__ x = Some p → __name__ x = Some nm →
  LDAPAttributesBehavior.__setitem__ a key val s = (Ok tt, s') →
  ∃ y, nodes s' !! p = Some y ∧ nm ∈ _modified_children y.
Proof.
  intros Ho Hpar Hn Hst Hp Hnm H.
  unfold LDAPAttributesBehavior.__setitem__ in H.
  apply bind_ok_inv in H as (b&s0&E0&H).
  apply is_binary_state in E0 as ->. cbv zeta in H.
  rewrite (bind_ok _ _ _ _ _ (attrs_upd_ok _ _ _ _ Ho)) in H.
  refine (set_attrs_modified_adds a _ n x p nm _ s' _ _ _ Hst Hp Hnm H).
  - simpl. apply list_lookup_insert_eq. by eapply lookup_lt_Some.
  - done.
  - done.
Qed.

Lemma load_item_adds a o n x p nm kv s s' :
  attrs_heap s !! a = Some o → a_parent o = n →
  nodes s !! n = Some x → action_staged (_action x) = false →
  __parent__ x = Some p → __name__ x = Some nm →
  load_item a kv s = (Ok tt, s') →
  ∃ y, nodes s' !! p = Some y ∧ nm ∈ _modified_children y.
Proof.
  intros Ho Hpar Hn Hst Hp Hnm H. unfold load_item in H.
  destruct kv as [key item].
  destruct item as [|v [|]];
    try (by eapply attrs_setitem_adds).
  apply bind_ok_inv in H as (b&s0&E0&H).
  apply is_multivalued_state in E0 as ->.
  destruct b; simpl in H; by eapply attrs_setitem_adds.
Qed.


Lemma internal_not_KeyError : ¬ internal KeyError.
Proof. by intros [|]. Qed.

(** A load up to the answer of the session. *)
Lemma load_fetched a n o x dn dn0 eattrs s s1 w2 :
  attrs_heap s !! a = Some o → a_parent o = n →
  nodes s !! n = Some x →
  truthy (__name__ x) = true → _ldap_session x = true →
  _action x ≠ Some ACTION_ADD →
  clear a s = (Ok tt, s1) → DN n s1 = (Ok dn, s1) →
  session_search (fetch_query dn (_reload x)) (world s1)
    = (Ok (Plain [(dn0, eattrs)]), w2) →
  load a s =
    (for_each eattrs (load_item a) ;;
     attrs_upd a (set_a_changed false) ;;
     unset_markers n)
      (set_world w2 (CallSearch (fetch_query dn (_reload x))) s1)
  ∧ attrR s s1.
Proof.
  intros Ho <- Hn Hname Hsess Hadd E1 E2 E4.
  assert (R1 : attrR s s1) by exact (keeps_run _ _ _ _ _ (keeps_clear a) E1).
  split; [|done]. unfold load.
  rewrite (bind_ok _ _ _ _ _ (attrs_get_ok _ _ _ Ho)). cbv zeta.
  rewrite (bind_ok _ _ _ _ _ (node_get_ok _ _ _ Hn)).
  rewrite Hname, Hsess, bool_decide_false by done. simpl.
  rewrite (bind_ok _ _ _ _ _ E1), (bind_ok _ _ _ _ _ E2).
  pose proof R1 as (_&N1&_&_). destruct (N1 _ x Hn) as (x1&Hx1&P1).
  rewrite (bind_ok _ _ _ _ _ (node_get_ok _ _ _ Hx1)).
  assert (_reload x1 = _reload x) as ->
    by (unfold attrP in P1; by destruct_and!).
  unfold bind at 1, call_search at 1. by rewrite E4.
Qed.

(** On a child that is not staged, [load] removes the child's name
    from the parent's set of modified children without a test.  It
    raises [KeyError] exactly when the fetched entry has no attribute
    and the name was not in the set when the fetch began: every
    attribute that is loaded is written through [__setitem__], which
    puts the name into the set. *)
Lemma load_remove_iff (a n p : nat) (o : Attrs) (x y : Node)
    (nm dn dn0 : string) (eattrs : list (string * list string))
    (s s1 : State) (w2 : World) :
  attrs_heap s !! a = Some o → a_parent o = n →
  nodes s !! n = Some x →
  truthy (__name__ x) = true → _ldap_session x = true →
  action_staged (_action x) = false →
  __parent__ x = Some p → __name__ x = Some nm →
  clear a s = (Ok tt, s1) → nodes s1 !! p = Some y →
  DN n s1 = (Ok dn, s1) →
  session_search (fetch_query dn (_reload x)) (world s1)
    = (Ok (Plain [(dn0, eattrs)]), w2) →
  (load a s).1 = Raise KeyError
  ↔ eattrs = [] ∧ nm ∉ _modified_children y.
Proof.
  intros Ho Hpar Hn Hname Hsess Hst Hp Hnm E1 Hy E2 E4.
  assert (Hadd : _action x ≠ Some ACTION_ADD).
  { intros E. rewrite E in Hst. done. }
  destruct (load_fetched _ _ _ _ _ _ _ _ _ _ Ho Hpar Hn Hname Hsess Hadd
              E1 E2 E4) as [Hload R1].
  rewrite Hload. clear Hload.
  set (s2 := set_world _ _ s1).
  pose proof R1 as (_&N1&A1&_).
  destruct (N1 _ x Hn) as (x1&Hx1&P1).
  destruct (A1 _ o Ho) as (o1&Ho1&Hpar1).
  assert (Hx2 : nodes s2 !! n = Some x1) by done.
  assert (Hy2 : nodes s2 !! p = Some y) by done.
  assert (Ho2 : attrs_heap s2 !! a = Some o1) by done.
  destruct (attrP_fields _ _ P1) as (Hnm1&Hp1&Hst1).
  split; cycle 1.
  - (* no attribute, name not in the set: the removal raises *)
    intros [-> Hnin]. simpl.
    rewrite (bind_ok _ _ _ _ _ (eq_refl : ret tt s2 = (Ok tt, s2))).
    rewrite (bind_ok _ _ _ _ _ (attrs_upd_ok _ _ _ _ Ho2)).
    unfold unset_markers.
    set (s3 := set_attrs_heap _ s2).
    assert (Hx3 : nodes s3 !! n = Some x1) by done.
    rewrite (bind_ok _ _ _ _ _ (node_get_ok _ _ _ Hx3)).
    rewrite Hst1, Hst, Hp1, Hp, Hnm1, Hnm. simpl.
    unfold bind at 1. unfold modified_remove at 1.
    assert (Hy3 : nodes s3 !! p = Some y) by done.
    rewrite (bind_ok _ _ _ _ _ (node_get_ok _ _ _ Hy3)).
    by rewrite bool_decide_false.
  - (* the other way round *)
    intros H.
    destruct (for_each eattrs (load_item a) s2) as [[[]|e] s3] eqn:E5.
    2:{ rewrite (bind_raise _ _ _ _ _ E5) in H. simpl in H.
        simplify_eq. exfalso. apply internal_not_KeyError.
        eapply throws_run; [|exact E5].
        apply throws_for_each, throws_load_item. }
    rewrite (bind_ok _ _ _ _ _ E5) in H.
    assert (R3 : attrR s2 s3).
    { refine (keeps_run _ _ _ _ _ _ E5).
      apply keeps_for_each; [apply _..|]. intros; apply keeps_load_item. }
    assert (G3 : nodesR growP s2 s3)
      by exact (keeps_run _ _ _ _ _ (grows_load_items a eattrs) E5).
    pose proof R3 as (_&N3&A3&_).
    destruct (N3 _ _ Hx2) as (x3&Hx3&P3).
    destruct (A3 _ _ Ho2) as (o3&Ho3&_).
    destruct (G3 _ _ Hy2) as (y3&Hy3&Hsub).
    destruct (attrP_fields _ _ P3) as (Hnm3&Hp3&Hst3).
    rewrite (bind_ok _ _ _ _ _ (attrs_upd_ok _ _ _ _ Ho3)) in H.
    set (s4 := set_attrs_heap _ s3) in H.
    assert (Hx4 : nodes s4 !! n = Some x3) by done.
    assert (Hy4 : nodes s4 !! p = Some y3) by done.
    unfold unset_markers in H.
    rewrite (bind_ok _ _ _ _ _ (node_get_ok _ _ _ Hx4)) in H.
    rewrite Hst3, Hst1, Hst, Hp3, Hp1, Hp, Hnm3, Hnm1, Hnm in H.
    simpl in H.
    assert (Hnin : nm ∉ _modified_children y3).
    { intros Hin.
      assert (Er : modified_remove p nm s4
                   = (Ok tt, set_nodes
                        (<[p := set_modified_children
                                  (_modified_children y3 ∖ {[nm]}) y3]>
                           (nodes s4)) s4)).
      { unfold modified_remove.
        rewrite (bind_ok _ _ _ _ _ (node_get_ok _ _ _ Hy4)).
        rewrite bool_decide_true by done.
        by rewrite (node_upd_ok _ _ _ _ Hy4). }
      rewrite (bind_ok _ _ _ _ _ Er) in H.
      apply internal_not_KeyError.
      refine (throws_run internal
                (node_upd n (set_action None) ;; _set_changed n false)
                _ _ _ _ _); [throws_auto|].
      apply run_eq. exact H. }
    split.
    + destruct eattrs as [|kv rest]; [done|]. exfalso. apply Hnin.
      simpl in E5. apply bind_ok_inv in E5 as ([]&s2'&Ea&Eb).
      destruct (load_item_adds _ _ _ _ _ _ _ _ _ Ho2
                  (eq_trans Hpar1 Hpar) Hx2 ltac:(by rewrite Hst1) ltac:(by rewrite Hp1)
                  ltac:(by rewrite Hnm1) Ea) as (y'&Hy'&Hin).
      pose proof (keeps_run _ _ _ _ _ (grows_load_items a rest) Eb) as G.
      destruct (G _ _ Hy') as (y''&Hy''&Hsub').
      rewrite Hy3 in Hy''. simplify_eq. by apply Hsub'.
    + intros Hin. apply Hnin. by apply Hsub.
Qed.

End facts.
End RemoveFacts.

(** ** Loads on the small directory *)

Module LoadRuns.
Import MonadFacts StoreFacts ChangedFacts FrameFacts LoadFacts.
Import ThrowFacts GrowFacts RemoveFacts Scenario.

Lemma DN_run `{B : Boundary} n (s : State) dn :
  (DN n s).1 = Ok dn → DN n s = (Ok dn, s).
Proof.
  intros E. pose proof (keeps_DN eq n s) as K.
  destruct (DN n s) as [r s']. simpl in *. by subst.
Qed.

(** [load_unsets_markers] on the child staged for modification, loaded
    again. *)
Lemma load_unsets_markers_witness :
  let s := modified_child in
  let s' := after (load 0) s in
  let x := node_at s 1 in
  load 0 s = (Ok tt, s')
  ∧ _action x = Some ACTION_MODIFY
  ∧ (∃ o', attrs_heap s' !! 0 = Some o' ∧ a_changed o' = false)
  ∧ ∃ x', nodes s' !! 1 = Some x' ∧ _action x' = None
      ∧ (∀ p nm, __parent__ x = Some p → __name__ x = Some nm →
           ∃ y, nodes s' !! p = Some y ∧ nm ∉ _modified_children y)
      ∧ (blocked s' x' = false → _changed x' = false).
Proof.
  intros s s' x.
  assert (Ho : attrs_heap s !! 0 = Some (attrs_at s 0))
    by (vm_compute; reflexivity).
  assert (Hn : nodes s !! 1 = Some x) by (vm_compute; reflexivity).
  assert (Hl : load 0 s = (Ok tt, s')).
  { refine (run_eq (load 0) s _ _). vm_compute. reflexivity. }
  assert (Ha : _action x = Some ACTION_MODIFY) by (vm_compute; reflexivity).
  destruct (load_unsets_markers 0 1 (attrs_at s 0) x s s'
              Ho eq_refl Hn eq_refl eq_refl ltac:(by rewrite Ha) Hl)
    as (H1&H2).
  split; [exact Hl|]. split; [exact Ha|]. split; [exact H1|].
  apply H2. by rewrite Ha.
Defined.

(** C5 as stated fails.  On the root, a child is staged for addition;
    the root itself has no action.  A load of the root's attributes
    returns and the root's flag is still up: the setter refuses to lower
    it while a child is staged. *)
Lemma load_leaves_flag_up :
  let s := staged_add_loaded in
  a_parent (attrs_at s 1) = 0
  ∧ _action (node_at s 0) = None
  ∧ _changed (node_at s 0) = true
  ∧ outcome (load 1) s = Ok tt
  ∧ _action (node_at (after (load 1) s) 0) = None
  ∧ _changed (node_at (after (load 1) s) 0) = true.
Proof. vm_compute. repeat split; reflexivity. Qed.

(** C10 as stated fails.  The child was just looked up: it has a parent
    and no action, and its name is not in the parent's set of modified
    children.  The first access to its attributes loads them and
    returns: the entry has attributes, and writing them has put the name
    into the set before the removal. *)
Lemma load_on_lookup_returns :
  let s := looked_up in
  __parent__ (node_at s 1) = Some 0
  ∧ __name__ (node_at s 1) = Some "cn=a"
  ∧ _action (node_at s 1) = None
  ∧ ns_attrs (node_at s 1) = None
  ∧ ("cn=a" ∉ _modified_children (node_at s 0))
  ∧ outcome (attrs 1) s = Ok 0
  ∧ a_items (attrs_at (after (attrs 1) s) 0)
    = [("cn", VStr "a"); ("sn", VStr "x")].
Proof.
  intros s. repeat split; try (vm_compute; reflexivity).
  apply (bool_decide_eq_false_1 (_ ∈ _)). vm_compute. reflexivity.
Qed.

End LoadRuns.

(** ** Searching and iterating *)

Module SearchFacts.
Import MonadFacts StoreFacts ChangedFacts FrameFacts LoadFacts.
Section facts.
Context `{B : Boundary}.
Implicit Types (s : State) (x : Node) (n : nat).

Lemma keeps_need_session R `{!Reflexive R, !Transitive R} n :
  keeps R (need_session n).
Proof. unfold need_session. repeat keeps_step. Qed.

Lemma keeps__calculate_key R `{!Reflexive R, !Transitive R} n e :
  keeps R (_calculate_key n e).
Proof. unfold _calculate_key. destruct e. repeat keeps_step. Qed.

Lemma keeps_result_attrs n al attrs0 acc :
  keeps attrR (result_attrs n al attrs0 acc).
Proof.
  revert acc. induction attrs0 as [|[k v] l IH]; intros acc; simpl.
  - keeps_auto.
  - keeps_auto; try apply IH. apply keeps_attrs.
Qed.

Lemma keeps_result_of_match n al e :
  keeps attrR (result_of_match n al e).
Proof.
  unfold result_of_match. keeps_auto.
  - apply keeps__calculate_key; apply _.
  - apply keeps_result_attrs.
Qed.

Lemma keeps_search n args : keeps attrR (search n args).
Proof.
  unfold search. keeps_auto.
  - apply keeps_need_session; apply _.
  - apply keeps_result_of_match.
Qed.

Lemma need_session_ok n s x :
  nodes s !! n = Some x → _ldap_session x = true →
  need_session n s = (Ok tt, s).
Proof.
  intros Hn Hs. unfold need_session.
  rewrite (bind_ok _ _ _ _ _ (node_get_ok _ _ _ Hn)). by rewrite Hs.
Qed.

(** [search] up to the answer of the session. *)
Lemma search_answered n x args dn r w' s :
  nodes s !! n = Some x → _ldap_session x = true →
  DN n s = (Ok dn, s) →
  session_search (search_query n x args dn) (world s) = (Ok r, w') →
  search n args s =
    (let '(matches, cookie) := unpack r (cookie args) in
     if exact_match args && bool_decide (1 < length matches) then
       raise ValueError
     else if exact_match args && bool_decide (length matches = 0) then
       raise ValueError
     else
       let* res := map_m (result_of_match n (attrlist args)) matches in
       ret (pack res cookie))
      (set_world w' (CallSearch (search_query n x args dn)) s).
Proof.
  intros Hn Hs Hd Hr. unfold search.
  rewrite (bind_ok _ _ _ _ _ (node_get_ok _ _ _ Hn)).
  rewrite (bind_ok _ _ _ _ _ (need_session_ok _ _ _ Hn Hs)).
  rewrite (bind_ok _ _ _ _ _ Hd).
  unfold bind at 1, call_search at 1. by rewrite Hr.
Qed.



(** C2.  A node without a name yields nothing.  A node with a name
    yields the keys of its search result that are not staged for
    deletion, in the order of the result, and then the keys staged
    for addition; a search that raises [NO_SUCH_OBJECT] counts as an
    empty result. *)
Theorem iter_yields (n : nat) (x : Node) (s : State) :
  nodes s !! n = Some x →
  (__name__ x = None → __iter__ n s = (Ok [], s))
  ∧ (is_Some (__name__ x) →
     ∀ res s', search n iter_args s = (Ok (Results res), s') →
       __iter__ n s =
         (Ok (filter (λ key, key ∉ _deleted_children x) res.*1
              ++ elements (_added_children x)), s'))
  ∧ (is_Some (__name__ x) →
     ∀ s', search n iter_args s = (Raise NO_SUCH_OBJECT, s') →
       __iter__ n s = (Ok (elements (_added_children x)), s')).
Proof.
  intros Hn. unfold __iter__.
  rewrite (bind_ok _ _ _ _ _ (node_get_ok _ _ _ Hn)).
  split; [by intros ->|].
  assert (Hsets : ∀ r s', search n iter_args s = (r, s') →
    ∃ x', nodes s' !! n = Some x'
          ∧ _added_children x' = _added_children x
          ∧ _deleted_children x' = _deleted_children x).
  { intros r s' E.
    pose proof (keeps_run _ _ _ _ _ (keeps_search n iter_args) E)
      as (_&N&_&_).
    destruct (N _ _ Hn) as (x'&Hx'&P). exists x'. split; [done|].
    unfold attrP in P. by destruct_and!. }
  split; intros [nm ->].
  - intros res s' E. destruct (Hsets _ _ E) as (x'&Hx'&Ha&Hd).
    unfold bind at 1, try_except.
    rewrite (bind_ok _ _ _ _ _ E). simpl.
    rewrite (bind_ok _ _ _ _ _ (node_get_ok _ _ _ Hx')).
    by rewrite Ha, Hd.
  - intros s' E. destruct (Hsets _ _ E) as (x'&Hx'&Ha&Hd).
    unfold bind at 1, try_except.
    rewrite (bind_raise _ _ _ _ _ E). simpl.
    rewrite (bind_ok _ _ _ _ _ (node_get_ok _ _ _ Hx')).
    by rewrite Ha.
Qed.

End facts.
End SearchFacts.

Module SearchRuns.
Import MonadFacts StoreFacts ChangedFacts FrameFacts LoadFacts.
Import SearchFacts LoadRuns Scenario.


(** [iter_yields] on the root with one key staged for addition and one
    for deletion, on a child that is not in the directory yet, and on a
    node without a name. *)
Lemma iter_yields_witness :
  let s := staged_both in
  let s' := after (search 0 iter_args) s in
  let found :=
    [("uid=u1", Some [("dn", VStr "uid=u1,dc=my")]);
     ("uid=u2", Some [("dn", VStr "uid=u2,dc=my")]);
     ("uid=u3", Some [("dn", VStr "uid=u3,dc=my")])] in
  search 0 iter_args s = (Ok (Results found), s')
  ∧ __iter__ 0 s = (Ok ["uid=u1"; "uid=u3"; "uid=u9"], s')
  ∧ search 1 iter_args s
    = (Raise NO_SUCH_OBJECT, after (search 1 iter_args) s)
  ∧ __iter__ 1 s = (Ok [], after (search 1 iter_args) s)
  ∧ __iter__ 1 (after (node_new new_LDAPNode) (start []))
    = (Ok [], after (node_new new_LDAPNode) (start [])).
Proof.
  intros s s' found.
  assert (H0 : nodes s !! 0 = Some (node_at s 0))
    by (vm_compute; reflexivity).
  assert (H1 : nodes s !! 1 = Some (node_at s 1))
    by (vm_compute; reflexivity).
  assert (E0 : search 0 iter_args s = (Ok (Results found), s')).
  { refine (run_eq (search 0 iter_args) s _ _). vm_compute. reflexivity. }
  assert (E1 : search 1 iter_args s
               = (Raise NO_SUCH_OBJECT, after (search 1 iter_args) s)).
  { refine (run_eq (search 1 iter_args) s _ _). vm_compute. reflexivity. }
  split; [exact E0|]. split; [|split; [exact E1|split]].
  - rewrite (proj1 (proj2 (iter_yields 0 (node_at s 0) s H0))
               ltac:(vm_compute; eauto) found s' E0).
    by f_equal.
  - rewrite (proj2 (proj2 (iter_yields 1 (node_at s 1) s H1))
               ltac:(vm_compute; eauto) _ E1).
    f_equal.
  - exact (proj1 (iter_yields 1 new_LDAPNode
                    (after (node_new new_LDAPNode) (start []))
                    eq_refl) eq_refl).
Defined.

End SearchRuns.

(** ** Invalidating *)

Module InvalidateFacts.
Import MonadFacts StoreFacts ChangedFacts FrameFacts LoadFacts.
Section facts.
Context `{B : Boundary}.
Implicit Types (s : State) (x : Node) (n : nat).

(** X4. [invalidate()] on a changed node raises [RuntimeError] and
    leaves the state as it was.  On an unchanged node it empties
    [storage], then runs [self.attrs.load()] and sets [_reload]: when
    the load returns, the node has an empty [storage] and [_reload]
    set.  [invalidate(key)] returns without a change when [key] is not
    in [storage]; when it is, a changed child raises [RuntimeError]
    with the state as it was and an unchanged child is deleted from
    [storage], nothing else changing. *)
Theorem invalidate_cases (n : nat) (x : Node) (s : State) :
  nodes s !! n = Some x →
  (_changed x = true → invalidate n None s = (Raise RuntimeError, s))
  ∧ (_changed x = false →
     let s0 := set_nodes (<[n := set_storage [] x]> (nodes s)) s in
     invalidate n None s
     = (let* a := attrs n in
        load a ;; node_upd n (set_reload true)) s0
     ∧ ∀ a s1 s2,
         attrs n s0 = (Ok a, s1) → load a s1 = (Ok tt, s2) →
         ∃ x2, nodes s2 !! n = Some x2 ∧ storage x2 = []
               ∧ invalidate n None s
                 = (Ok tt, set_nodes (<[n := set_reload true x2]>
                                        (nodes s2)) s2))
  ∧ (∀ key, od_get key (storage x) = None →
            invalidate n (Some key) s = (Ok tt, s))
  ∧ (∀ key c y,
       od_get key (storage x) = Some c → nodes s !! c = Some y →
       (_changed y = true →
        invalidate n (Some key) s = (Raise RuntimeError, s))
       ∧ (_changed y = false →
          invalidate n (Some key) s
          = (Ok tt, set_nodes (<[n := set_storage
                                       (od_del key (storage x)) x]>
                                 (nodes s)) s))).
Proof.
  intros Hn. split; [|split; [|split]].
  - intros Hc. unfold invalidate.
    rewrite (bind_ok _ _ _ _ _ (node_get_ok _ _ _ Hn)). by rewrite Hc.
  - intros Hc s0.
    assert (E : invalidate n None s
                = (let* a := attrs n in
                   load a ;; node_upd n (set_reload true)) s0).
    { unfold invalidate.
      rewrite (bind_ok _ _ _ _ _ (node_get_ok _ _ _ Hn)). rewrite Hc.
      by rewrite (bind_ok _ _ _ _ _ (node_upd_ok _ _ _ _ Hn)). }
    split; [exact E|]. intros a s1 s2 Ea El.
    assert (H0 : nodes s0 !! n = Some (set_storage [] x)).
    { unfold s0. rewrite (lookup_upd n n _ s x Hn). by case_decide. }
    pose proof (keeps_run attrR _ _ _ _ (keeps_attrs n) Ea) as R1.
    pose proof (keeps_run attrR _ _ _ _ (keeps_load a) El) as R2.
    destruct R1 as (_ & N1 & _). destruct (N1 _ _ H0) as (x1 & H1 & P1).
    destruct R2 as (_ & N2 & _). destruct (N2 _ _ H1) as (x2 & H2 & P2).
    exists x2. split; [done|]. split.
    { unfold attrP in P1, P2. destruct_and!. simpl in *. congruence. }
    rewrite E. rewrite (bind_ok _ _ _ _ _ Ea).
    rewrite (bind_ok _ _ _ _ _ El). by apply node_upd_ok.
  - intros key Hk. unfold invalidate.
    rewrite (bind_ok _ _ _ _ _ (node_get_ok _ _ _ Hn)). by rewrite Hk.
  - intros key c y Hk Hy. unfold invalidate.
    rewrite (bind_ok _ _ _ _ _ (node_get_ok _ _ _ Hn)). rewrite Hk.
    rewrite (bind_ok _ _ _ _ _ (node_get_ok _ _ _ Hy)).
    split; intros ->; [done|]. by apply node_upd_ok.
Qed.

End facts.
End InvalidateFacts.

Module InvalidateRuns.
Import MonadFacts StoreFacts ChangedFacts FrameFacts LoadFacts.
Import InvalidateFacts Scenario.

(** [invalidate_cases] on the root with a looked-up child, before and
    after the child's attribute [sn] is written. *)
Lemma invalidate_cases_witness :
  let clean := looked_up in
  let dirty := modified_child in
  invalidate 0 None dirty = (Raise RuntimeError, dirty)
  ∧ (∃ s', invalidate 0 None clean = (Ok tt, s')
           ∧ storage (node_at s' 0) = []
           ∧ _reload (node_at s' 0) = true)
  ∧ invalidate 0 (Some "cn=b") clean = (Ok tt, clean)
  ∧ invalidate 0 (Some "cn=a") dirty = (Raise RuntimeError, dirty)
  ∧ invalidate 0 (Some "cn=a") clean
    = (Ok tt, set_nodes (<[0 := set_storage
                                  (od_del "cn=a" (storage (node_at clean 0)))
                                  (node_at clean 0)]>
                           (nodes clean)) clean)
  ∧ od_del "cn=a" (storage (node_at clean 0)) = [].
Proof.
  intros clean dirty.
  assert (Hc : nodes clean !! 0 = Some (node_at clean 0))
    by (vm_compute; reflexivity).
  assert (Hd : nodes dirty !! 0 = Some (node_at dirty 0))
    by (vm_compute; reflexivity).
  destruct (invalidate_cases 0 _ clean Hc) as (_ & C2 & C3 & C4).
  destruct (invalidate_cases 0 _ dirty Hd) as (D1 & _ & _ & D4).
  split; [|split; [|split; [|split; [|split]]]].
  - apply D1. vm_compute. reflexivity.
  - destruct (C2 ltac:(vm_compute; reflexivity)) as [_ C].
    set (s0 := set_nodes (<[0 := set_storage [] (node_at clean 0)]>
                            (nodes clean)) clean) in C.
    destruct (C 0 (after (attrs 0) s0)
               (after (load 0) (after (attrs 0) s0)))
      as (x2 & H2 & St & E).
    + refine (run_eq (attrs 0) s0 _ _). vm_compute. reflexivity.
    + refine (run_eq (load 0) (after (attrs 0) s0) _ _).
      vm_compute. reflexivity.
    + eexists. split; [exact E|]. unfold node_at.
      rewrite (lookup_upd 0 0 _ _ x2 H2).
      rewrite decide_True by reflexivity.
      cbn [default set_reload storage _reload].
      split; [exact St|reflexivity].
  - apply C3. vm_compute. reflexivity.
  - refine (proj1 (D4 "cn=a" 1 (node_at dirty 1) _ _) _);
      vm_compute; reflexivity.
  - refine (proj2 (C4 "cn=a" 1 (node_at clean 1) _ _) _);
      vm_compute; reflexivity.
  - vm_compute. reflexivity.
Defined.

End InvalidateRuns.

(** ** What does not write to the directory *)

Module QuietFacts.
Import MonadFacts StoreFacts ChangedFacts FrameFacts LoadFacts SearchFacts.
Section facts.
Context `{B : Boundary}.
Implicit Types (s : State) (x : Node) (n : nat).

Global Instance quiet_refl : Reflexive quiet.
Proof. by intros s. Qed.

Global Instance quiet_trans : Transitive quiet.
Proof. unfold quiet. intros s1 s2 s3 H1 H2. congruence. Qed.

Lemma attrR_quiet s s' : attrR s s' → quiet s s'.
Proof. by intros (_ & _ & _ & H). Qed.

Lemma quiet_of_attrR {A} (m : M State A) : keeps attrR m → keeps quiet m.
Proof. intros K s. apply attrR_quiet, K. Qed.

Lemma quiet_node_upd n (f : Node → Node) : keeps quiet (node_upd n f).
Proof. intros s. unfold node_upd. by destruct (nodes s !! n). Qed.

Lemma quiet_node_new x : keeps quiet (node_new x).
Proof. by intros s. Qed.

Lemma quiet_attrs_new o : keeps quiet (attrs_new o).
Proof. by intros s. Qed.

Lemma quiet_search n args : keeps quiet (search n args).
Proof. apply quiet_of_attrR, keeps_search. Qed.

Lemma quiet_attrs n : keeps quiet (attrs n).
Proof. apply quiet_of_attrR, keeps_attrs. Qed.

Lemma quiet_load a : keeps quiet (load a).
Proof. apply quiet_of_attrR, keeps_load. Qed.

Lemma quiet_call_search q : keeps quiet (call_search q).
Proof. apply quiet_of_attrR, keeps_call_search. Qed.

Lemma quiet__set_changed n v : keeps quiet (_set_changed n v).
Proof. apply quiet_of_attrR, keeps__set_changed. Qed.

Lemma quiet_attrs_setitem a key val :
  keeps quiet (LDAPAttributesBehavior.__setitem__ a key val).
Proof. apply quiet_of_attrR, keeps_attrs_setitem. Qed.

End facts.

#[export] Hint Resolve quiet_node_upd quiet_node_new quiet_attrs_new
  quiet_search quiet_attrs quiet_load quiet_call_search quiet__set_changed
  quiet_attrs_setitem : keeps.

Ltac quiet_auto := repeat keeps_step; eauto with keeps.

Section ops.
Context `{B : Boundary}.
Implicit Types (s : State) (x : Node) (n : nat).

Lemma quiet_need_session n : keeps quiet (need_session n).
Proof. apply keeps_need_session; apply _. Qed.

Lemma quiet_first_dn r : keeps quiet (first_dn r).
Proof. unfold first_dn. quiet_auto. Qed.

Lemma quiet_getitem n key : keeps quiet (LDAPStorage.__getitem__ n key).
Proof.
  unfold LDAPStorage.__getitem__. quiet_auto.
  all: try apply quiet_need_session; try apply quiet_first_dn.
Qed.

Lemma quiet_delitem n key : keeps quiet (LDAPStorage.__delitem__ n key).
Proof.
  unfold LDAPStorage.__delitem__, deleted_add. quiet_auto.
  apply quiet_getitem.
Qed.

Lemma quiet_iter n : keeps quiet (__iter__ n).
Proof. unfold __iter__. quiet_auto. Qed.

Lemma quiet_invalidate n key : keeps quiet (invalidate n key).
Proof. unfold invalidate. quiet_auto. Qed.

Lemma quiet_create_suitable_node v :
  keeps quiet (_create_suitable_node v).
Proof. unfold _create_suitable_node. quiet_auto. Qed.

Lemma quiet_numbers name r : keeps quiet (numbers name r).
Proof. unfold numbers, first_value. quiet_auto. Qed.

Lemma quiet_call_default f n key :
  keeps quiet (Posix.call_default f n key).
Proof.
  unfold Posix.call_default, cn, uid, uidNumber, gidNumber,
    homeDirectory, loginShell, memberUid, read_local.
  quiet_auto. all: apply quiet_numbers.
Qed.

Lemma quiet_apply_default n key val kv :
  keeps quiet (apply_default Posix.call_default n key val kv).
Proof.
  unfold apply_default. destruct kv. quiet_auto.
  apply quiet_call_default.
Qed.

Lemma quiet_setitem n key val :
  keeps quiet (LDAPStorage.__setitem__ Posix.call_default n key val).
Proof.
  unfold LDAPStorage.__setitem__, added_add. quiet_auto.
  all: first [apply quiet_need_session | apply quiet_create_suitable_node
             | apply quiet_apply_default | idtac].
Qed.

(** X1. Looking up a child, staging an addition or a deletion,
    searching, iterating, invalidating and reading the attributes
    send no add, modify or delete to the directory, whatever they
    return or raise: the writes are left to [__call__]. *)
Theorem only_commit_writes (n : nat) (key : string) (val : vessel)
    (args : search_args) (k : option string) :
  keeps quiet (LDAPStorage.__getitem__ n key)
  ∧ keeps quiet (LDAPStorage.__setitem__ Posix.call_default n key val)
  ∧ keeps quiet (LDAPStorage.__delitem__ n key)
  ∧ keeps quiet (search n args)
  ∧ keeps quiet (__iter__ n)
  ∧ keeps quiet (invalidate n k)
  ∧ keeps quiet (attrs n).
Proof.
  repeat split.
  - apply quiet_getitem.
  - apply quiet_setitem.
  - apply quiet_delitem.
  - apply quiet_search.
  - apply quiet_iter.
  - apply quiet_invalidate.
  - apply quiet_attrs.
Qed.

End ops.
End QuietFacts.

(** ** Looking up a child *)

Module GetitemFacts.
Import MonadFacts StoreFacts ChangedFacts FrameFacts LoadFacts SearchFacts.
Section facts.
Context `{B : Boundary}.
Implicit Types (s : State) (x : Node) (n : nat).

Lemma od_get_set_eq {V} k (v : V) d : od_get k (od_set k v d) = Some v.
Proof.
  induction d as [|[k' v'] d IH]; simpl.
  - by rewrite decide_True.
  - destruct (decide (k = k')) as [->|E]; simpl.
    + by rewrite decide_True.
    + by rewrite decide_False.
Qed.

Lemma od_get_set_ne {V} k k' (v : V) d :
  k' ≠ k → od_get k' (od_set k v d) = od_get k' d.
Proof.
  intros E. induction d as [|[k0 v0] d IH]; simpl.
  - by rewrite decide_False.
  - destruct (decide (k = k0)) as [->|E0]; simpl.
    + by rewrite !decide_False.
    + destruct (decide (k' = k0)); [done|exact IH].
Qed.

Lemma insert_snoc {A} (l : list A) (x y : A) :
  <[length l := y]> (l ++ [x]) = l ++ [y].
Proof.
  rewrite <- (Nat.add_0_r (length l)). by rewrite insert_app_r.
Qed.

(** [val = self.child_factory(); val.__name__ = key;
    val.__parent__ = self] puts one node at the end of the store. *)
Lemma new_child {A} (f g : Node → Node) (k : nat → M State A) s :
  (let* val := node_new new_LDAPNode in
   node_upd val f ;; node_upd val g ;; k val) s
  = k (length (nodes s))
      (set_nodes (nodes s ++ [g (f new_LDAPNode)]) s).
Proof.
  unfold bind, node_new, node_upd. cbn [nodes set_nodes].
  rewrite list_lookup_middle by done. cbn [nodes set_nodes].
  rewrite insert_snoc. rewrite list_lookup_middle by done.
  cbn [nodes set_nodes]. by rewrite insert_snoc.
Qed.

Lemma child_dn_ok n x key base s :
  nodes s !! n = Some x →
  (if truthy (_dn x) then _dn x else __name__ x) = Some base →
  child_dn n (Some key) s = (Ok (join2 (decode key) (decode base)), s).
Proof.
  intros Hn Hb. unfold child_dn.
  rewrite (bind_ok _ _ _ _ _ (node_get_ok _ _ _ Hn)).
  destruct (truthy (_dn x)); by rewrite Hb.
Qed.

Lemma DN_child c y p s :
  nodes s !! c = Some y → __parent__ y = Some p →
  DN c s = child_dn p (__name__ y) s.
Proof.
  intros Hc Hp. unfold DN.
  rewrite (bind_ok _ _ _ _ _ (node_get_ok _ _ _ Hc)). by rewrite Hp.
Qed.

Lemma try_ok {A} (m h : M State A) c s a s' :
  m s = (Ok a, s') → try_except m c h s = (Ok a, s').
Proof. unfold try_except. by intros ->. Qed.

Lemma try_raise {A} (m h : M State A) c s e s' :
  m s = (Raise e, s') →
  try_except m c h s = if c e then h s' else (Raise e, s').
Proof. unfold try_except. by intros ->. Qed.

Lemma call_search_run q s r w' :
  session_search q (world s) = (r, w') →
  call_search q s = (r, set_world w' (CallSearch q) s).
Proof. unfold call_search. by intros ->. Qed.

(** X2. [self[key]] for a key that is not in [storage].  Without a
    session the lookup raises [AttributeError].  With one, the
    directory is asked for the entry [key,base]: its answer
    [NO_SUCH_OBJECT] or [INVALID_DN_SYNTAX] becomes a [KeyError] and
    any other exception is passed on, an empty answer is an
    [IndexError]; in these cases no node of the tree has changed.
    Otherwise the new node is returned: it has the name [key], the
    parent [self], the DN of the first entry found and the session,
    and it is in [storage] under [key]. *)
Theorem getitem_fetches (n : nat) (x : Node) (key : string) (s : State) :
  nodes s !! n = Some x → od_get key (storage x) = None →
  let val := length (nodes s) in
  let fresh := set__parent__ (Some n) (set__name__ (Some key)
                                         new_LDAPNode) in
  let s1 := set_nodes (nodes s ++ [fresh]) s in
  (_ldap_session x = false →
   LDAPStorage.__getitem__ n key s = (Raise AttributeError, s1))
  ∧ (_ldap_session x = true →
     ∀ base r w',
       (if truthy (_dn x) then _dn x else __name__ x) = Some base →
       let q := probe_query (join2 (decode key) (decode base)) in
       session_search q (world s) = (r, w') →
       match r with
       | Raise e =>
           LDAPStorage.__getitem__ n key s
           = (Raise (if catches_not_found e then KeyError else e),
              set_world w' (CallSearch q) s1)
       | Ok (Plain []) =>
           LDAPStorage.__getitem__ n key s
           = (Raise IndexError, set_world w' (CallSearch q) s1)
       | Ok (Plain ((dn0, _) :: _)) =>
           LDAPStorage.__getitem__ n key s
           = (Ok val,
              set_world w' (CallSearch q)
                (set_nodes
                   (<[n := set_storage (od_set key val (storage x)) x]>
                      (nodes s)
                    ++ [set_ldap_session true
                          (set_dn (Some dn0) fresh)]) s))
       | Ok (Paged _ _) => True
       end).
Proof.
  intros Hn Hk val fresh s1.
  assert (Hlt : n < length (nodes s)) by by eapply lookup_lt_Some.
  assert (Hn1 : nodes s1 !! n = Some x) by by apply lookup_app_l_Some.
  assert (Hv1 : nodes s1 !! val = Some fresh)
    by by apply list_lookup_middle.
  unfold LDAPStorage.__getitem__.
  rewrite (bind_ok _ _ _ _ _ (node_get_ok _ _ _ Hn)). rewrite Hk.
  rewrite new_child. fold fresh. fold s1. fold val.
  split.
  - intros Hs. erewrite try_raise; cycle 1.
    { apply bind_raise. unfold need_session.
      rewrite (bind_ok _ _ _ _ _ (node_get_ok _ _ _ Hn1)).
      by rewrite Hs. }
    done.
  - intros Hs base r w' Hb. cbv zeta.
    set (q := probe_query _). intros Hq.
    assert (Hns : need_session n s1 = (Ok tt, s1))
      by by eapply need_session_ok.
    assert (Hdn : DN val s1
                  = (Ok (join2 (decode key) (decode base)), s1)).
    { rewrite (DN_child val fresh n s1 Hv1 eq_refl).
      by eapply child_dn_ok. }
    assert (Hcs : call_search q s1
                  = (r, set_world w' (CallSearch q) s1))
      by by apply call_search_run.
    destruct r as [[[|[dn0 a0] rest]|l c]|e].
    + erewrite try_raise; cycle 1.
      { rewrite (bind_ok _ _ _ _ _ Hns), (bind_ok _ _ _ _ _ Hdn).
        by rewrite (bind_ok _ _ _ _ _ Hcs). }
      done.
    + erewrite try_ok; [reflexivity|].
      rewrite (bind_ok _ _ _ _ _ Hns), (bind_ok _ _ _ _ _ Hdn).
      rewrite (bind_ok _ _ _ _ _ Hcs). cbn [first_dn].
      rewrite (bind_ok (ret dn0) _ _ dn0 _ eq_refl).
      set (s2 := set_world w' (CallSearch q) s1).
      assert (Hv2 : nodes s2 !! val = Some fresh) by done.
      rewrite (bind_ok _ _ _ _ _ (node_upd_ok _ _ _ _ Hv2)).
      set (s3 := set_nodes _ s2).
      assert (Hn3 : nodes s3 !! n = Some x).
      { unfold s3. rewrite (lookup_upd val n _ s2 fresh Hv2).
        rewrite decide_False by (unfold val; lia). done. }
      assert (Hv3 : nodes s3 !! val = Some (set_dn (Some dn0) fresh)).
      { unfold s3. rewrite (lookup_upd val val _ s2 fresh Hv2).
        by rewrite decide_True. }
      rewrite (bind_ok _ _ _ _ _ (node_get_ok _ _ _ Hn3)).
      rewrite (bind_ok _ _ _ _ _ (node_upd_ok _ _ _ _ Hv3)).
      set (s4 := set_nodes _ s3).
      assert (Hn4 : nodes s4 !! n = Some x).
      { unfold s4. rewrite (lookup_upd val n _ s3 _ Hv3).
        rewrite decide_False by (unfold val; lia). done. }
      rewrite (bind_ok _ _ _ _ _ (node_upd_ok _ _ _ _ Hn4)).
      unfold ret. f_equal. unfold s4, s3, s2, s1, set_world, set_nodes.
      cbn [nodes attrs_heap world calls]. f_equal.
      unfold val. rewrite !insert_snoc. rewrite insert_app_l by done.
      by rewrite Hs.
    + done.
    + erewrite try_raise; cycle 1.
      { rewrite (bind_ok _ _ _ _ _ Hns), (bind_ok _ _ _ _ _ Hdn).
        by rewrite (bind_raise _ _ _ _ _ Hcs). }
      by destruct (catches_not_found e).
Qed.

Lemma try_ok_inv {A} (m h : M State A) c s a s' :
  try_except m c h s = (Ok a, s') →
  m s = (Ok a, s')
  ∨ ∃ e s1, m s = (Raise e, s1) ∧ c e = true ∧ h s1 = (Ok a, s').
Proof.
  unfold try_except. destruct (m s) as [[a0|e] s1]; [by left|].
  destruct (c e) eqn:E; [|done]. right. eauto.
Qed.

(** X3. A lookup that has returned a node has put it in [storage]:
    the same lookup made again returns the same node and asks the
    directory nothing. *)
Theorem getitem_again (n : nat) (key : string) (c : nat)
    (s s' : State) :
  LDAPStorage.__getitem__ n key s = (Ok c, s') →
  LDAPStorage.__getitem__ n key s' = (Ok c, s').
Proof.
  intros H.
  assert (∃ x', nodes s' !! n = Some x'
                ∧ od_get key (storage x') = Some c) as (x' & Hn' & Hk').
  { unfold LDAPStorage.__getitem__ in H.
    apply bind_ok_inv in H as (x & s0 & H0 & H).
    apply node_get_inv in H0 as [-> Hn].
    destruct (od_get key (storage x)) as [c0|] eqn:Hk.
    { cbv [ret] in H. simplify_eq. eauto. }
    apply bind_ok_inv in H as (val & s1 & _ & H).
    apply bind_ok_inv in H as ([] & s2 & _ & H).
    apply bind_ok_inv in H as ([] & s3 & _ & H).
    apply try_ok_inv in H as [H|(e & s4 & _ & _ & H)]; [|done].
    apply bind_ok_inv in H as ([] & s4 & _ & H).
    apply bind_ok_inv in H as (dn & s5 & _ & H).
    apply bind_ok_inv in H as (r & s6 & _ & H).
    apply bind_ok_inv in H as (dn0 & s7 & _ & H).
    apply bind_ok_inv in H as ([] & s8 & _ & H).
    apply bind_ok_inv in H as (x8 & s9 & _ & H).
    apply bind_ok_inv in H as ([] & s10 & _ & H).
    apply bind_ok_inv in H as ([] & s11 & Hu & H).
    cbv [ret] in H. simplify_eq.
    apply node_upd_inv in Hu as [(y & Hy & _ & ->)|(_ & ? & _)]; [|done].
    eexists. split.
    - rewrite (lookup_upd n n _ s10 y Hy). by rewrite decide_True.
    - cbn [storage set_storage]. apply od_get_set_eq. }
  unfold LDAPStorage.__getitem__.
  rewrite (bind_ok _ _ _ _ _ (node_get_ok _ _ _ Hn')). by rewrite Hk'.
Qed.

End facts.
End GetitemFacts.

Module GetitemRuns.
Import MonadFacts StoreFacts ChangedFacts FrameFacts LoadFacts.
Import GetitemFacts Scenario.

(** [getitem_fetches] on the root of a base with the child [cn=a]:
    [root['cn=b']], [root['cn=a']], and [LDAPNode()['cn=a']]. *)
Lemma getitem_fetches_witness :
  let s := start one_child in
  let fresh p key :=
    set__parent__ (Some p) (set__name__ (Some key) new_LDAPNode) in
  let asked key :=
    set_world (world s) (CallSearch (probe_query (join2 key "dc=my"))) in
  LDAPStorage.__getitem__ 0 "cn=b" s
  = (Raise KeyError, asked "cn=b" (set_nodes (nodes s ++ [fresh 0 "cn=b"]) s))
  ∧ LDAPStorage.__getitem__ 0 "cn=a" s
    = (Ok 1,
       asked "cn=a"
         (set_nodes
            (<[0 := set_storage [("cn=a", 1)] (node_at s 0)]> (nodes s)
             ++ [set_ldap_session true
                   (set_dn (Some "cn=a,dc=my") (fresh 0 "cn=a"))]) s))
  ∧ (let s0 := after (node_new new_LDAPNode) s in
     LDAPStorage.__getitem__ 1 "cn=a" s0
     = (Raise AttributeError, set_nodes (nodes s0 ++ [fresh 1 "cn=a"]) s0)).
Proof.
  intros s fresh asked.
  assert (Hn : nodes s !! 0 = Some (node_at s 0)) by reflexivity.
  split; [|split].
  - destruct (getitem_fetches 0 _ "cn=b" s Hn eq_refl) as [_ F].
    exact (F eq_refl "dc=my" (Raise NO_SUCH_OBJECT) (world s)
             eq_refl eq_refl).
  - destruct (getitem_fetches 0 _ "cn=a" s Hn eq_refl) as [_ F].
    exact (F eq_refl "dc=my" (Ok (Plain [("cn=a,dc=my", [])])) (world s)
             eq_refl eq_refl).
  - intros s0.
    exact (proj1 (getitem_fetches 1 new_LDAPNode "cn=a" s0
                    eq_refl eq_refl) eq_refl).
Defined.

(** [getitem_again] on [root['cn=a']]. *)
Lemma getitem_again_witness :
  let s := start one_child in
  let s' := after (LDAPStorage.__getitem__ 0 "cn=a") s in
  LDAPStorage.__getitem__ 0 "cn=a" s = (Ok 1, s')
  ∧ LDAPStorage.__getitem__ 0 "cn=a" s' = (Ok 1, s').
Proof.
  intros s s'.
  assert (E : LDAPStorage.__getitem__ 0 "cn=a" s = (Ok 1, s')).
  { refine (run_eq (LDAPStorage.__getitem__ 0 "cn=a") s _ _).
    vm_compute. reflexivity. }
  split; [exact E|]. exact (getitem_again 0 "cn=a" 1 s s' E).
Defined.
End GetitemRuns.

(** ** Writing and deleting attributes *)

Module AttrFacts.
Import MonadFacts StoreFacts ChangedFacts FrameFacts LoadFacts SearchFacts.
Import ThrowFacts GrowFacts RemoveFacts GetitemFacts.
Section facts.
Context `{B : Boundary}.
Implicit Types (s : State) (x : Node) (n : nat).

(** Raising the flag: it is up afterwards, whatever happens on the
    way to the root. *)
Lemma set_changed_true_spec n s r s' x :
  _set_changed n true s = (r, s') → nodes s !! n = Some x →
  flagR true s s'
  ∧ nodes s' !! n = Some (set_changed true x).
Proof.
  intros H Hn.
  assert (HR : flagR true s s').
  { pose proof (_set_changed_flagR n true s) as K. by rewrite H in K. }
  split; [done|].
  rewrite _set_changed_unfold, Hn in H. cbv zeta in H.
  case_bool_decide as Hv.
  { simplify_eq. rewrite Hn. f_equal. destruct x; simpl in *.
    by subst. }
  assert (Hf : nodes (flag n true x s) !! n = Some (set_changed true x)).
  { unfold flag. rewrite (lookup_upd _ _ _ _ _ Hn).
    by rewrite decide_True. }
  destruct (__parent__ x) as [p|].
  - pose proof (_set_changed_flagR p true (flag n true x s)) as K.
    rewrite H in K. eapply flagR_same; [exact K|exact Hf|].
    by destruct x.
  - by simplify_eq.
Qed.

(** X6. [attrs[key] = val] that returns has stored the value under
    the decoded key (decoded itself unless the attribute is binary),
    so that reading the key gives it back, and has marked the
    attributes changed.  The owning node is left alone when it is
    staged for addition or deletion; otherwise it is staged for
    modification and its flag is up.  No other attribute object
    changes. *)
Theorem attrs_setitem_stores (a : nat) (o : Attrs) (x : Node)
    (key : string) (val : value) (s s' : State) :
  attrs_heap s !! a = Some o →
  nodes s !! a_parent o = Some x →
  LDAPAttributesBehavior.__setitem__ a key val s = (Ok tt, s') →
  ∃ b x',
    is_binary a key s = (Ok b, s)
    ∧ attrs_heap s'
      = <[a := set_a_changed true
                 (set_a_items
                    (od_set (decode key)
                       (if b then val else decode_value val)
                       (a_items o)) o)]> (attrs_heap s)
    ∧ (∀ o', attrs_heap s' !! a = Some o' →
             od_get (decode key) (a_items o')
             = Some (if b then val else decode_value val))
    ∧ nodes s' !! a_parent o = Some x'
    ∧ (action_staged (_action x) = true → x' = x)
    ∧ (action_staged (_action x) = false →
       _action x' = Some ACTION_MODIFY ∧ _changed x' = true).
Proof.
  intros Ho Hn H.
  unfold LDAPAttributesBehavior.__setitem__ in H.
  apply bind_ok_inv in H as (b&s0&E0&H).
  pose proof (is_binary_state _ _ _ _ _ E0) as ->. cbv zeta in H.
  rewrite (bind_ok _ _ _ _ _ (attrs_upd_ok _ _ _ _ Ho)) in H.
  set (v := if b then val else decode_value val) in *.
  set (o1 := set_a_items (od_set (decode key) v (a_items o)) o) in *.
  set (s1 := set_attrs_heap _ s) in H.
  assert (Ho1 : attrs_heap s1 !! a = Some o1).
  { unfold s1. simpl. apply list_lookup_insert_eq.
    by eapply lookup_lt_Some. }
  unfold _set_attrs_modified in H.
  rewrite (bind_ok _ _ _ _ _ (attrs_get_ok _ _ _ Ho1)) in H.
  cbv zeta in H.
  rewrite (bind_ok _ _ _ _ _ (attrs_upd_ok _ _ _ _ Ho1)) in H.
  set (s2 := set_attrs_heap _ s1) in H.
  assert (Hh2 : attrs_heap s2
                = <[a := set_a_changed true o1]> (attrs_heap s)).
  { unfold s2, s1. simpl. by rewrite list_insert_insert_eq. }
  assert (Hn2 : nodes s2 !! a_parent o = Some x) by done.
  change (a_parent o1) with (a_parent o) in H.
  rewrite (bind_ok _ _ _ _ _ (node_get_ok _ _ _ Hn2)) in H.
  assert (Hget : ∀ h, h = <[a := set_a_changed true o1]> (attrs_heap s) →
            ∀ o', h !! a = Some o' →
            od_get (decode key) (a_items o') = Some v).
  { intros h -> o' Ho'.
    rewrite list_lookup_insert_eq in Ho' by by eapply lookup_lt_Some.
    simplify_eq. simpl. apply od_get_set_eq. }
  exists b. destruct (action_staged (_action x)) eqn:Hst; simpl in H.
  - cbv [ret] in H. simplify_eq. exists x.
    split; [done|]. split; [done|]. split; [by apply Hget|].
    split; [done|]. by split.
  - rewrite (bind_ok _ _ _ _ _ (node_upd_ok _ _ _ _ Hn2)) in H.
    set (s3 := set_nodes _ s2) in H.
    assert (Hn3 : nodes s3 !! a_parent o
                  = Some (set_action (Some ACTION_MODIFY) x)).
    { unfold s3. by rewrite (lookup_upd _ _ _ _ _ Hn2), decide_True. }
    apply bind_ok_inv in H as ([]&s4&E4&H).
    destruct (set_changed_true_spec _ _ _ _ _ E4 Hn3) as (R4 & Hn4).
    rewrite (bind_ok _ _ _ _ _ (node_get_ok _ _ _ Hn4)) in H.
    destruct R4 as (Hh4 & _).
    assert (Hfin : attrs_heap s' = attrs_heap s4
                   ∧ ∃ x', nodes s' !! a_parent o = Some x'
                           ∧ _action x' = Some ACTION_MODIFY
                           ∧ _changed x' = true).
    { destruct (__parent__ (set_changed true
                  (set_action (Some ACTION_MODIFY) x))) as [p|] eqn:Hp.
      - destruct (__name__ (set_changed true
                    (set_action (Some ACTION_MODIFY) x))) as [nm|];
          [|done].
        simpl in H. unfold modified_add in H.
        apply node_upd_inv in H as [(y & Hy & _ & ->)|(_ & ? & _)];
          [|done].
        split; [done|].
        rewrite (lookup_upd _ (a_parent o) _ _ _ Hy).
        case_decide as Ep.
        + subst p. rewrite Hn4 in Hy. simplify_eq.
          eexists. split; [done|]. by destruct x.
        + eexists. split; [exact Hn4|]. by destruct x.
      - cbv [ret] in H. simplify_eq. split; [done|].
        eexists. split; [exact Hn4|]. by destruct x. }
    destruct Hfin as (Hh' & x' & Hx' & Ha' & Hc').
    exists x'. split; [done|].
    assert (Hheap : attrs_heap s'
                    = <[a := set_a_changed true o1]> (attrs_heap s)).
    { rewrite Hh', Hh4. exact Hh2. }
    split; [exact Hheap|]. split; [by apply Hget|].
    split; [done|]. by split.
Qed.

Global Instance same_heap_refl : Reflexive same_heap.
Proof. by intros s. Qed.

Global Instance same_heap_trans : Transitive same_heap.
Proof. unfold same_heap. intros s1 s2 s3 H1 H2. congruence. Qed.

Lemma same_heap_node_upd n f : keeps same_heap (node_upd n f).
Proof. intros s. unfold node_upd. by destruct (nodes s !! n). Qed.

Lemma same_heap__set_changed n v : keeps same_heap (_set_changed n v).
Proof. intros s. by destruct (_set_changed_flagR n v s) as (H & _). Qed.

(** Marking the attributes modified changes one attribute object,
    and only its flag. *)
Lemma set_attrs_modified_heap a o s r s' :
  attrs_heap s !! a = Some o →
  _set_attrs_modified a s = (r, s') →
  attrs_heap s' = <[a := set_a_changed true o]> (attrs_heap s).
Proof.
  intros Ho H. unfold _set_attrs_modified in H.
  rewrite (bind_ok _ _ _ _ _ (attrs_get_ok _ _ _ Ho)) in H.
  cbv zeta in H.
  rewrite (bind_ok _ _ _ _ _ (attrs_upd_ok _ _ _ _ Ho)) in H.
  set (s1 := set_attrs_heap _ s) in H.
  change (attrs_heap s' = attrs_heap s1).
  revert H. generalize s1. clear s1. intros s1 H.
  refine (keeps_run same_heap _ s1 r s' _ H).
  repeat keeps_step;
    first [apply same_heap_node_upd | apply same_heap__set_changed
          | idtac].
  all: unfold with_name, modified_add; repeat keeps_step;
    apply same_heap_node_upd.
Qed.

Lemma od_get_del_ne {V} k k' (d : list (string * V)) :
  k' ≠ k → od_get k' (od_del k d) = od_get k' d.
Proof.
  intros E. induction d as [|[k0 v0] d IH]; simpl; [done|].
  destruct (decide (k = k0)) as [->|E0]; simpl.
  - by rewrite decide_False.
  - destruct (decide (k' = k0)); [done|exact IH].
Qed.

Lemma od_get_None {V} k (d : list (string * V)) :
  od_get k d = None ↔ k ∉ d.*1.
Proof.
  induction d as [|[k0 v0] d IH]; simpl.
  - split; [intros _; apply not_elem_of_nil|done].
  - rewrite not_elem_of_cons. destruct (decide (k = k0)) as [->|E].
    + split; [done|]. by intros [].
    + rewrite IH. tauto.
Qed.

Lemma od_get_del_eq {V} k (d : list (string * V)) :
  NoDup d.*1 → od_get k (od_del k d) = None.
Proof.
  induction d as [|[k0 v0] d IH]; simpl; [done|].
  intros [Hk0 Hd]%NoDup_cons.
  destruct (decide (k = k0)) as [->|E]; simpl.
  - by apply od_get_None.
  - rewrite decide_False by done. by apply IH.
Qed.

(** X7. [del attrs[key]] raises [KeyError] and changes nothing when
    the key is not there.  When it returns, the key is gone, every
    other key reads as before and the attributes are marked
    changed. *)
Theorem attrs_delitem_removes (a : nat) (o : Attrs) (key : string)
    (s : State) :
  attrs_heap s !! a = Some o →
  NoDup (a_items o).*1 →
  (od_get key (a_items o) = None →
   LDAPAttributesBehavior.__delitem__ a key s = (Raise KeyError, s))
  ∧ (∀ s', LDAPAttributesBehavior.__delitem__ a key s = (Ok tt, s') →
       ∃ o', attrs_heap s' !! a = Some o'
             ∧ is_Some (od_get key (a_items o))
             ∧ od_get key (a_items o') = None
             ∧ (∀ k', k' ≠ key →
                      od_get k' (a_items o') = od_get k' (a_items o))
             ∧ a_changed o' = true).
Proof.
  intros Ho Hnd. unfold LDAPAttributesBehavior.__delitem__.
  rewrite (bind_ok _ _ _ _ _ (attrs_get_ok _ _ _ Ho)).
  unfold od_mem. split.
  - intros Hk. rewrite Hk.
    rewrite bool_decide_eq_false_2; [done|]. by intros [? ?].
  - intros s' H. case_bool_decide as Hk; [|done].
    rewrite (bind_ok _ _ _ _ _ (attrs_upd_ok _ _ _ _ Ho)) in H.
    set (o1 := set_a_items (od_del key (a_items o)) o) in *.
    set (s1 := set_attrs_heap _ s) in H.
    assert (Ho1 : attrs_heap s1 !! a = Some o1).
    { unfold s1. simpl. apply list_lookup_insert_eq.
      by eapply lookup_lt_Some. }
    rewrite (set_attrs_modified_heap _ _ _ _ _ Ho1 H).
    exists (set_a_changed true o1). split.
    { apply list_lookup_insert_eq. by eapply lookup_lt_Some. }
    split; [done|]. split; [by apply od_get_del_eq|].
    split; [|done]. intros k' E. by apply od_get_del_ne.
Qed.

End facts.
End AttrFacts.

Module AttrRuns.
Import MonadFacts StoreFacts ChangedFacts FrameFacts LoadFacts.
Import AttrFacts Scenario.

(** [attrs_setitem_stores] on [root['cn=a'].attrs['sn'] = 'y']. *)
Lemma attrs_setitem_stores_witness :
  let s := looked_up_loaded in
  let s' := modified_child in
  let o := attrs_at s 0 in
  let x := node_at s 1 in
  LDAPAttributesBehavior.__setitem__ 0 "sn" (VStr "y") s = (Ok tt, s')
  ∧ ∃ b x',
      is_binary 0 "sn" s = (Ok b, s)
      ∧ attrs_heap s'
        = <[0 := set_a_changed true
                   (set_a_items
                      (od_set (decode "sn")
                         (if b then VStr "y" else decode_value (VStr "y"))
                         (a_items o)) o)]> (attrs_heap s)
      ∧ (∀ o', attrs_heap s' !! 0 = Some o' →
               od_get (decode "sn") (a_items o')
               = Some (if b then VStr "y" else decode_value (VStr "y")))
      ∧ nodes s' !! a_parent o = Some x'
      ∧ (action_staged (_action x) = true → x' = x)
      ∧ (action_staged (_action x) = false →
         _action x' = Some ACTION_MODIFY ∧ _changed x' = true).
Proof.
  intros s s' o x.
  assert (E : LDAPAttributesBehavior.__setitem__ 0 "sn" (VStr "y") s
              = (Ok tt, s')).
  { refine (run_eq (LDAPAttributesBehavior.__setitem__ 0 "sn" (VStr "y"))
              s _ _).
    vm_compute. reflexivity. }
  split; [exact E|].
  refine (attrs_setitem_stores 0 o x "sn" (VStr "y") s s' _ _ E).
  - vm_compute. reflexivity.
  - vm_compute. reflexivity.
Defined.

(** [attrs_delitem_removes] on [del root['cn=a'].attrs['sn']] and on a
    key that is not there. *)
Lemma attrs_delitem_removes_witness :
  let s := looked_up_loaded in
  let o := attrs_at s 0 in
  LDAPAttributesBehavior.__delitem__ 0 "mail" s = (Raise KeyError, s)
  ∧ ∃ o', attrs_heap (after (LDAPAttributesBehavior.__delitem__ 0 "sn") s)
            !! 0 = Some o'
          ∧ is_Some (od_get "sn" (a_items o))
          ∧ od_get "sn" (a_items o') = None
          ∧ (∀ k', k' ≠ "sn" →
                   od_get k' (a_items o') = od_get k' (a_items o))
          ∧ a_changed o' = true.
Proof.
  intros s o.
  assert (Ho : attrs_heap s !! 0 = Some o) by (vm_compute; reflexivity).
  assert (Hnd : NoDup (a_items o).*1).
  { assert ((a_items o).*1 = ["cn"; "sn"]) as ->
      by (vm_compute; reflexivity).
    apply (bool_decide_unpack _). vm_compute. reflexivity. }
  split.
  - refine (proj1 (attrs_delitem_removes 0 o "mail" s Ho Hnd) _).
    vm_compute. reflexivity.
  - refine (proj2 (attrs_delitem_removes 0 o "sn" s Ho Hnd) _ _).
    refine (run_eq (LDAPAttributesBehavior.__delitem__ 0 "sn") s _ _).
    vm_compute. reflexivity.
Defined.
End AttrRuns.

(** ** Committing *)

Module CommitFacts.
Import MonadFacts StoreFacts ChangedFacts FrameFacts LoadFacts SearchFacts.
Import GetitemFacts.
Section facts.
Context `{B : Boundary}.
Implicit Types (s : State) (x : Node) (n : nat).

(** The loop over the children, when none of them is changed. *)
Lemma for_each_unchanged (l : list nat) (k : nat → M State unit) s :
  Forall (λ c, ∃ y, nodes s !! c = Some y ∧ _changed y = false) l →
  for_each l (λ node, let* y := node_get node in
                      if _changed y then k node else ret tt) s
  = (Ok tt, s).
Proof.
  induction 1 as [|c l (y & Hy & Hc) _ IH]; [done|].
  cbn [for_each].
  rewrite (bind_ok _ _ s tt s); [exact IH|].
  rewrite (bind_ok _ _ _ _ _ (node_get_ok _ _ _ Hy)). by rewrite Hc.
Qed.

(** X5. Committing a node that is not changed, has no key staged for
    deletion and whose materialised children are not changed returns
    and leaves the state as it was: nothing is sent to the
    directory. *)
Theorem call_unchanged (fuel n : nat) (x : Node) (s : State) :
  nodes s !! n = Some x →
  _changed x = false →
  _deleted_children x = ∅ →
  Forall (λ c, ∃ y, nodes s !! c = Some y ∧ _changed y = false)
    (storage x).*2 →
  __call__ (S fuel) n s = (Ok tt, s).
Proof.
  intros Hn Hc Hd Hst. cbn [__call__].
  rewrite (bind_ok _ _ _ _ _ (node_get_ok _ _ _ Hn)). rewrite Hc.
  cbn [andb]. rewrite (bind_ok (ret tt) _ s tt s eq_refl).
  rewrite (bind_ok _ _ _ _ _ (node_get_ok _ _ _ Hn)). rewrite Hd.
  rewrite elements_empty. cbn [map_m].
  rewrite (bind_ok (ret []) _ s [] s eq_refl).
  rewrite (bind_ok _ _ _ _ _ (node_get_ok _ _ _ Hn)).
  rewrite app_nil_r. by apply for_each_unchanged.
Qed.

End facts.
End CommitFacts.

Module CommitRuns.
Import MonadFacts StoreFacts ChangedFacts FrameFacts LoadFacts.
Import CommitFacts Scenario.

(** [call_unchanged] on the root after [root['cn=a']]. *)
Lemma call_unchanged_witness :
  let s := looked_up in
  (storage (node_at s 0)).*2 = [1]
  ∧ __call__ 2 0 s = (Ok tt, s).
Proof.
  intros s.
  assert (Hst : (storage (node_at s 0)).*2 = [1])
    by (vm_compute; reflexivity).
  split; [exact Hst|].
  refine (call_unchanged 1 0 (node_at s 0) s _ _ _ _).
  - vm_compute. reflexivity.
  - vm_compute. reflexivity.
  - vm_compute. reflexivity.
  - rewrite Hst. constructor; [|constructor].
    exists (node_at s 1). split; vm_compute; reflexivity.
Defined.
End CommitRuns.

(** ** Assigning a child *)

Module SetitemFacts.
Import MonadFacts StoreFacts ChangedFacts FrameFacts LoadFacts SearchFacts.
Import ThrowFacts GrowFacts RemoveFacts GetitemFacts AttrFacts.
Section facts.
Context `{B : Boundary}.
Variable call_default : string → nat → string → M State value.
Implicit Types (s : State) (x : Node) (n : nat).

(** X8. [self[key] = val] is refused before anything is changed:
    with [RuntimeError] when the key attribute is not the RDN and no
    RDN attribute is set; with [ValueError] when the value is not a
    node and has no attributes; with [ValueError] when the key
    attribute is the RDN, the value is a node and the key is not of
    the form [name=value] with a single [=]. *)
Theorem setitem_refuses (n : nat) (x : Node) (key : string)
    (s : State) :
  nodes s !! n = Some x →
  (_key_attr x ≠ "rdn" → _rdn_attr x = None →
   ∀ val, LDAPStorage.__setitem__ call_default n key val s
          = (Raise RuntimeError, s))
  ∧ (_key_attr x = "rdn" ∨ is_Some (_rdn_attr x) →
     LDAPStorage.__setitem__ call_default n key (OtherObject None) s
     = (Raise ValueError, s))
  ∧ (_key_attr x = "rdn" → length (split "=" key) ≠ 2 →
     ∀ c, LDAPStorage.__setitem__ call_default n key (IsNode c) s
          = (Raise ValueError, s)).
Proof.
  intros Hn. split; [|split].
  - intros Hk Hr val. unfold LDAPStorage.__setitem__.
    rewrite (bind_ok _ _ _ _ _ (node_get_ok _ _ _ Hn)).
    rewrite (bool_decide_eq_false_2 _ Hk), (bool_decide_eq_true_2 _ Hr).
    done.
  - intros Hok. unfold LDAPStorage.__setitem__.
    rewrite (bind_ok _ _ _ _ _ (node_get_ok _ _ _ Hn)).
    assert (negb (bool_decide (_key_attr x = "rdn"))
            && bool_decide (_rdn_attr x = None) = false) as ->.
    { destruct Hok as [Hk|[r Hr]].
      - by rewrite (bool_decide_eq_true_2 _ Hk).
      - rewrite Hr. by rewrite andb_false_r. }
    done.
  - intros Hk Hlen c. unfold LDAPStorage.__setitem__.
    rewrite (bind_ok _ _ _ _ _ (node_get_ok _ _ _ Hn)).
    rewrite (bool_decide_eq_true_2 _ Hk). cbn [negb andb].
    rewrite (bind_ok (ret c) _ s c s eq_refl).
    destruct (split "=" key) as [|? [|? [|? ?]]]; try done.
Qed.

Lemma attrs_registered c y a s :
  nodes s !! c = Some y → ns_attrs y = Some a →
  attrs c s = (Ok a, s).
Proof.
  intros Hc Ha. unfold attrs.
  rewrite (bind_ok _ _ _ _ _ (node_get_ok _ _ _ Hc)). by rewrite Ha.
Qed.

(** X9. [self[key] = val] for a node [val] that has the RDN attribute
    already, on a node with a session and without child defaults.
    The value gets the name [key], the parent [self], the DN
    [key,base] and the session, and the directory is asked for that
    DN.  When the entry exists the value is put in [storage] and
    nothing is staged.  When the answer is [NO_SUCH_OBJECT] or
    [INVALID_DN_SYNTAX] and the assignment returns, the value is
    staged for addition with its flag up, the flag of [self] is up,
    [key] is in [_added_children] and the value is in [storage].  Any
    other exception is passed on: the value has its new name and
    parent then, but is not in [storage]. *)
Theorem setitem_stages (n c a : nat) (x y : Node) (o : Attrs)
    (key rdn rdn_val base : string) (r : res reply) (w' : World)
    (s : State) :
  nodes s !! n = Some x → nodes s !! c = Some y → n ≠ c →
  _key_attr x = "rdn" → split "=" key = [rdn; rdn_val] →
  ns_attrs y = Some a → attrs_heap s !! a = Some o →
  od_mem rdn (a_items o) = true →
  _ldap_session x = true → child_defaults x = None →
  (if truthy (_dn x) then _dn x else __name__ x) = Some base →
  let dn := join2 (decode key) (decode base) in
  let q := probe_query dn in
  let y1 := set_ldap_session true
              (set_dn (Some dn)
                 (set__parent__ (Some n) (set__name__ (Some key) y))) in
  let asked l := set_world w' (CallSearch q) (set_nodes l s) in
  session_search q (world s) = (r, w') →
  match r with
  | Ok _ =>
      LDAPStorage.__setitem__ call_default n key (IsNode c) s
      = (Ok tt,
         asked (<[n := set_storage (od_set key c (storage x)) x]>
                  (<[c := y1]> (nodes s))))
  | Raise e =>
      if catches_not_found e then
        ∀ s', LDAPStorage.__setitem__ call_default n key (IsNode c) s
              = (Ok tt, s') →
              nodes s' !! c
              = Some (set_changed true
                        (set_action (Some ACTION_ADD) y1))
              ∧ nodes s' !! n
                = Some (set_storage (od_set key c (storage x))
                          (set_added_children
                             ({[key]} ∪ _added_children x)
                             (set_changed true x)))
              ∧ calls s' = calls s ++ [CallSearch q]
      else
        LDAPStorage.__setitem__ call_default n key (IsNode c) s
        = (Raise e, asked (<[c := y1]> (nodes s)))
  end.
Proof.
  intros Hn Hc Hne Hk Hsp Ha Ho Hrdn Hs Hdef Hb dn q y1 asked Hq.
  assert (Hlc : c < length (nodes s)) by by eapply lookup_lt_Some.
  assert (Hln : n < length (nodes s)) by by eapply lookup_lt_Some.
  set (sa := asked (<[c := y1]> (nodes s))).
  assert (Hca : nodes sa !! c = Some y1).
  { unfold sa, asked. simpl. by apply list_lookup_insert_eq. }
  assert (Hna : nodes sa !! n = Some x).
  { unfold sa, asked. simpl. by rewrite list_lookup_insert_ne. }
  unfold LDAPStorage.__setitem__.
  rewrite (bind_ok _ _ _ _ _ (node_get_ok _ _ _ Hn)).
  rewrite (bool_decide_eq_true_2 _ Hk). cbn [negb andb].
  rewrite (bind_ok (ret c) _ s c s eq_refl). rewrite Hsp.
  rewrite (bind_ok _ _ s tt s); cycle 1.
  { rewrite (bind_ok _ _ _ _ _ (attrs_registered _ _ _ _ Hc Ha)).
    rewrite (bind_ok _ _ _ _ _ (attrs_get_ok _ _ _ Ho)).
    by rewrite Hrdn. }
  rewrite (bind_ok _ _ _ _ _ (node_upd_ok _ _ _ _ Hc)).
  set (s1 := set_nodes _ s).
  assert (Hc1 : nodes s1 !! c = Some (set__name__ (Some key) y)).
  { unfold s1. by rewrite (lookup_upd _ _ _ _ _ Hc), decide_True. }
  rewrite (bind_ok _ _ _ _ _ (node_upd_ok _ _ _ _ Hc1)).
  set (s2 := set_nodes _ s1).
  assert (Hc2 : nodes s2 !! c
                = Some (set__parent__ (Some n)
                          (set__name__ (Some key) y))).
  { unfold s2. by rewrite (lookup_upd _ _ _ _ _ Hc1), decide_True. }
  assert (Hn2 : nodes s2 !! n = Some x).
  { unfold s2, s1. simpl. by rewrite !list_lookup_insert_ne. }
  rewrite (bind_ok _ _ _ _ _ (child_dn_ok _ _ _ _ _ Hn2 Hb)).
  fold dn.
  rewrite (bind_ok _ _ _ _ _ (node_upd_ok _ _ _ _ Hc2)).
  set (s3 := set_nodes _ s2).
  assert (Hc3 : nodes s3 !! c
                = Some (set_dn (Some dn)
                          (set__parent__ (Some n)
                             (set__name__ (Some key) y)))).
  { unfold s3. by rewrite (lookup_upd _ _ _ _ _ Hc2), decide_True. }
  assert (Hn3 : nodes s3 !! n = Some x).
  { unfold s3. simpl. by rewrite list_lookup_insert_ne. }
  rewrite (bind_ok _ _ _ _ _ (node_get_ok _ _ _ Hn3)).
  rewrite (bind_ok _ _ _ _ _ (node_upd_ok _ _ _ _ Hc3)). rewrite Hs.
  fold y1. set (s4 := set_nodes _ s3).
  assert (Hn4 : nodes s4 !! n = Some x).
  { unfold s4. simpl. by rewrite list_lookup_insert_ne. }
  assert (Hc4 : nodes s4 !! c = Some y1).
  { unfold s4. simpl. apply list_lookup_insert_eq.
    by eapply lookup_lt_Some. }
  assert (Hs4 : set_world w' (CallSearch q) s4 = sa).
  { unfold sa, asked, s4, s3, s2, s1, set_world, set_nodes. simpl.
    by rewrite !list_insert_insert_eq. }
  assert (Hprobe : (need_session n ;;
                    let* dn := DN c in
                    call_search (probe_query dn) ;; ret tt) s4
                   = (match r with Ok _ => Ok tt | Raise e => Raise e end,
                      sa)).
  { rewrite (bind_ok _ _ _ _ _ (need_session_ok _ _ _ Hn4 Hs)).
    rewrite (bind_ok _ _ s4 dn s4); cycle 1.
    { rewrite (DN_child c y1 n s4 Hc4 eq_refl).
      by apply (child_dn_ok _ _ _ _ _ Hn4 Hb). }
    fold q. rewrite <- Hs4.
    pose proof (call_search_run q s4 r w' Hq) as Hcs.
    destruct r as [rp|e].
    - by rewrite (bind_ok _ _ _ _ _ Hcs).
    - by rewrite (bind_raise _ _ _ _ _ Hcs). }
  destruct r as [rp|e].
  - rewrite (bind_ok _ _ s4 tt sa); cycle 1.
    { by apply try_ok. }
    rewrite (bind_ok _ _ _ _ _ (node_upd_ok _ _ _ _ Hna)).
    set (s5 := set_nodes _ sa).
    assert (Hn5 : nodes s5 !! n
                  = Some (set_storage (od_set key c (storage x)) x)).
    { unfold s5. by rewrite (lookup_upd _ _ _ _ _ Hna), decide_True. }
    rewrite (bind_ok _ _ _ _ _ (node_get_ok _ _ _ Hn5)).
    cbn [child_defaults set_storage]. rewrite Hdef. done.
  - destruct (catches_not_found e) eqn:Hcatch.
    + intros s' H.
      apply bind_ok_inv in H as ([] & s5 & H5 & H).
      rewrite (try_raise _ _ _ _ _ _ Hprobe), Hcatch in H5.
      set (y2 := set_action (Some ACTION_ADD) y1) in *.
      rewrite (bind_ok _ _ _ _ _ (node_upd_ok _ _ _ _ Hca)) in H5.
      set (sb := set_nodes _ sa) in H5.
      assert (Hcb : nodes sb !! c = Some y2).
      { unfold sb. by rewrite (lookup_upd _ _ _ _ _ Hca), decide_True. }
      assert (Hnb : nodes sb !! n = Some x).
      { unfold sb. simpl. by rewrite list_lookup_insert_ne. }
      apply bind_ok_inv in H5 as ([] & sc & Ec & H5).
      destruct (set_changed_true_spec _ _ _ _ _ Ec Hcb) as (Rc & Hcc).
      pose proof Rc as (_ & _ & Hcalls_c & _ & Nc).
      destruct (Nc _ _ Hnb) as (xc & Hnc & Pc).
      apply bind_ok_inv in H5 as ([] & sd & Ed & H5).
      destruct (set_changed_true_spec _ _ _ _ _ Ed Hnc) as (Rd & Hnd).
      pose proof Rd as (_ & _ & Hcalls_d & _ & _).
      assert (Hcd : nodes sd !! c = Some (set_changed true y2)).
      { eapply flagR_same; [exact Rd|exact Hcc|done]. }
      assert (Hxd : set_changed true xc = set_changed true x).
      { destruct Pc as [->| ->]; [done|by destruct x]. }
      rewrite Hxd in Hnd.
      unfold added_add in H5.
      rewrite (node_upd_ok _ _ _ _ Hnd) in H5.
      set (se := set_nodes _ sd) in H5.
      assert (s5 = se) as -> by congruence. clear H5.
      assert (Hne' : nodes se !! n
                     = Some (set_added_children
                               ({[key]} ∪ _added_children x)
                               (set_changed true x))).
      { unfold se. rewrite (lookup_upd _ _ _ _ _ Hnd), decide_True by done.
        by destruct x. }
      rewrite (bind_ok _ _ _ _ _ (node_upd_ok _ _ _ _ Hne')) in H.
      set (sf := set_nodes _ se) in H.
      assert (Hnf : nodes sf !! n
                    = Some (set_storage (od_set key c (storage x))
                              (set_added_children
                                 ({[key]} ∪ _added_children x)
                                 (set_changed true x)))).
      { unfold sf. rewrite (lookup_upd _ _ _ _ _ Hne'), decide_True by done.
        by destruct x. }
      rewrite (bind_ok _ _ _ _ _ (node_get_ok _ _ _ Hnf)) in H.
      cbn [child_defaults set_storage set_added_children set_changed]
        in H.
      rewrite Hdef in H.
      assert (s' = sf) as -> by (cbv [ret] in H; congruence).
      split; [|split].
      * unfold sf, se. simpl. rewrite !list_lookup_insert_ne by done.
        exact Hcd.
      * exact Hnf.
      * unfold sf, se. simpl. rewrite Hcalls_d, Hcalls_c. done.
    + rewrite (bind_raise _ _ s4 e sa); [done|].
      rewrite (try_raise _ _ _ _ _ _ Hprobe). by rewrite Hcatch.
Qed.

End facts.
End SetitemFacts.

Module SetitemRuns.
Import MonadFacts StoreFacts ChangedFacts FrameFacts LoadFacts.
Import SetitemFacts Scenario.

(** [setitem_refuses]: a key without [=] and an object without
    attributes on the root, any value on the root keyed by [uid]. *)
Lemma setitem_refuses_witness :
  let s := start one_child in
  LDAPStorage.__setitem__ Posix.call_default 0 "cn" (IsNode 0) s
  = (Raise ValueError, s)
  ∧ LDAPStorage.__setitem__ Posix.call_default 0 "cn=b=c" (IsNode 0) s
    = (Raise ValueError, s)
  ∧ LDAPStorage.__setitem__ Posix.call_default 0 "cn=b" (OtherObject None) s
    = (Raise ValueError, s)
  ∧ LDAPStorage.__setitem__ Posix.call_default 0 "u1" (IsNode 0) keyed
    = (Raise RuntimeError, keyed).
Proof.
  intros s.
  assert (Hn : nodes s !! 0 = Some (node_at s 0)) by reflexivity.
  assert (Hk : nodes keyed !! 0 = Some (node_at keyed 0)) by reflexivity.
  split; [|split; [|split]].
  - refine (proj2 (proj2 (setitem_refuses Posix.call_default 0 _ "cn" s
                            Hn)) eq_refl _ 0).
    vm_compute. discriminate.
  - refine (proj2 (proj2 (setitem_refuses Posix.call_default 0 _ "cn=b=c" s
                            Hn)) eq_refl _ 0).
    vm_compute. discriminate.
  - refine (proj1 (proj2 (setitem_refuses Posix.call_default 0 _ "cn=b" s
                            Hn)) _).
    left. reflexivity.
  - refine (proj1 (setitem_refuses Posix.call_default 0 _ "u1" keyed Hk)
              _ eq_refl (IsNode 0)).
    vm_compute. discriminate.
Defined.

(** [setitem_stages] on [root['cn=a'] = c], whose entry exists, and on
    [root['cn=n'] = c], whose entry does not. *)
Lemma setitem_stages_witness :
  let s := with_cn in
  let x := node_at s 0 in
  let y := node_at s 1 in
  let y1 key := set_ldap_session true
                  (set_dn (Some (join2 key "dc=my"))
                     (set__parent__ (Some 0) (set__name__ (Some key) y))) in
  let asked key l :=
    set_world (world s) (CallSearch (probe_query (join2 key "dc=my")))
      (set_nodes l s) in
  LDAPStorage.__setitem__ Posix.call_default 0 "cn=a" (IsNode 1) s
  = (Ok tt,
     asked "cn=a" (<[0 := set_storage (od_set "cn=a" 1 (storage x)) x]>
                     (<[1 := y1 "cn=a"]> (nodes s))))
  ∧ (let s' := after (LDAPStorage.__setitem__ Posix.call_default 0 "cn=n"
                        (IsNode 1)) s in
     LDAPStorage.__setitem__ Posix.call_default 0 "cn=n" (IsNode 1) s
     = (Ok tt, s')
     ∧ nodes s' !! 1
       = Some (set_changed true (set_action (Some ACTION_ADD) (y1 "cn=n")))
     ∧ nodes s' !! 0
       = Some (set_storage (od_set "cn=n" 1 (storage x))
                 (set_added_children ({["cn=n"]} ∪ _added_children x)
                    (set_changed true x)))
     ∧ calls s' = calls s ++ [CallSearch (probe_query (join2 "cn=n" "dc=my"))]).
Proof.
  intros s x y y1 asked.
  assert (Hn : nodes s !! 0 = Some x) by (vm_compute; reflexivity).
  assert (Hc : nodes s !! 1 = Some y) by (vm_compute; reflexivity).
  assert (Ha : ns_attrs y = Some 0) by (vm_compute; reflexivity).
  assert (Ho : attrs_heap s !! 0 = Some (attrs_at s 0))
    by (vm_compute; reflexivity).
  assert (Hr : od_mem "cn" (a_items (attrs_at s 0)) = true)
    by (vm_compute; reflexivity).
  assert (Hk : _key_attr x = "rdn") by (vm_compute; reflexivity).
  assert (Hs : _ldap_session x = true) by (vm_compute; reflexivity).
  assert (Hd : child_defaults x = None) by (vm_compute; reflexivity).
  assert (Hb : (if truthy (_dn x) then _dn x else __name__ x)
               = Some "dc=my") by (vm_compute; reflexivity).
  assert (Hne : 0 ≠ 1) by discriminate.
  split.
  - refine (setitem_stages Posix.call_default 0 1 0 x y (attrs_at s 0)
              "cn=a" "cn" "a" "dc=my" (Ok (Plain [("cn=a,dc=my", [])]))
              (world s) s Hn Hc Hne Hk eq_refl Ha Ho Hr Hs Hd Hb _).
    vm_compute. reflexivity.
  - intros s'.
    assert (E : LDAPStorage.__setitem__ Posix.call_default 0 "cn=n"
                  (IsNode 1) s = (Ok tt, s')).
    { refine (run_eq (LDAPStorage.__setitem__ Posix.call_default 0 "cn=n"
                        (IsNode 1)) s _ _).
      vm_compute. reflexivity. }
    split; [exact E|].
    refine (setitem_stages Posix.call_default 0 1 0 x y (attrs_at s 0)
              "cn=n" "cn" "n" "dc=my" (Raise NO_SUCH_OBJECT)
              (world s) s Hn Hc Hne Hk eq_refl Ha Ho Hr Hs Hd Hb _ s' E).
    vm_compute. reflexivity.
Defined.
End SetitemRuns.

(** ** Deleting a child *)

Module DelitemFacts.
Import MonadFacts StoreFacts ChangedFacts FrameFacts LoadFacts SearchFacts.
Import ThrowFacts GrowFacts RemoveFacts GetitemFacts AttrFacts.
Section facts.
Context `{B : Boundary}.
Implicit Types (s : State) (x : Node) (n : nat).

(** X10. [del self[key]] looks the child up first: what the lookup
    raises ([KeyError] for a key that is neither in [storage] nor in
    the directory) is raised and nothing is staged.  When the child
    is found and the deletion returns, the child's action is Delete
    whatever it was before, its flag is up, [key] is in
    [_deleted_children], and [_added_children] and [storage] of
    [self] are as the lookup left them: the child stays in [storage]
    and a key staged for addition stays staged. *)
Theorem delitem_stages (n : nat) (key : string) (s : State) :
  (∀ e s1, LDAPStorage.__getitem__ n key s = (Raise e, s1) →
           LDAPStorage.__delitem__ n key s = (Raise e, s1))
  ∧ (∀ c s1 x y s',
       LDAPStorage.__getitem__ n key s = (Ok c, s1) →
       nodes s1 !! n = Some x → nodes s1 !! c = Some y → n ≠ c →
       LDAPStorage.__delitem__ n key s = (Ok tt, s') →
       ∃ x',
         nodes s' !! c
         = Some (set_changed true (set_action (Some ACTION_DELETE) y))
         ∧ nodes s' !! n = Some x'
         ∧ _deleted_children x' = {[key]} ∪ _deleted_children x
         ∧ _added_children x' = _added_children x
         ∧ storage x' = storage x
         ∧ calls s' = calls s1).
Proof.
  split.
  - intros e s1 H. unfold LDAPStorage.__delitem__.
    by rewrite (bind_raise _ _ _ _ _ H).
  - intros c s1 x y s' H Hn Hc Hne Hd.
    unfold LDAPStorage.__delitem__ in Hd.
    rewrite (bind_ok _ _ _ _ _ H) in Hd.
    rewrite (bind_ok _ _ _ _ _ (node_upd_ok _ _ _ _ Hc)) in Hd.
    set (s2 := set_nodes _ s1) in Hd.
    assert (Hc2 : nodes s2 !! c
                  = Some (set_action (Some ACTION_DELETE) y)).
    { unfold s2. by rewrite (lookup_upd _ _ _ _ _ Hc), decide_True. }
    assert (Hn2 : nodes s2 !! n = Some x).
    { unfold s2. simpl. by rewrite list_lookup_insert_ne. }
    apply bind_ok_inv in Hd as ([] & s3 & E3 & Hd).
    destruct (set_changed_true_spec _ _ _ _ _ E3 Hc2) as (R3 & Hc3).
    pose proof R3 as (_ & _ & Hcalls & _ & N3).
    destruct (N3 _ _ Hn2) as (x3 & Hn3 & P3).
    unfold deleted_add in Hd. rewrite (node_upd_ok _ _ _ _ Hn3) in Hd.
    set (s4 := set_nodes _ s3) in Hd.
    assert (s' = s4) as -> by congruence.
    eexists. split; [|split].
    + unfold s4. simpl. by rewrite list_lookup_insert_ne.
    + unfold s4. by rewrite (lookup_upd _ _ _ _ _ Hn3), decide_True.
    + destruct P3 as [->| ->]; by destruct x.
Qed.

End facts.
End DelitemFacts.

Module DelitemRuns.
Import MonadFacts StoreFacts ChangedFacts FrameFacts LoadFacts.
Import DelitemFacts Scenario.

(** [delitem_stages] on the root with the child [cn=new] staged for
    addition: [del root['cn=b']] and [del root['cn=new']]. *)
Lemma delitem_stages_witness :
  let s := staged_add in
  let x := node_at s 0 in
  let y := node_at s 1 in
  let s' := after (LDAPStorage.__delitem__ 0 "cn=new") s in
  LDAPStorage.__delitem__ 0 "cn=b" s
  = (Raise KeyError, after (LDAPStorage.__getitem__ 0 "cn=b") s)
  ∧ _action y = Some ACTION_ADD
  ∧ _added_children x = {["cn=new"]}
  ∧ ∃ x',
      nodes s' !! 1
      = Some (set_changed true (set_action (Some ACTION_DELETE) y))
      ∧ nodes s' !! 0 = Some x'
      ∧ _deleted_children x' = {["cn=new"]} ∪ _deleted_children x
      ∧ _added_children x' = _added_children x
      ∧ storage x' = storage x
      ∧ calls s' = calls s.
Proof.
  intros s x y s'.
  destruct (delitem_stages 0 "cn=b" s) as [Hb _].
  destruct (delitem_stages 0 "cn=new" s) as [_ Hnew].
  split; [|split; [|split]].
  - apply Hb.
    refine (run_eq (LDAPStorage.__getitem__ 0 "cn=b") s _ _).
    vm_compute. reflexivity.
  - vm_compute. reflexivity.
  - vm_compute. reflexivity.
  - refine (Hnew 1 s x y s' _ _ _ _ _).
    + assert (E : od_get "cn=new" (storage x) = Some 1)
        by (vm_compute; reflexivity).
      assert (Hn : nodes s !! 0 = Some x) by (vm_compute; reflexivity).
      unfold LDAPStorage.__getitem__.
      rewrite (bind_ok _ _ _ _ _ (node_get_ok _ _ _ Hn)).
      rewrite E. reflexivity.
    + vm_compute. reflexivity.
    + vm_compute. reflexivity.
    + discriminate.
    + refine (run_eq (LDAPStorage.__delitem__ 0 "cn=new") s _ _).
      vm_compute. reflexivity.
Defined.
End DelitemRuns.

(** ** Sending the modifications *)

Module ModifyFacts.
Import MonadFacts StoreFacts ChangedFacts FrameFacts LoadFacts SearchFacts.
Import ThrowFacts GrowFacts RemoveFacts GetitemFacts AttrFacts QuietFacts.
Section facts.
Context `{B : Boundary}.
Implicit Types (s : State) (x : Node) (n : nat).

Lemma is_binary_ok a l r xr key s :
  attrs_heap s !! a = Some l → root (a_parent l) s = (Ok r, s) →
  nodes s !! r = Some xr →
  is_binary a key s
  = (Ok (bool_decide (key ∈ _binary_attributes xr)), s).
Proof.
  intros Hl Hr Hx. unfold is_binary.
  rewrite (bind_ok _ _ _ _ _ (attrs_get_ok _ _ _ Hl)).
  rewrite (bind_ok _ _ _ _ _ Hr).
  by rewrite (bind_ok _ _ _ _ _ (node_get_ok _ _ _ Hx)).
Qed.

Lemma mod_change_ok a l r xr orgin key s :
  attrs_heap s !! a = Some l → root (a_parent l) s = (Ok r, s) →
  nodes s !! r = Some xr → is_Some (od_get key (a_items l)) →
  mod_change a orgin (a_items l) key s
  = (Ok (change_of (_binary_attributes xr) orgin (a_items l) key), s).
Proof.
  intros Hl Hr Hx [v Hv]. unfold mod_change, change_of. rewrite Hv.
  rewrite (bind_ok _ _ _ _ _ (is_binary_ok _ _ _ _ key _ Hl Hr Hx)).
  cbv zeta. unfold sent.
  destruct (od_get key orgin) as [v0|].
  - case_bool_decide as E; destruct (decide (v = v0)); try done;
      by destruct (bool_decide (key ∈ _binary_attributes xr)).
  - by destruct (bool_decide (key ∈ _binary_attributes xr)).
Qed.

Lemma mod_changes_ok a l r xr orgin ks s :
  attrs_heap s !! a = Some l → root (a_parent l) s = (Ok r, s) →
  nodes s !! r = Some xr →
  Forall (λ key, is_Some (od_get key (a_items l))) ks →
  map_m (mod_change a orgin (a_items l)) ks s
  = (Ok (change_of (_binary_attributes xr) orgin (a_items l) <$> ks), s).
Proof.
  intros Hl Hr Hx. induction 1 as [|key ks Hk _ IH]; [done|].
  cbn [map_m fmap list_fmap].
  rewrite (bind_ok _ _ _ _ _ (mod_change_ok _ _ _ _ orgin _ _ Hl Hr Hx Hk)).
  by rewrite (bind_ok _ _ _ _ _ IH).
Qed.

Lemma od_keys_some {V} (d : list (string * V)) :
  Forall (λ key, is_Some (od_get key d)) d.*1.
Proof.
  apply Forall_forall. intros key Hk.
  destruct (od_get key d) eqn:E; [done|].
  by apply od_get_None in E.
Qed.

Lemma mod_deletes_eq (orgin live : list (string * value)) :
  mod_deletes orgin live
  = (λ key, (MOD_DELETE, encode key, None))
      <$> filter (λ key, od_get key live = None) orgin.*1.
Proof.
  unfold mod_deletes. f_equal. apply list_filter_iff. intros key.
  unfold od_mem. destruct (od_get key live).
  - rewrite bool_decide_eq_true_2 by done. done.
  - rewrite bool_decide_eq_false_2; [done|]. by intros [? ?].
Qed.

Lemma elem_of_concat {A} (x : A) (ls : list (list A)) :
  x ∈ concat ls ↔ ∃ l, x ∈ l ∧ l ∈ ls.
Proof.
  induction ls as [|l0 ls IH]; simpl.
  - split; [by intros ?%elem_of_nil|].
    by intros (l & _ & ?%elem_of_nil).
  - rewrite elem_of_app, IH. split.
    + intros [H|(l & H1 & H2)].
      * exists l0. split; [done|]. by left.
      * exists l. split; [done|]. by right.
    + intros (l & H1 & [->|H2]%elem_of_cons); [by left|].
      right. eauto.
Qed.

Lemma modlist_of_elem binary (orgin live : list (string * value))
    (m : moddef) :
  m ∈ modlist_of binary orgin live ↔
    (∃ key, key ∈ orgin.*1 ∧ od_get key live = None
            ∧ m = (MOD_DELETE, encode key, None))
    ∨ (∃ key v, od_get key live = Some v ∧ od_get key orgin = None
                ∧ m = (MOD_ADD, encode key, Some (sent binary key v)))
    ∨ (∃ key v v0, od_get key live = Some v ∧ od_get key orgin = Some v0
                   ∧ v ≠ v0
                   ∧ m = (MOD_REPLACE, encode key,
                          Some (sent binary key v))).
Proof.
  unfold modlist_of. rewrite elem_of_app, list_elem_of_fmap.
  rewrite elem_of_concat.
  split.
  - intros [(key & -> & [Hl Ho]%list_elem_of_filter)
           |(c & Hm & (key & -> & Hk)%list_elem_of_fmap)].
    + left. eauto.
    + right. unfold change_of in Hm.
      destruct (od_get key live) as [v|] eqn:Hv;
        [|by apply elem_of_nil in Hm].
      destruct (od_get key orgin) as [v0|] eqn:Hv0.
      * destruct (decide (v = v0)) as [|E];
          [by apply elem_of_nil in Hm|].
        apply list_elem_of_singleton in Hm. right. eauto 10.
      * apply list_elem_of_singleton in Hm. left. eauto.
  - intros [(key & Hk & Hl & ->)
           |[(key & v & Hv & Hv0 & ->)
            |(key & v & v0 & Hv & Hv0 & E & ->)]].
    + left. exists key. split; [done|]. by apply list_elem_of_filter.
    + right. exists (change_of binary orgin live key). split.
      * unfold change_of. rewrite Hv, Hv0. apply list_elem_of_singleton.
        done.
      * apply list_elem_of_fmap. exists key. split; [done|].
        destruct (decide (key ∈ live.*1)) as [|Hn]; [done|].
        apply od_get_None in Hn. congruence.
    + right. exists (change_of binary orgin live key). split.
      * unfold change_of. rewrite Hv, Hv0.
        rewrite decide_False by done. by apply list_elem_of_singleton.
      * apply list_elem_of_fmap. exists key. split; [done|].
        destruct (decide (key ∈ live.*1)) as [|Hn]; [done|].
        apply od_get_None in Hn. congruence.
Qed.

(** X11. [_ldap_modify], once the original attributes [orgin] are
    loaded and the live ones are at hand.  The list it builds holds
    a delete for every original key that is not live, an add for
    every live key that is not original and a replace for every key
    whose live value differs from the original one, with the live
    value encoded unless the root declares the attribute binary, and
    nothing else.  Loading has sent no write.  An empty list ends
    the call there; otherwise the list goes to [session.modify] with
    the encoded DN, which needs a session. *)
Theorem ldap_modify_sends (n og a r : nat) (o l : Attrs) (xr : Node)
    (s s1 s2 : State) :
  attributes_factory n s = (Ok og, s1) → attrs_heap s1 !! og = Some o →
  attrs n s1 = (Ok a, s2) → attrs_heap s2 !! a = Some l →
  root (a_parent l) s2 = (Ok r, s2) → nodes s2 !! r = Some xr →
  let binary := _binary_attributes xr in
  let modlist := modlist_of binary (a_items o) (a_items l) in
  (∀ m, m ∈ modlist ↔
     (∃ key, key ∈ (a_items o).*1 ∧ od_get key (a_items l) = None
             ∧ m = (MOD_DELETE, encode key, None))
     ∨ (∃ key v, od_get key (a_items l) = Some v
                 ∧ od_get key (a_items o) = None
                 ∧ m = (MOD_ADD, encode key, Some (sent binary key v)))
     ∨ (∃ key v v0, od_get key (a_items l) = Some v
                    ∧ od_get key (a_items o) = Some v0 ∧ v ≠ v0
                    ∧ m = (MOD_REPLACE, encode key,
                           Some (sent binary key v))))
  ∧ writes (calls s2) = writes (calls s)
  ∧ (modlist = [] → _ldap_modify n s = (Ok tt, s2))
  ∧ (modlist ≠ [] →
     _ldap_modify n s
     = (need_session n ;;
        let* dn := DN n in call_modify (encode dn) modlist) s2).
Proof.
  intros Hf Ho Ha Hl Hr Hx binary modlist.
  split; [apply modlist_of_elem|]. split.
  { pose proof (keeps_run quiet _ _ _ _
                  (quiet_of_attrR _ (keeps_attributes_factory n)) Hf).
    pose proof (keeps_run quiet _ _ _ _ (quiet_attrs n) Ha).
    unfold quiet in *. congruence. }
  assert (E : _ldap_modify n s
              = (if negb (bool_decide (modlist = [])) then
                   need_session n ;;
                   let* dn := DN n in call_modify (encode dn) modlist
                 else ret tt) s2).
  { unfold _ldap_modify.
    rewrite (bind_ok _ _ _ _ _ Hf).
    rewrite (bind_ok _ _ _ _ _ (attrs_get_ok _ _ _ Ho)).
    rewrite (bind_ok _ _ _ _ _ Ha).
    rewrite (bind_ok _ _ _ _ _ (attrs_get_ok _ _ _ Hl)).
    rewrite (bind_ok _ _ _ _ _
               (mod_changes_ok _ _ _ _ (a_items o) _ _ Hl Hr Hx
                  (od_keys_some (a_items l)))).
    rewrite mod_deletes_eq. reflexivity. }
  split.
  - intros Hm. rewrite E. by rewrite (bool_decide_eq_true_2 _ Hm).
  - intros Hm. rewrite E. by rewrite (bool_decide_eq_false_2 _ Hm).
Qed.

End facts.
End ModifyFacts.

Module ModifyRuns.
Import MonadFacts StoreFacts ChangedFacts FrameFacts LoadFacts.
Import ModifyFacts Scenario.

(** [ldap_modify_sends] on the child with [cn] deleted, [sn] replaced
    and [mail] added, and on the child as it was loaded. *)
Lemma ldap_modify_sends_witness :
  let s := edited_child in
  let s1 := after (attributes_factory 1) s in
  let t := looked_up_loaded in
  let t1 := after (attributes_factory 1) t in
  let modlist :=
    [(MOD_DELETE, "cn", None); (MOD_REPLACE, "sn", Some (VStr "y"));
     (MOD_ADD, "mail", Some (VStr "a@my"))] in
  modlist_of (_binary_attributes (node_at s1 0))
    (a_items (attrs_at s1 1)) (a_items (attrs_at s1 0)) = modlist
  ∧ _ldap_modify 1 s
    = (need_session 1 ;;
       let* dn := DN 1 in call_modify (encode dn) modlist) s1
  ∧ writes (calls s1) = writes (calls s)
  ∧ _ldap_modify 1 t = (Ok tt, t1).
Proof.
  intros s s1 t t1 modlist.
  assert (Hm : modlist_of (_binary_attributes (node_at s1 0))
                 (a_items (attrs_at s1 1)) (a_items (attrs_at s1 0))
               = modlist) by (vm_compute; reflexivity).
  assert (Hs : ∀ u : State,
    (attributes_factory 1 u).1 = Ok 1 →
    attrs_heap (after (attributes_factory 1) u) !! 1
      = Some (attrs_at (after (attributes_factory 1) u) 1) →
    (attrs 1 (after (attributes_factory 1) u)).1 = Ok 0 →
    (attrs 1 (after (attributes_factory 1) u)).2
      = after (attributes_factory 1) u →
    attrs_heap (after (attributes_factory 1) u) !! 0
      = Some (attrs_at (after (attributes_factory 1) u) 0) →
    a_parent (attrs_at (after (attributes_factory 1) u) 0) = 1 →
    (root 1 (after (attributes_factory 1) u)).1 = Ok 0 →
    nodes (after (attributes_factory 1) u) !! 0
      = Some (node_at (after (attributes_factory 1) u) 0) →
    let u1 := after (attributes_factory 1) u in
    let ml := modlist_of (_binary_attributes (node_at u1 0))
                (a_items (attrs_at u1 1)) (a_items (attrs_at u1 0)) in
    writes (calls u1) = writes (calls u)
    ∧ (ml = [] → _ldap_modify 1 u = (Ok tt, u1))
    ∧ (ml ≠ [] →
       _ldap_modify 1 u
       = (need_session 1 ;;
          let* dn := DN 1 in call_modify (encode dn) ml) u1)).
  { intros u H1 H2 H3 H4 H5 H6 H7 H8 u1 ml.
    refine (proj2 (ldap_modify_sends 1 1 0 0 (attrs_at u1 1)
                     (attrs_at u1 0) (node_at u1 0) u u1 u1
                     _ H2 _ H5 _ H8)).
    - by apply run_eq.
    - etrans; [exact (run_eq (attrs 1) u1 (Ok 0) H3)|].
      f_equal. exact H4.
    - unfold u1. rewrite H6. exact (run_eq (root 1) _ (Ok 0) H7). }
  subst s s1 t t1 modlist. split; [exact Hm|].
  destruct (Hs edited_child) as (Hw & _ & Hsend); try (vm_compute; reflexivity).
  destruct (Hs looked_up_loaded) as (_ & Hnone & _); try (vm_compute; reflexivity).
  split; [|split; [exact Hw|]].
  - rewrite <- Hm. apply Hsend. rewrite Hm. discriminate.
  - apply Hnone. vm_compute. reflexivity.
Defined.
End ModifyRuns.

(** ** Adding and deleting entries *)

Module AddFacts.
Import MonadFacts StoreFacts ChangedFacts FrameFacts LoadFacts SearchFacts.
Import ThrowFacts GrowFacts RemoveFacts GetitemFacts AttrFacts QuietFacts.
Import ModifyFacts.
Section facts.
Context `{B : Boundary}.
Implicit Types (s : State) (x : Node) (n : nat).

Lemma added_of_cons binary key v items acc :
  added_of binary ((key, v) :: items) acc
  = added_of binary items
      (od_set (encode key) (sent binary key v) acc).
Proof. done. Qed.

Lemma added_of_app binary pre post acc :
  added_of binary (pre ++ post) acc
  = added_of binary post (added_of binary pre acc).
Proof. unfold added_of. by rewrite foldl_app. Qed.

Lemma add_attrs_ok a l r xr items acc s :
  attrs_heap s !! a = Some l → root (a_parent l) s = (Ok r, s) →
  nodes s !! r = Some xr →
  add_attrs a items acc s
  = (Ok (added_of (_binary_attributes xr) items acc), s).
Proof.
  intros Hl Hr Hx. revert acc.
  induction items as [|[key v] items IH]; intros acc; [done|].
  cbn [add_attrs].
  rewrite (bind_ok _ _ _ _ _ (is_binary_ok _ _ _ _ key _ Hl Hr Hx)).
  cbv zeta. rewrite IH, added_of_cons. unfold sent.
  by destruct (bool_decide (key ∈ _binary_attributes xr)).
Qed.

Lemma added_of_other binary items acc k :
  (∀ k', k' ∈ items.*1 → encode k' ≠ k) →
  od_get k (added_of binary items acc) = od_get k acc.
Proof.
  revert acc. induction items as [|[key v] items IH]; intros acc Hk;
    [done|].
  rewrite added_of_cons, IH.
  - apply od_get_set_ne. intros ->. eapply Hk; [|done]. by left.
  - intros k' Hk'. apply Hk. by right.
Qed.

Lemma od_get_elem {V} k (v : V) d : od_get k d = Some v → (k, v) ∈ d.
Proof.
  induction d as [|[k0 v0] d IH]; simpl; [done|].
  destruct (decide (k = k0)) as [->|E].
  - intros [= ->]. by left.
  - intros H. right. by apply IH.
Qed.

Lemma added_of_get binary items acc key v :
  NoDup items.*1 →
  (∀ k', k' ∈ items.*1 → encode k' = encode key → k' = key) →
  od_get key items = Some v →
  od_get (encode key) (added_of binary items acc)
  = Some (sent binary key v).
Proof.
  intros Hnd Hinj Hv.
  destruct (list_elem_of_split _ _ (od_get_elem _ _ _ Hv))
    as (pre & post & ->).
  rewrite fmap_app, fmap_cons in Hnd, Hinj. simpl in *.
  apply NoDup_app in Hnd as (_ & _ & [Hpost _]%NoDup_cons).
  rewrite added_of_app, added_of_cons.
  rewrite added_of_other; [apply od_get_set_eq|].
  intros k' Hk' E. apply Hpost.
  rewrite <- (Hinj k'); [done| |done].
  apply elem_of_app. right. by right.
Qed.

Lemma call_add_run dn attrs s r w' :
  session_add dn attrs (world s) = (r, w') →
  call_add dn attrs s = (r, set_world w' (CallAdd dn attrs) s).
Proof. unfold call_add. by intros ->. Qed.

Lemma call_delete_run dn s r w' :
  session_delete dn (world s) = (r, w') →
  call_delete dn s = (r, set_world w' (CallDelete dn) s).
Proof. unfold call_delete. by intros ->. Qed.

(** X12. [_ldap_add], once the attributes of the node are at hand.
    Without a session it raises [AttributeError] and nothing is
    sent.  With one, a single add is sent for the encoded DN; the
    answer of the directory is the outcome.  The dict that is sent
    maps the encoded name of every attribute to its value, encoded
    unless the root declares the attribute binary, as long as no two
    attribute names have the same encoding. *)
Theorem ldap_add_sends (n a r : nat) (o : Attrs) (x xr : Node)
    (s s1 : State) :
  attrs n s = (Ok a, s1) → attrs_heap s1 !! a = Some o →
  root (a_parent o) s1 = (Ok r, s1) → nodes s1 !! r = Some xr →
  nodes s1 !! n = Some x →
  let binary := _binary_attributes xr in
  let sent_attrs := added_of binary (a_items o) [] in
  (NoDup (a_items o).*1 →
   ∀ key v,
     (∀ k', k' ∈ (a_items o).*1 → encode k' = encode key → k' = key) →
     od_get key (a_items o) = Some v →
     od_get (encode key) sent_attrs = Some (sent binary key v))
  ∧ (_ldap_session x = false →
     _ldap_add n s = (Raise AttributeError, s1))
  ∧ (_ldap_session x = true →
     ∀ dn res w',
       DN n s1 = (Ok dn, s1) →
       session_add (encode dn) sent_attrs (world s1) = (res, w') →
       _ldap_add n s
       = (res, set_world w' (CallAdd (encode dn) sent_attrs) s1)).
Proof.
  intros Ha Ho Hr Hx Hn binary sent_attrs.
  assert (E : _ldap_add n s
              = (need_session n ;;
                 let* dn := DN n in
                 call_add (encode dn) sent_attrs) s1).
  { unfold _ldap_add. rewrite (bind_ok _ _ _ _ _ Ha).
    rewrite (bind_ok _ _ _ _ _ (attrs_get_ok _ _ _ Ho)).
    by rewrite (bind_ok _ _ _ _ _
                  (add_attrs_ok _ _ _ _ (a_items o) [] _ Ho Hr Hx)). }
  split; [|split].
  - intros Hnd key v Hinj Hv. by apply added_of_get.
  - intros Hs. rewrite E. apply bind_raise. unfold need_session.
    rewrite (bind_ok _ _ _ _ _ (node_get_ok _ _ _ Hn)). by rewrite Hs.
  - intros Hs dn res w' Hdn Hq. rewrite E.
    rewrite (bind_ok _ _ _ _ _ (need_session_ok _ _ _ Hn Hs)).
    rewrite (bind_ok _ _ _ _ _ Hdn). by apply call_add_run.
Qed.

(** X13. [_ldap_delete] takes the node out of its parent's [storage]
    before it asks the directory.  A node without a parent raises
    [AttributeError], a node that is not in its parent's [storage]
    raises [KeyError], a node without a session raises
    [AttributeError] after it has been taken out; nothing is sent in
    these cases.  Otherwise one delete is sent for the encoded DN
    and its answer is the outcome: when the directory refuses, the
    node is out of [storage] all the same. *)
Theorem ldap_delete_sends (n : nat) (x : Node) (s : State) :
  nodes s !! n = Some x →
  (__parent__ x = None → _ldap_delete n s = (Raise AttributeError, s))
  ∧ (∀ p nm xp,
       __parent__ x = Some p → __name__ x = Some nm →
       nodes s !! p = Some xp → p ≠ n →
       (od_get nm (storage xp) = None →
        _ldap_delete n s = (Raise KeyError, s))
       ∧ (is_Some (od_get nm (storage xp)) →
          let s1 := set_nodes
                      (<[p := set_storage (od_del nm (storage xp)) xp]>
                         (nodes s)) s in
          (_ldap_session x = false →
           _ldap_delete n s = (Raise AttributeError, s1))
          ∧ (_ldap_session x = true →
             ∀ dn res w',
               DN n s = (Ok dn, s) →
               session_delete (encode dn) (world s) = (res, w') →
               _ldap_delete n s
               = (res, set_world w' (CallDelete (encode dn)) s1)))).
Proof.
  intros Hn. split.
  - intros Hp. unfold _ldap_delete.
    rewrite (bind_ok _ _ _ _ _ (node_get_ok _ _ _ Hn)).
    unfold parent_remove. by rewrite Hp.
  - intros p nm xp Hp Hnm Hxp Hne.
    assert (E : _ldap_delete n s
                = (storage_del p nm ;; need_session n ;;
                   let* dn := DN n in call_delete (encode dn)) s).
    { unfold _ldap_delete.
      rewrite (bind_ok _ _ _ _ _ (node_get_ok _ _ _ Hn)).
      unfold parent_remove. by rewrite Hp, Hnm. }
    rewrite E. split.
    + intros Hk. apply bind_raise. unfold storage_del, od_mem.
      rewrite (bind_ok _ _ _ _ _ (node_get_ok _ _ _ Hxp)). rewrite Hk.
      rewrite bool_decide_eq_false_2; [done|]. by intros [? ?].
    + intros Hk s1.
      rewrite (bind_ok _ _ s tt s1); cycle 1.
      { unfold storage_del, od_mem.
        rewrite (bind_ok _ _ _ _ _ (node_get_ok _ _ _ Hxp)).
        rewrite (bool_decide_eq_true_2 _ Hk).
        by apply node_upd_ok. }
      assert (Hn1 : nodes s1 !! n = Some x).
      { unfold s1. simpl. by rewrite list_lookup_insert_ne. }
      split.
      * intros Hs. apply bind_raise. unfold need_session.
        rewrite (bind_ok _ _ _ _ _ (node_get_ok _ _ _ Hn1)).
        by rewrite Hs.
      * intros Hs dn res w' Hdn Hq.
        rewrite (bind_ok _ _ _ _ _ (need_session_ok _ _ _ Hn1 Hs)).
        assert (Hdn1 : DN n s1 = (Ok dn, s1)).
        { assert (Hp1 : nodes s1 !! p
                        = Some (set_storage (od_del nm (storage xp)) xp)).
          { unfold s1. by rewrite (lookup_upd _ _ _ _ _ Hxp), decide_True. }
          rewrite (DN_child n x p s Hn Hp) in Hdn.
          rewrite (DN_child n x p s1 Hn1 Hp).
          unfold child_dn in *.
          rewrite (bind_ok _ _ _ _ _ (node_get_ok _ _ _ Hxp)) in Hdn.
          rewrite (bind_ok _ _ _ _ _ (node_get_ok _ _ _ Hp1)).
          rewrite Hnm in *. cbn [_dn __name__ set_storage].
          destruct (truthy (_dn xp)), (_dn xp), (__name__ xp);
            cbv [ret raise] in *; congruence. }
        rewrite (bind_ok _ _ _ _ _ Hdn1).
        by apply (call_delete_run (encode dn) s1).
Qed.

End facts.
End AddFacts.

Module AddRuns.
Import MonadFacts StoreFacts ChangedFacts FrameFacts LoadFacts.
Import AddFacts Scenario.

(** [ldap_add_sends] on the child staged for addition, and on the same
    node before it was given to the root. *)
Lemma ldap_add_sends_witness :
  let s := staged_n in
  let sent_attrs := [("cn", VStr "a")] in
  added_of (_binary_attributes (node_at s 0)) (a_items (attrs_at s 0)) []
  = sent_attrs
  ∧ _ldap_add 1 s
    = (Ok tt,
       set_world (world s ++ [("cn=n,dc=my", [("cn", ["a"])])])
         (CallAdd "cn=n,dc=my" sent_attrs) s)
  ∧ _ldap_add 1 with_cn = (Raise AttributeError, with_cn).
Proof.
  intros s sent_attrs. subst sent_attrs.
  assert (Hm : added_of (_binary_attributes (node_at s 0))
                 (a_items (attrs_at s 0)) [] = [("cn", VStr "a")])
    by (vm_compute; reflexivity).
  split; [exact Hm|split].
  - assert (Ha : attrs 1 s = (Ok 0, s)).
    { apply (SetitemFacts.attrs_registered 1 (node_at s 1));
        vm_compute; reflexivity. }
    assert (Hr : root (a_parent (attrs_at s 0)) s = (Ok 0, s)).
    { unfold root. f_equal; vm_compute; reflexivity. }
    assert (Ho : attrs_heap s !! 0 = Some (attrs_at s 0))
      by (vm_compute; reflexivity).
    assert (H0 : nodes s !! 0 = Some (node_at s 0))
      by (vm_compute; reflexivity).
    assert (H1 : nodes s !! 1 = Some (node_at s 1))
      by (vm_compute; reflexivity).
    pose proof (proj2 (proj2 (ldap_add_sends 1 0 0 (attrs_at s 0)
                                (node_at s 1) (node_at s 0) s s
                                Ha Ho Hr H0 H1))) as Hsend.
    cbv zeta in Hsend. rewrite Hm in Hsend.
    refine (Hsend _ "cn=n,dc=my" (Ok tt)
              (world s ++ [("cn=n,dc=my", [("cn", ["a"])])]) _ _).
    + vm_compute. reflexivity.
    + apply LoadRuns.DN_run. vm_compute. reflexivity.
    + vm_compute. reflexivity.
  - assert (Ha : attrs 1 with_cn = (Ok 0, with_cn)).
    { apply (SetitemFacts.attrs_registered 1 (node_at with_cn 1));
        vm_compute; reflexivity. }
    assert (Hr : root (a_parent (attrs_at with_cn 0)) with_cn
                 = (Ok 1, with_cn)).
    { unfold root. f_equal; vm_compute; reflexivity. }
    assert (Ho : attrs_heap with_cn !! 0 = Some (attrs_at with_cn 0))
      by (vm_compute; reflexivity).
    assert (H1 : nodes with_cn !! 1 = Some (node_at with_cn 1))
      by (vm_compute; reflexivity).
    refine (proj1 (proj2 (ldap_add_sends 1 0 1 (attrs_at with_cn 0)
                            (node_at with_cn 1) (node_at with_cn 1)
                            with_cn with_cn Ha Ho Hr H1 H1)) _).
    vm_compute. reflexivity.
Defined.

(** [ldap_delete_sends] on the root, on a child that is out of
    [storage] and on a child that is in it. *)
Lemma ldap_delete_sends_witness :
  let s := looked_up in
  _ldap_delete 0 s = (Raise AttributeError, s)
  ∧ _ldap_delete 1 evicted = (Raise KeyError, evicted)
  ∧ _ldap_delete 1 s
    = (Ok tt,
       set_world [("dc=my", [("dc", ["my"])])] (CallDelete "cn=a,dc=my")
         (set_nodes
            (<[0 := set_storage (od_del "cn=a" (storage (node_at s 0)))
                      (node_at s 0)]> (nodes s)) s)).
Proof.
  intros s.
  assert (H0 : nodes s !! 0 = Some (node_at s 0))
    by (vm_compute; reflexivity).
  assert (H1 : nodes s !! 1 = Some (node_at s 1))
    by (vm_compute; reflexivity).
  assert (He0 : nodes evicted !! 0 = Some (node_at evicted 0))
    by (vm_compute; reflexivity).
  assert (He1 : nodes evicted !! 1 = Some (node_at evicted 1))
    by (vm_compute; reflexivity).
  assert (Hne : 0 ≠ 1) by discriminate.
  split; [|split].
  - apply (proj1 (ldap_delete_sends 0 _ s H0)). vm_compute. reflexivity.
  - refine (proj1 (proj2 (ldap_delete_sends 1 _ evicted He1) 0 "cn=a"
                     (node_at evicted 0) _ _ He0 Hne) _);
      vm_compute; reflexivity.
  - pose proof (proj2 (proj2 (ldap_delete_sends 1 _ s H1) 0 "cn=a"
                         (node_at s 0)
                         ltac:(vm_compute; reflexivity)
                         ltac:(vm_compute; reflexivity) H0 Hne)) as Hd.
    destruct Hd as [_ Hsend].
    { apply (bool_decide_unpack _). vm_compute. reflexivity. }
    refine (Hsend _ "cn=a,dc=my" (Ok tt) [("dc=my", [("dc", ["my"])])]
              _ _).
    + vm_compute. reflexivity.
    + apply LoadRuns.DN_run. vm_compute. reflexivity.
    + vm_compute. reflexivity.
Defined.
End AddRuns.

(** ** A key that stays staged for addition *)

Module StaleFacts.
Import MonadFacts StoreFacts ChangedFacts FrameFacts LoadFacts SearchFacts.
Import ThrowFacts GrowFacts RemoveFacts GetitemFacts AttrFacts QuietFacts.
Section facts.
Context `{B : Boundary} (p : nat) (key : string).
Implicit Types (s : State) (x : Node) (n : nat).

Global Instance stays_refl : Reflexive (stays p key).
Proof. intros s H. exact H. Qed.

Global Instance stays_trans : Transitive (stays p key).
Proof. unfold stays. intros s1 s2 s3 H1 H2. tauto. Qed.

Lemma stays_insert n x x' s :
  nodes s !! n = Some x → safe p key x x' →
  stays p key s (set_nodes (<[n := x']> (nodes s)) s).
Proof.
  intros Hn [Sa Sn] [(xp & Hp & Hk) Hall]. split.
  - destruct (decide (n = p)) as [->|E].
    + exists x'. split.
      * simpl. apply list_lookup_insert_eq. by eapply lookup_lt_Some.
      * apply Sa. by simplify_eq.
    + exists xp. split; [|done]. simpl. by rewrite list_lookup_insert_ne.
  - simpl. apply Forall_insert; [done|]. apply Sn.
    by eapply (Forall_lookup_1 _ _ _ _ Hall).
Qed.

(** The same for a removal from [_added_children] that does not
    concern [key] on [p]. *)
Lemma stays_insert_added n x nm s :
  nodes s !! n = Some x → (n, nm) ≠ (p, key) →
  stays p key s
    (set_nodes (<[n := set_added_children (_added_children x ∖ {[nm]})
                         x]> (nodes s)) s).
Proof.
  intros Hn Hne [(xp & Hp & Hk) Hall]. split.
  - destruct (decide (n = p)) as [->|E].
    + eexists. split.
      * simpl. apply list_lookup_insert_eq. by eapply lookup_lt_Some.
      * simplify_eq. destruct x; simpl in *.
        apply elem_of_difference. split; [done|].
        intros ->%elem_of_singleton. done.
    + exists xp. split; [|done]. simpl. by rewrite list_lookup_insert_ne.
  - simpl. apply Forall_insert; [done|].
    pose proof (Forall_lookup_1 _ _ _ _ Hall Hn) as Hx.
    unfold not_adding in *. by destruct x.
Qed.

Lemma stays_node_upd n (f : Node → Node) :
  (∀ x, safe p key x (f x)) → keeps (stays p key) (node_upd n f).
Proof.
  intros Hf s. unfold node_upd.
  destruct (nodes s !! n) as [x|] eqn:Hn; [|done].
  by eapply stays_insert.
Qed.

Lemma stays_same_nodes s s' : nodes s' = nodes s → stays p key s s'.
Proof. unfold stays, stale. by intros ->. Qed.

Lemma attrP_safe x x' : attrP x x' → safe p key x x'.
Proof.
  intros P. unfold attrP in P. destruct_and!. split.
  - congruence.
  - unfold not_adding. intros Hx Hp' Hn'.
    destruct (decide (_action x' = Some ACTION_ADD)) as [E|]; [|done].
    exfalso. apply Hx; [congruence..|].
    match goal with H : _ ∨ _ |- _ => destruct H as [Ha|[_ Ha]] end.
    + congruence.
    + rewrite E in Ha. done.
Qed.

Lemma attrR_stays s s' : attrR s s' → stays p key s s'.
Proof.
  intros (Hlen & N & _ & _) [(xp & Hp & Hk) Hall]. split.
  - destruct (N _ _ Hp) as (xp' & Hp' & P).
    exists xp'. split; [done|]. by apply (attrP_safe _ _ P).
  - apply Forall_lookup. intros i y' Hy'.
    destruct (nodes s !! i) as [y|] eqn:Hy.
    + destruct (N _ _ Hy) as (y'' & Hy'' & P). simplify_eq.
      apply (attrP_safe _ _ P). by eapply (Forall_lookup_1 _ _ _ _ Hall).
    + apply lookup_ge_None in Hy. apply lookup_lt_Some in Hy'. lia.
Qed.

Lemma stays_of_attrR {A} (m : M State A) :
  keeps attrR m → keeps (stays p key) m.
Proof. intros K s. apply attrR_stays, K. Qed.

Lemma stays_attrs_upd a f : keeps (stays p key) (attrs_upd a f).
Proof.
  intros s. unfold attrs_upd. destruct (attrs_heap s !! a); [|done].
  by apply stays_same_nodes.
Qed.

Lemma stays_call_add dn attrs : keeps (stays p key) (call_add dn attrs).
Proof.
  intros s. unfold call_add. destruct (session_add _ _ _).
  by apply stays_same_nodes.
Qed.

Lemma stays_call_modify dn l : keeps (stays p key) (call_modify dn l).
Proof.
  intros s. unfold call_modify. destruct (session_modify _ _ _).
  by apply stays_same_nodes.
Qed.

Lemma stays_call_delete dn : keeps (stays p key) (call_delete dn).
Proof.
  intros s. unfold call_delete. destruct (session_delete _ _).
  by apply stays_same_nodes.
Qed.

Lemma stays_call_search q : keeps (stays p key) (call_search q).
Proof. apply stays_of_attrR, keeps_call_search. Qed.

Lemma stays__set_changed n v : keeps (stays p key) (_set_changed n v).
Proof. apply stays_of_attrR, keeps__set_changed. Qed.

Lemma stays_attrs n : keeps (stays p key) (attrs n).
Proof. apply stays_of_attrR, keeps_attrs. Qed.

Lemma stays_attributes_factory n :
  keeps (stays p key) (attributes_factory n).
Proof. apply stays_of_attrR, keeps_attributes_factory. Qed.

(** A node as the constructor makes it, put at the end of the
    store. *)
Lemma stays_fresh y s :
  _action y = None → stays p key s (set_nodes (nodes s ++ [y]) s).
Proof.
  intros Hy [(xp & Hp & Hk) Hall]. split.
  - exists xp. split; [|done]. simpl. by apply lookup_app_l_Some.
  - simpl. apply Forall_app. split; [done|].
    apply Forall_singleton. unfold not_adding. by rewrite Hy.
Qed.

End facts.

Create HintDb stays.
#[export] Hint Resolve stays_attrs_upd stays_call_add stays_call_modify
  stays_call_delete stays_call_search stays__set_changed stays_attrs
  stays_attributes_factory : stays.
#[export] Hint Extern 1 (keeps (stays _ _) (node_upd _ _)) =>
  apply stays_node_upd; intros [] ; split; [done|unfold not_adding; done]
  : stays.
#[export] Hint Extern 1 (keeps _ (is_binary _ _)) =>
  apply keeps_is_binary; apply _ : stays.
#[export] Hint Extern 1 (keeps _ (DN _)) => apply keeps_DN; apply _ : stays.
#[export] Hint Extern 1 (keeps _ (need_session _)) =>
  apply keeps_need_session; apply _ : stays.
#[export] Hint Extern 1 (keeps _ (node_get _)) =>
  apply keeps_node_get; apply _ : stays.
#[export] Hint Extern 1 (keeps _ (attrs_get _)) =>
  apply keeps_attrs_get; apply _ : stays.
#[export] Hint Extern 1 (keeps _ (ret _)) =>
  apply keeps_ret; apply _ : stays.
#[export] Hint Extern 1 (keeps _ (raise _)) =>
  apply keeps_raise; apply _ : stays.

Ltac stays_auto := repeat keeps_step; eauto with stays.

Section ops.
Context `{B : Boundary} (p : nat) (key : string).
Implicit Types (s : State) (x : Node) (n : nat).

Lemma keeps_at {A} (R : State → State → Prop) (m : M State A) s :
  keeps R m → R s (m s).2.
Proof. intros K. apply K. Qed.

Lemma stays_getitem n k : keeps (stays p key) (LDAPStorage.__getitem__ n k).
Proof.
  unfold LDAPStorage.__getitem__.
  apply keeps_node_get_bind; [apply _|]. intros x s Hn.
  destruct (od_get k (storage x)); [exact (stays_refl p key s)|].
  rewrite new_child.
  set (fresh := set__parent__ (Some n) (set__name__ (Some k) new_LDAPNode)).
  trans (set_nodes (nodes s ++ [fresh]) s);
    [apply stays_fresh; reflexivity|].
  generalize (set_nodes (nodes s ++ [fresh]) s). intros s1.
  apply (keeps_at (stays p key) _ s1).
  unfold first_dn. stays_auto.
Qed.

Lemma stays_add_attrs a items acc :
  keeps (stays p key) (add_attrs a items acc).
Proof.
  revert acc. induction items as [|[k v] items IH]; intros acc; simpl;
    stays_auto.
Qed.

Lemma stays_ldap_add n : keeps (stays p key) (_ldap_add n).
Proof. unfold _ldap_add. stays_auto. apply stays_add_attrs. Qed.

Lemma stays_ldap_modify n : keeps (stays p key) (_ldap_modify n).
Proof. unfold _ldap_modify, mod_change. stays_auto. Qed.

Lemma stays_ldap_delete n : keeps (stays p key) (_ldap_delete n).
Proof.
  unfold _ldap_delete, parent_remove, storage_del. stays_auto.
Qed.

Lemma stays_bind_at {A C} (m : M State A) (k : A → M State C) s :
  stays p key s (m s).2 → (∀ a, keeps (stays p key) (k a)) →
  stays p key s (bind m k s).2.
Proof.
  intros Hm Hk. unfold bind. destruct (m s) as [[a|e] s1]; [|done].
  simpl in *. etrans; [exact Hm|apply Hk].
Qed.

(** The removal that a node staged for addition makes at its commit
    is not the removal of a stale key. *)
Lemma stays_added_remove n x s :
  nodes s !! n = Some x → _action x = Some ACTION_ADD →
  stays p key s (parent_remove x added_remove s).2.
Proof.
  intros Hn Ha Hst. unfold parent_remove.
  destruct (__parent__ x) as [p'|] eqn:Hp; [|done].
  destruct (__name__ x) as [nm|] eqn:Hnm; [|done].
  unfold added_remove, bind, node_get.
  destruct (nodes s !! p') as [xp'|] eqn:Hp'; [|done].
  case_bool_decide; [|done].
  rewrite (node_upd_ok _ _ _ _ Hp'). cbn [snd].
  apply stays_insert_added; [done| |done].
  intros [= -> ->]. destruct Hst as [_ Hall].
  by apply (Forall_lookup_1 _ _ _ _ Hall Hn).
Qed.

(** X14. A key that is staged for addition on a node while no child
    of that name is staged for addition any more, as [del self[key]]
    leaves the key of a child that was itself staged for addition,
    is never taken out of [_added_children] by a commit: it is there
    after [__call__] on any node, whatever the commit returns or
    raises. *)
Theorem stale_key_survives (fuel n : nat) (s : State) :
  stale p key s → stale p key (__call__ fuel n s).2.
Proof.
  revert n s. induction fuel as [|fuel IH]; intros n s; [done|].
  change (stays p key s (__call__ (S fuel) n s).2).
  revert s. cbn [__call__].
  apply keeps_node_get_bind; [apply _|]. intros x s Hn.
  apply stays_bind_at.
  - destruct (_changed x && negb (bool_decide (_action x = None)));
      [|exact (stays_refl p key s)].
    apply stays_bind_at.
    + destruct (_action x) as [[]|] eqn:Ha.
      * apply stays_bind_at; [by apply (stays_added_remove n)|].
        intros _. apply stays_ldap_add.
      * apply (keeps_at (stays p key)).
        unfold parent_remove, modified_remove.
        stays_auto. apply stays_ldap_modify.
      * apply (keeps_at (stays p key)).
        unfold parent_remove, deleted_remove.
        stays_auto. apply stays_ldap_delete.
      * exact (stays_refl p key s).
    + intros _. stays_auto.
  - intros _. stays_auto.
    + apply stays_getitem.
    + intros s' Hs'. by apply IH.
Qed.

End ops.
End StaleFacts.

Module StaleRuns.
Import MonadFacts StoreFacts ChangedFacts FrameFacts LoadFacts.
Import StaleFacts Scenario.

(** [stale_key_survives] on [root()] after [root['cn=new'] = c;
    del root['cn=new']]. *)
Lemma stale_key_survives_witness :
  let s := deleted_staged in
  stale 0 "cn=new" s
  ∧ stale 0 "cn=new" (after (__call__ 3 0) s).
Proof.
  intros s.
  assert (H : stale 0 "cn=new" s).
  { split.
    - exists (node_at s 0). split; [vm_compute; reflexivity|].
      apply (bool_decide_unpack _). vm_compute. reflexivity.
    - assert (nodes s = [node_at s 0; node_at s 1]) as ->
        by (vm_compute; reflexivity).
      repeat constructor; intros _ _; vm_compute; discriminate. }
  split; [exact H|].
  exact (stale_key_survives 0 "cn=new" 3 0 s H).
Defined.
End StaleRuns.

(** ** Committing a deletion *)

Module CommitDeleteFacts.
Import MonadFacts StoreFacts ChangedFacts FrameFacts LoadFacts SearchFacts.
Import ThrowFacts GrowFacts RemoveFacts GetitemFacts AttrFacts QuietFacts.
Import AddFacts.
Section facts.
Context `{B : Boundary}.
Implicit Types (s : State) (x : Node) (n : nat).

(** The DN of a child is made of its name and of the DN or name of
    its parent, wherever else the states differ. *)
Lemma DN_same c y p xp xp' s s' dn :
  nodes s !! c = Some y → nodes s' !! c = Some y →
  __parent__ y = Some p →
  nodes s !! p = Some xp → nodes s' !! p = Some xp' →
  _dn xp' = _dn xp → __name__ xp' = __name__ xp →
  DN c s = (Ok dn, s) → DN c s' = (Ok dn, s').
Proof.
  intros Hc Hc' Hp Hxp Hxp' Hd Hn Hdn.
  rewrite (DN_child c y p s Hc Hp) in Hdn.
  rewrite (DN_child c y p s' Hc' Hp).
  unfold child_dn in *.
  rewrite (bind_ok _ _ _ _ _ (node_get_ok _ _ _ Hxp)) in Hdn.
  rewrite (bind_ok _ _ _ _ _ (node_get_ok _ _ _ Hxp')).
  rewrite Hd, Hn.
  destruct (__name__ y); [|done].
  destruct (truthy (_dn xp)), (_dn xp), (__name__ xp);
    cbv [ret raise] in *; congruence.
Qed.

(** X15. The commit of a leaf child that is staged for deletion.
    The key is taken out of the parent's [_deleted_children] and the
    child out of the parent's [storage] before the directory is
    asked to delete the entry.  When the directory refuses, the
    commit raises what it raised and the child keeps its action and
    its flag, but the parent has lost the key and the child all the
    same.  When it accepts and the commit returns, the child has no
    action and its flag is down. *)
Theorem call_commits_delete (fuel c p : nat) (y xp : Node)
    (nm dn : string) (r : res unit) (w' : World) (s : State) :
  nodes s !! c = Some y → nodes s !! p = Some xp → p ≠ c →
  _changed y = true → _action y = Some ACTION_DELETE →
  __parent__ y = Some p → __name__ y = Some nm →
  nm ∈ _deleted_children xp → is_Some (od_get nm (storage xp)) →
  _ldap_session y = true → DN c s = (Ok dn, s) →
  session_delete (encode dn) (world s) = (r, w') →
  let xp2 := set_storage (od_del nm (storage xp))
               (set_deleted_children (_deleted_children xp ∖ {[nm]})
                  xp) in
  let s1 := set_world w' (CallDelete (encode dn))
              (set_nodes (<[p := xp2]> (nodes s)) s) in
  match r with
  | Raise e => __call__ (S fuel) c s = (Raise e, s1)
  | Ok _ =>
      ns_attrs y = None → has_staged_children y = false →
      storage y = [] →
      ∀ s', __call__ (S fuel) c s = (Ok tt, s') →
            nodes s' !! c = Some (set_action None (set_changed false y))
            ∧ (∃ xp', nodes s' !! p = Some xp'
                      ∧ storage xp' = storage xp2
                      ∧ _deleted_children xp' = _deleted_children xp2)
            ∧ calls s' = calls s1 ∧ world s' = w'
  end.
Proof.
  intros Hc Hp Hne Hch Ha Hpa Hnm Hdel Hsto Hs Hdn Hq xp2 s1.
  assert (Hlp : p < length (nodes s)) by by eapply lookup_lt_Some.
  (* the removals and the call *)
  set (xpa := set_deleted_children (_deleted_children xp ∖ {[nm]}) xp).
  set (sa := set_nodes (<[p := xpa]> (nodes s)) s).
  set (sb := set_nodes (<[p := xp2]> (nodes s)) s).
  assert (Hpa' : nodes sa !! p = Some xpa).
  { unfold sa. simpl. by apply list_lookup_insert_eq. }
  assert (Hca : nodes sa !! c = Some y).
  { unfold sa. simpl. by rewrite list_lookup_insert_ne. }
  assert (Hpb : nodes sb !! p = Some xp2).
  { unfold sb. simpl. by apply list_lookup_insert_eq. }
  assert (Hcb : nodes sb !! c = Some y).
  { unfold sb. simpl. by rewrite list_lookup_insert_ne. }
  assert (Hrem : parent_remove y deleted_remove s = (Ok tt, sa)).
  { unfold parent_remove. rewrite Hpa, Hnm. unfold deleted_remove.
    rewrite (bind_ok _ _ _ _ _ (node_get_ok _ _ _ Hp)).
    rewrite (bool_decide_eq_true_2 _ Hdel). by apply node_upd_ok. }
  assert (Hsd : storage_del p nm sa = (Ok tt, sb)).
  { unfold storage_del, od_mem.
    rewrite (bind_ok _ _ _ _ _ (node_get_ok _ _ _ Hpa')).
    rewrite (bool_decide_eq_true_2 _ Hsto).
    rewrite (node_upd_ok _ _ _ _ Hpa'). f_equal. unfold sb, sa.
    unfold set_nodes. simpl. by rewrite list_insert_insert_eq. }
  assert (Hdnb : DN c sb = (Ok dn, sb)).
  { by eapply (DN_same c y p xp xp2 s sb). }
  assert (Hld : _ldap_delete c sa = (r, s1)).
  { unfold _ldap_delete.
    rewrite (bind_ok _ _ _ _ _ (node_get_ok _ _ _ Hca)).
    unfold parent_remove. rewrite Hpa, Hnm.
    rewrite (bind_ok _ _ _ _ _ Hsd).
    rewrite (bind_ok _ _ _ _ _ (need_session_ok _ _ _ Hcb Hs)).
    rewrite (bind_ok _ _ _ _ _ Hdnb).
    by apply (call_delete_run (encode dn) sb). }
  assert (Hc1 : nodes s1 !! c = Some y) by done.
  assert (Hp1 : nodes s1 !! p = Some xp2) by done.
  cbn [__call__].
  rewrite (bind_ok _ _ _ _ _ (node_get_ok _ _ _ Hc)).
  rewrite Hch, Ha. cbn [andb negb bool_decide decide_rel].
  rewrite bool_decide_eq_false_2 by done. cbn [negb].
  assert (Hsend : (parent_remove y deleted_remove ;; _ldap_delete c) s
                  = (r, s1)).
  { by rewrite (bind_ok _ _ _ _ _ Hrem). }
  destruct r as [[]|e].
  - intros Hns Hst Hsto' s' H.
    apply bind_ok_inv in H as ([] & sx & Hown & H).
    rewrite (bind_ok _ _ _ _ _ Hsend) in Hown.
    rewrite (bind_ok _ _ _ _ _ (node_get_ok _ _ _ Hc1)) in Hown.
    rewrite Hns in Hown.
    rewrite (bind_ok (ret tt) _ s1 tt s1 eq_refl) in Hown.
    apply bind_ok_inv in Hown as ([] & sd & Ed & He).
    destruct (set_changed_false_spec _ _ _ _ _ Ed Hc1)
      as (Rd & y' & Hcd & Py & Hlow).
    assert (Hy' : y' = set_changed false y).
    { destruct (flagP_fields _ _ _ Py) as (_ & _ & Hns' & Hst').
      assert (_changed y' = false) as Hf.
      { apply Hlow; [done|]. unfold blocked, registered_changed.
        by rewrite Hst', Hst, Hns', Hns. }
      destruct Py as [->| ->]; [congruence|done]. }
    subst y'.
    pose proof Rd as (_ & Hw & Hcalls & _ & Nd).
    destruct (Nd _ _ Hp1) as (xpd & Hpd & Pp).
    rewrite (node_upd_ok _ _ _ _ Hcd) in He.
    set (sf := set_nodes _ sd) in He.
    assert (sx = sf) as -> by congruence. clear He.
    assert (Hcf : nodes sf !! c
                  = Some (set_action None (set_changed false y))).
    { unfold sf. by rewrite (lookup_upd _ _ _ _ _ Hcd), decide_True. }
    assert (Hpf : nodes sf !! p = Some xpd).
    { unfold sf. simpl. rewrite list_lookup_insert_ne by done. done. }
    rewrite (bind_ok _ _ _ _ _ (node_get_ok _ _ _ Hcf)) in H.
    assert (_deleted_children (set_action None (set_changed false y))
            = ∅) as Hde.
    { unfold has_staged_children in Hst.
      apply orb_false_iff in Hst as [_ Hst].
      apply negb_false_iff, bool_decide_eq_true in Hst. by destruct y. }
    rewrite Hde, elements_empty in H. cbn [map_m] in H.
    rewrite (bind_ok (ret []) _ sf [] sf eq_refl) in H.
    rewrite (bind_ok _ _ _ _ _ (node_get_ok _ _ _ Hcf)) in H.
    assert (storage (set_action None (set_changed false y)) = [])
      as Hse by by destruct y.
    rewrite Hse in H. cbn [fmap list_fmap app for_each] in H.
    assert (s' = sf) as -> by (cbv [ret] in H; congruence).
    split; [done|]. split; [|split].
    + exists xpd. split; [done|].
      destruct Pp as [->| ->]; by destruct xp.
    + unfold sf. simpl. by rewrite Hcalls.
    + unfold sf. simpl. by rewrite Hw.
  - apply bind_raise. by apply bind_raise.
Qed.

End facts.
End CommitDeleteFacts.

Module CommitDeleteRuns.
Import MonadFacts StoreFacts ChangedFacts FrameFacts LoadFacts.
Import CommitDeleteFacts Scenario.

(** [call_commits_delete] on the child [cn=a] after
    [del root['cn=a']], which the directory deletes, and on the child
    [cn=new] that was staged for addition before it was deleted, which
    the directory does not know. *)
Lemma call_commits_delete_witness :
  let s := deleted_child in
  let t := deleted_staged in
  let gone nm xp :=
    set_storage (od_del nm (storage xp))
      (set_deleted_children (_deleted_children xp ∖ {[nm]}) xp) in
  (let s' := after (__call__ 2 1) s in
   __call__ 2 1 s = (Ok tt, s')
   ∧ nodes s' !! 1
     = Some (set_action None (set_changed false (node_at s 1)))
   ∧ (∃ xp', nodes s' !! 0 = Some xp'
             ∧ storage xp' = storage (gone "cn=a" (node_at s 0))
             ∧ _deleted_children xp'
               = _deleted_children (gone "cn=a" (node_at s 0)))
   ∧ calls s'
     = calls (set_world [("dc=my", [("dc", ["my"])])]
                (CallDelete (encode "cn=a,dc=my"))
                (set_nodes (<[0 := gone "cn=a" (node_at s 0)]> (nodes s))
                   s))
   ∧ world s' = [("dc=my", [("dc", ["my"])])])
  ∧ __call__ 2 1 t
    = (Raise NO_SUCH_OBJECT,
       set_world (world t) (CallDelete (encode "cn=new,dc=my"))
         (set_nodes (<[0 := gone "cn=new" (node_at t 0)]> (nodes t)) t)).
Proof.
  intros s t gone.
  assert (Hne : 0 ≠ 1) by discriminate.
  split.
  - intros s'.
    assert (E : __call__ 2 1 s = (Ok tt, s')).
    { refine (run_eq (__call__ 2 1) s _ _). vm_compute. reflexivity. }
    split; [exact E|].
    refine (call_commits_delete 1 1 0 (node_at s 1) (node_at s 0)
              "cn=a" "cn=a,dc=my" (Ok tt) [("dc=my", [("dc", ["my"])])] s
              _ _ Hne _ _ _ _ _ _ _ _ _ _ _ _ s' E).
    + vm_compute. reflexivity.
    + vm_compute. reflexivity.
    + vm_compute. reflexivity.
    + vm_compute. reflexivity.
    + vm_compute. reflexivity.
    + vm_compute. reflexivity.
    + apply (bool_decide_unpack _). vm_compute. reflexivity.
    + apply (bool_decide_unpack _). vm_compute. reflexivity.
    + vm_compute. reflexivity.
    + apply LoadRuns.DN_run. vm_compute. reflexivity.
    + vm_compute. reflexivity.
    + vm_compute. reflexivity.
    + vm_compute. reflexivity.
    + vm_compute. reflexivity.
  - refine (call_commits_delete 1 1 0 (node_at t 1) (node_at t 0)
              "cn=new" "cn=new,dc=my" (Raise NO_SUCH_OBJECT) (world t) t
              _ _ Hne _ _ _ _ _ _ _ _ _).
    + vm_compute. reflexivity.
    + vm_compute. reflexivity.
    + vm_compute. reflexivity.
    + vm_compute. reflexivity.
    + vm_compute. reflexivity.
    + vm_compute. reflexivity.
    + apply (bool_decide_unpack _). vm_compute. reflexivity.
    + apply (bool_decide_unpack _). vm_compute. reflexivity.
    + vm_compute. reflexivity.
    + apply LoadRuns.DN_run. vm_compute. reflexivity.
    + vm_compute. reflexivity.
Defined.
End CommitDeleteRuns.

(** ** Loads that do not reach the removal *)

Module GuardFacts.
Import MonadFacts StoreFacts ChangedFacts FrameFacts LoadFacts.
Import ThrowFacts GrowFacts RemoveFacts SearchFacts GetitemFacts AttrFacts.
Section facts.
Context `{B : Boundary} (a n : nat).
Implicit Types (s : State) (x : Node).

Lemma same_modified_refl s : same_modified s s.
Proof. split; [done|]. eauto. Qed.

Lemma same_modified_trans s1 s2 s3 :
  same_modified s1 s2 → same_modified s2 s3 → same_modified s1 s3.
Proof.
  intros [L1 N1] [L2 N2]. split; [congruence|]. intros i x Hx.
  destruct (N1 _ _ Hx) as (x2 & Hx2 & E2).
  destruct (N2 _ _ Hx2) as (x3 & Hx3 & E3).
  exists x3. split; [done|]. congruence.
Qed.

Lemma same_modified_nodes s s' : nodes s' = nodes s → same_modified s s'.
Proof. intros E. unfold same_modified. rewrite E. eauto. Qed.

Lemma same_modified_upd i x f s :
  nodes s !! i = Some x →
  _modified_children (f x) = _modified_children x →
  same_modified s (set_nodes (<[i := f x]> (nodes s)) s).
Proof.
  intros Hi Hf. split; [simpl; by rewrite length_insert|].
  intros j y Hj. rewrite (lookup_upd i j f s x Hi).
  case_decide as E; [|eauto]. subst j. simplify_eq. eauto.
Qed.

Lemma same_modified_flagR v s s' : flagR v s s' → same_modified s s'.
Proof.
  intros (_ & _ & _ & L & N). split; [done|]. intros i x Hx.
  destruct (N _ _ Hx) as (x' & Hx' & P). exists x'. split; [done|].
  by destruct (flagP_fields _ _ _ P) as (_ & -> & _).
Qed.

Global Instance calm_refl : Reflexive (calm a n).
Proof. intros s H. split; [done|apply same_modified_refl]. Qed.

Global Instance calm_trans : Transitive (calm a n).
Proof.
  intros s1 s2 s3 H1 H2 U1. destruct (H1 U1) as [U2 M1].
  destruct (H2 U2) as [U3 M2]. split; [done|].
  by eapply same_modified_trans.
Qed.

(** Nothing but the world and the log changes. *)
Lemma calm_same s s' :
  nodes s' = nodes s → attrs_heap s' = attrs_heap s → calm a n s s'.
Proof.
  intros En Eh (o & x & Ho & Hp & Hx & Hc). split.
  - exists o, x. by rewrite En, Eh.
  - by apply same_modified_nodes.
Qed.

Lemma calm_call_search q : keeps (calm a n) (call_search q).
Proof.
  intros s. unfold call_search. destruct (session_search _ _).
  by apply calm_same.
Qed.

Lemma calm_attrs_upd (f : Attrs → Attrs) :
  (∀ o, a_parent (f o) = a_parent o) →
  keeps (calm a n) (attrs_upd a f).
Proof.
  intros Hf s. unfold attrs_upd.
  destruct (attrs_heap s !! a) as [o|] eqn:Ho; [|reflexivity].
  intros (o0 & x & Ho0 & Hp & Hx & Hc). simplify_eq. split.
  - exists (f o), x. split; [|by rewrite Hf].
    simpl. apply list_lookup_insert_eq. by eapply lookup_lt_Some.
  - by apply same_modified_nodes.
Qed.

(** On an unhooked owner, marking the attributes modified stops
    short of the parent. *)
Lemma calm__set_attrs_modified : keeps (calm a n) (_set_attrs_modified a).
Proof.
  intros s (o & x & Ho & Hp & Hx & Hc). subst n.
  unfold _set_attrs_modified.
  rewrite (bind_ok _ _ _ _ _ (attrs_get_ok _ _ _ Ho)). cbv zeta.
  rewrite (bind_ok _ _ _ _ _ (attrs_upd_ok _ _ _ _ Ho)).
  set (s1 := set_attrs_heap _ s).
  assert (Ho1 : attrs_heap s1 !! a = Some (set_a_changed true o)).
  { unfold s1. simpl. apply list_lookup_insert_eq.
    by eapply lookup_lt_Some. }
  assert (Hx1 : nodes s1 !! a_parent o = Some x) by done.
  rewrite (bind_ok _ _ _ _ _ (node_get_ok _ _ _ Hx1)).
  destruct (action_staged (_action x)) eqn:Hst; cbn [negb].
  { split; [|by apply same_modified_nodes].
    exists (set_a_changed true o), x.
    split; [done|]. split; [done|]. split; [done|]. by left. }
  destruct Hc as [Hc|Hpar]; [done|].
  rewrite (bind_ok _ _ _ _ _ (node_upd_ok _ _ _ _ Hx1)).
  set (x2 := set_action (Some ACTION_MODIFY) x).
  set (s2 := set_nodes _ s1).
  assert (Hx2 : nodes s2 !! a_parent o = Some x2).
  { unfold s2. by rewrite (lookup_upd _ _ _ _ _ Hx1), decide_True. }
  assert (M2 : same_modified s s2).
  { apply (same_modified_trans _ s1); [by apply same_modified_nodes|].
    apply same_modified_upd; [done|by destruct x]. }
  destruct (_set_changed (a_parent o) true s2) as [r3 s3] eqn:E3.
  destruct (set_changed_true_spec _ _ _ _ _ E3 Hx2) as (R3 & Hx3).
  pose proof R3 as (Hh3 & _).
  assert (U3 : unhooked a (a_parent o) s3).
  { exists (set_a_changed true o), (set_changed true x2).
    rewrite Hh3. split; [done|]. split; [done|]. split; [done|].
    right. by destruct x. }
  assert (M3 : same_modified s s3).
  { apply (same_modified_trans _ s2); [done|].
    by eapply same_modified_flagR. }
  destruct r3 as [[]|e];
    [|rewrite (bind_raise _ _ _ _ _ E3); simpl; split;
      [exact U3|exact M3]].
  rewrite (bind_ok _ _ _ _ _ E3).
  rewrite (bind_ok _ _ _ _ _ (node_get_ok _ _ _ Hx3)).
  assert (__parent__ (set_changed true x2) = None) as ->
    by by destruct x.
  simpl. split; [exact U3|exact M3].
Qed.

Lemma calm_attrs_setitem key val :
  keeps (calm a n) (LDAPAttributesBehavior.__setitem__ a key val).
Proof.
  unfold LDAPAttributesBehavior.__setitem__. repeat keeps_step.
  - apply keeps_is_binary; apply _.
  - by apply calm_attrs_upd.
  - apply calm__set_attrs_modified.
Qed.

Lemma calm_attrs_delitem key :
  keeps (calm a n) (LDAPAttributesBehavior.__delitem__ a key).
Proof.
  unfold LDAPAttributesBehavior.__delitem__. repeat keeps_step.
  - by apply calm_attrs_upd.
  - apply calm__set_attrs_modified.
Qed.

Lemma calm_clear : keeps (calm a n) (clear a).
Proof.
  unfold clear. repeat keeps_step.
  - apply calm_attrs_delitem.
  - by apply calm_attrs_upd.
Qed.

Lemma calm_load_item kv : keeps (calm a n) (load_item a kv).
Proof.
  unfold load_item. destruct kv as [key item]. repeat keeps_step.
  all: first [apply calm_attrs_setitem
             | apply keeps_is_multivalued; apply _].
Qed.

(** On an unhooked node the end of [load] makes no removal: it
    returns at once on a staged node, and a node without a parent
    has its action and flag reset only. *)
Lemma unset_markers_unhooked s :
  unhooked a n s →
  unhooked a n (unset_markers n s).2
  ∧ same_modified s (unset_markers n s).2
  ∧ (unset_markers n s).1 ≠ Raise KeyError.
Proof.
  intros (o & x & Ho & Hp & Hx & Hc). unfold unset_markers.
  rewrite (bind_ok _ _ _ _ _ (node_get_ok _ _ _ Hx)).
  destruct (action_staged (_action x)) eqn:Hst; cbn [negb].
  { split; [|split; [apply same_modified_refl|done]].
    exists o, x. rewrite Hst. eauto. }
  destruct Hc as [Hc|Hpar]; [done|]. rewrite Hpar.
  rewrite (bind_ok (ret tt) _ s tt s eq_refl).
  rewrite (bind_ok _ _ _ _ _ (node_upd_ok _ _ _ _ Hx)).
  set (x2 := set_action None x). set (s2 := set_nodes _ s).
  assert (Hx2 : nodes s2 !! n = Some x2).
  { unfold s2. by rewrite (lookup_upd _ _ _ _ _ Hx), decide_True. }
  destruct (_set_changed n false s2) as [r3 s3] eqn:E3.
  pose proof (_set_changed_flagR n false s2) as R3. rewrite E3 in R3.
  simpl in R3. pose proof R3 as (Hh3 & _ & _ & _ & N3).
  destruct (N3 _ _ Hx2) as (x3 & Hx3 & P3).
  simpl. split; [|split].
  - exists o, x3. rewrite Hh3. split; [done|]. split; [done|].
    split; [done|]. right.
    destruct P3 as [->| ->]; by destruct x.
  - apply (same_modified_trans _ s2).
    + apply same_modified_upd; [done|by destruct x].
    + by eapply same_modified_flagR.
  - intros ->. apply internal_not_KeyError.
    eapply (throws_run internal (_set_changed n false));
      [apply throws__set_changed|exact E3].
Qed.

Lemma calm_unset_markers : keeps (calm a n) (unset_markers n).
Proof.
  intros s U. destruct (unset_markers_unhooked s U) as (? & ? & _).
  by split.
Qed.

Lemma calm_load : keeps (calm a n) (load a).
Proof.
  intros s U. pose proof U as (o & x & Ho & Hp & Hx & Hc).
  enough (calm a n s (load a s).2) as K by exact (K U).
  unfold load.
  rewrite (bind_ok _ _ _ _ _ (attrs_get_ok _ _ _ Ho)). cbv zeta.
  rewrite Hp. apply (StaleFacts.keeps_at (calm a n)).
  repeat keeps_step.
  all: first [apply calm_clear | apply calm_call_search
             | apply calm_load_item | apply calm_unset_markers
             | by apply calm_attrs_upd
             | apply keeps_DN; apply _].
Qed.

Lemma load_returns_at_once o x s :
  attrs_heap s !! a = Some o → a_parent o = n → nodes s !! n = Some x →
  truthy (__name__ x) = false ∨ _ldap_session x = false
  ∨ _action x = Some ACTION_ADD →
  load a s = (Ok tt, s).
Proof.
  intros Ho Hp Hx Hc. unfold load.
  rewrite (bind_ok _ _ _ _ _ (attrs_get_ok _ _ _ Ho)). cbv zeta.
  rewrite Hp. rewrite (bind_ok _ _ _ _ _ (node_get_ok _ _ _ Hx)).
  destruct Hc as [->|[->| ->]]; [done| |].
  - by rewrite orb_true_r.
  - by rewrite orb_true_r.
Qed.

End facts.

Section claim.
Context `{B : Boundary}.
Implicit Types (s : State) (x : Node).

(** C10, as the code has it.  On a child that is not staged, [load]
    removes the child's name from the parent's set of modified
    children without a test.  It raises [KeyError] exactly when the
    fetched entry has no attribute and the name was not in the set
    when the fetch began: every attribute that is loaded is written
    through [__setitem__], which puts the name into the set.  A node
    that is staged for addition returns from [load] at once.  On a
    node that is staged for addition or deletion, or that has no
    parent, [load] changes no set of modified children, and with the
    same fetch it does not raise [KeyError]: the removal is not
    reached. *)
Theorem load_remove_raises (a n : nat) (o : Attrs) (x : Node)
    (s : State) :
  attrs_heap s !! a = Some o → a_parent o = n →
  nodes s !! n = Some x →
  (∀ p nm y dn dn0 eattrs s1 w2,
     truthy (__name__ x) = true → _ldap_session x = true →
     action_staged (_action x) = false →
     __parent__ x = Some p → __name__ x = Some nm →
     clear a s = (Ok tt, s1) → nodes s1 !! p = Some y →
     DN n s1 = (Ok dn, s1) →
     session_search (fetch_query dn (_reload x)) (world s1)
       = (Ok (Plain [(dn0, eattrs)]), w2) →
     (load a s).1 = Raise KeyError
     ↔ eattrs = [] ∧ nm ∉ _modified_children y)
  ∧ (_action x = Some ACTION_ADD → load a s = (Ok tt, s))
  ∧ (action_staged (_action x) = true ∨ __parent__ x = None →
     same_modified s (load a s).2
     ∧ ∀ dn dn0 eattrs s1 w2,
         clear a s = (Ok tt, s1) → DN n s1 = (Ok dn, s1) →
         session_search (fetch_query dn (_reload x)) (world s1)
           = (Ok (Plain [(dn0, eattrs)]), w2) →
         (load a s).1 ≠ Raise KeyError).
Proof.
  intros Ho Hp Hx. split; [|split].
  - intros p nm y dn dn0 eattrs s1 w2 Hname Hsess Hst Hpar Hnm E1 Hy
      E2 E4.
    by eapply (load_remove_iff a n p o x y nm dn dn0 eattrs s s1 w2).
  - intros Ha. eapply load_returns_at_once; eauto.
  - intros Hc.
    assert (U : unhooked a n s) by (exists o, x; eauto).
    split; [exact (proj2 (calm_load a n s U))|].
    intros dn dn0 eattrs s1 w2 E1 E2 E4.
    destruct (truthy (__name__ x)) eqn:Hname; cycle 1.
    { rewrite (load_returns_at_once a n o x s); eauto. }
    destruct (_ldap_session x) eqn:Hsess; cycle 1.
    { rewrite (load_returns_at_once a n o x s); eauto. }
    destruct (decide (_action x = Some ACTION_ADD)) as [Ha|Ha].
    { rewrite (load_returns_at_once a n o x s); eauto. }
    destruct (load_fetched _ _ _ _ _ _ _ _ _ _ Ho Hp Hx Hname Hsess Ha
                E1 E2 E4) as [-> _].
    set (s2 := set_world _ _ s1).
    destruct (keeps_run (calm a n) _ _ _ _ (calm_clear a n) E1 U)
      as [U1 _].
    assert (U2 : unhooked a n s2).
    { by apply (calm_same a n s1 s2). }
    destruct (for_each eattrs (load_item a) s2) as [[[]|e] s3] eqn:E5.
    2:{ rewrite (bind_raise _ _ _ _ _ E5). simpl. intros [= ->].
        apply internal_not_KeyError.
        eapply throws_run; [|exact E5].
        apply throws_for_each, throws_load_item. }
    rewrite (bind_ok _ _ _ _ _ E5).
    assert (U3 : unhooked a n s3).
    { refine (proj1 (keeps_run (calm a n) _ _ _ _ _ E5 U2)).
      apply keeps_for_each; [apply _..|].
      intros kv. apply calm_load_item. }
    pose proof U3 as (o3 & x3 & Ho3 & _).
    rewrite (bind_ok _ _ _ _ _ (attrs_upd_ok _ _ _ _ Ho3)).
    set (s4 := set_attrs_heap _ s3).
    assert (U4 : unhooked a n s4).
    { refine (proj1 (keeps_run (calm a n) _ _ _ _
                       (calm_attrs_upd a n (set_a_changed false) _)
                       (attrs_upd_ok _ _ _ _ Ho3) U3)).
      done. }
    exact (proj2 (proj2 (unset_markers_unhooked a n s4 U4))).
Qed.

End claim.
End GuardFacts.

Module GuardRuns.
Import MonadFacts StoreFacts ChangedFacts FrameFacts LoadFacts.
Import ThrowFacts GrowFacts RemoveFacts GuardFacts Scenario LoadRuns.

(** [load_remove_raises] on the child without attributes, whose first
    access to [attrs] raises; on the child staged for addition, whose
    load returns at once; and on the child staged for deletion, whose
    load fetches the entry and leaves the root's set alone. *)
Lemma load_remove_raises_witness :
  let s := looked_up_bare in
  let s1 := after (clear 0) s in
  let x := node_at s 1 in
  let t := deleted_bare in
  (clear 0 s = (Ok tt, s1)
   ∧ DN 1 s1 = (Ok "cn=e,dc=my", s1)
   ∧ session_search (fetch_query "cn=e,dc=my" (_reload x)) (world s1)
     = (Ok (Plain [("cn=e,dc=my", [])]), world s1)
   ∧ ("cn=e" ∉ _modified_children (node_at s1 0))
   ∧ (load 0 s).1 = Raise KeyError)
  ∧ load 0 staged_add = (Ok tt, staged_add)
  ∧ same_modified t (load 0 t).2
  ∧ (load 0 t).1 ≠ Raise KeyError.
Proof.
  intros s s1 x t.
  assert (Ho : attrs_heap s !! 0 = Some (attrs_at s 0))
    by (vm_compute; reflexivity).
  assert (Hn : nodes s !! 1 = Some x) by (vm_compute; reflexivity).
  assert (Hc : clear 0 s = (Ok tt, s1)).
  { refine (run_eq (clear 0) s _ _). vm_compute. reflexivity. }
  assert (Hy : nodes s1 !! 0 = Some (node_at s1 0))
    by (vm_compute; reflexivity).
  assert (Hd : DN 1 s1 = (Ok "cn=e,dc=my", s1)).
  { apply DN_run. vm_compute. reflexivity. }
  assert (Hs : session_search (fetch_query "cn=e,dc=my" (_reload x))
                 (world s1)
               = (Ok (Plain [("cn=e,dc=my", [])]), world s1))
    by (vm_compute; reflexivity).
  assert (Hnin : "cn=e" ∉ _modified_children (node_at s1 0)).
  { apply (bool_decide_eq_false_1 (_ ∈ _)). vm_compute. reflexivity. }
  split; [|split].
  - split; [exact Hc|]. split; [exact Hd|]. split; [exact Hs|].
    split; [exact Hnin|].
    refine (proj2 (proj1 (load_remove_raises 0 1 (attrs_at s 0) x s
                            Ho _ Hn)
                     0 "cn=e" (node_at s1 0) "cn=e,dc=my" "cn=e,dc=my" []
                     s1 (world s1) _ _ _ _ _ Hc Hy Hd Hs)
              (conj eq_refl Hnin));
      vm_compute; reflexivity.
  - refine (proj1 (proj2 (load_remove_raises 0 1 (attrs_at staged_add 0)
                            (node_at staged_add 1) staged_add _ _ _)) _);
      vm_compute; reflexivity.
  - assert (Hto : attrs_heap t !! 0 = Some (attrs_at t 0))
      by (vm_compute; reflexivity).
    assert (Htn : nodes t !! 1 = Some (node_at t 1))
      by (vm_compute; reflexivity).
    assert (Htc : clear 0 t = (Ok tt, t)).
    { etrans; [refine (run_eq (clear 0) t (Ok tt) _)|].
      - vm_compute. reflexivity.
      - f_equal. }
    assert (Htd : DN 1 t = (Ok "cn=a,dc=my", t)).
    { apply DN_run. vm_compute. reflexivity. }
    destruct (proj2 (proj2 (load_remove_raises 0 1 (attrs_at t 0)
                              (node_at t 1) t Hto eq_refl Htn)))
      as [Hsame Hno].
    { left. vm_compute. reflexivity. }
    split; [exact Hsame|].
    refine (Hno "cn=a,dc=my" "cn=a,dc=my" [("cn", ["a"]); ("sn", ["x"])]
              t (world t) Htc Htd _).
    vm_compute. reflexivity.
Defined.
End GuardRuns.
